(** * LocalAgent-Ollama: a shallow embedding of the extension's core

    The repository is a browser extension made of three scripts:
    - the content script ([extractPageContent]), which flattens a page to text;
    - the background service worker ([generateWithOllama], [extractTabContent],
      [extractActiveTabContent], [handleQuery], [handleStreamingQuery]);
    - the side panel ([init], [loadModels], [parseTabMentions]).

    JavaScript strings are modelled by [string]: one [ascii] stands for one
    UTF-16 code unit, restricted to the code units below 256.  JavaScript
    numbers that are lengths, ids or HTTP statuses are modelled by [Z].
    [undefined] and [null] are [None] of an [option]. *)

From Stdlib Require Import ZArith Lia List Ascii String Bool DecimalString.
From stdpp Require Import base option list strings gmap.

Local Open Scope Z_scope.

(** ** JavaScript string primitives used by the three scripts *)

Module Js.

(** The line feed, the double quote: string literals of this file hold
    neither, so they are named. *)
Definition lf : ascii := "010"%char.
Definition dquote : ascii := "034"%char.
Definition nl : string := String lf "".
Definition quote : string := String dquote "".

(** [s.length] *)
Definition len (s : string) : Z := Z.of_nat (String.length s).

(** Truthiness of a string: only the empty string is falsy. *)
Definition truthy (s : string) : bool :=
  match s with
  | EmptyString => false
  | String _ _ => true
  end.

(** [v || d] for a possibly undefined string [v]. *)
Definition or_else (v : option string) (d : string) : string :=
  match v with
  | Some s => if truthy s then s else d
  | None => d
  end.

(** A possibly undefined string inside a template literal. *)
Definition interp (v : option string) : string :=
  match v with
  | Some s => s
  | None => "undefined"
  end.

(** A number inside a template literal (integers only). *)
Definition interp_num (n : Z) : string :=
  NilEmpty.string_of_int (Z.to_int n).

(** [s.startsWith(p)] *)
Definition startsWith (s p : string) : bool := String.prefix p s.

(** [s.endsWith(p)] *)
Definition endsWith (s p : string) : bool :=
  let ls := String.length s in
  let lp := String.length p in
  if (lp <=? ls)%nat
  then String.eqb (String.substring (ls - lp) lp s) p
  else false.

(** The characters matched by [\s] and removed by [trim], among the code
    units below 256: TAB, LF, VT, FF, CR, SPACE and NBSP. *)
Definition is_whitespace (c : ascii) : bool :=
  match c with
  | "009" | "010" | "011" | "012" | "013" | " " | "160" => true
  | _ => false
  end%char.

Fixpoint trimStart (s : string) : string :=
  match s with
  | EmptyString => EmptyString
  | String c rest => if is_whitespace c then trimStart rest else s
  end.

(** [trimEnd s] keeps a character when it is not whitespace or when
    something survives after it. *)
Fixpoint trimEnd (s : string) : string :=
  match s with
  | EmptyString => EmptyString
  | String c rest =>
      match trimEnd rest with
      | EmptyString => if is_whitespace c then EmptyString else String c EmptyString
      | kept => String c kept
      end
  end.

(** [s.trim()] *)
Definition trim (s : string) : string := trimEnd (trimStart s).

(** [s.split(sep)] for a one-character separator: always at least one
    piece, empty pieces kept. *)
Fixpoint split_on (sep : ascii) (s : string) : list string :=
  match s with
  | EmptyString => [EmptyString]
  | String c rest =>
      match split_on sep rest with
      | piece :: pieces =>
          if Ascii.eqb c sep then EmptyString :: piece :: pieces
          else String c piece :: pieces
      | [] => [String c EmptyString]
      end
  end.

(** [parts.join(sep)] *)
Definition join (sep : string) (parts : list string) : string :=
  String.concat sep parts.

(** [s.substring(0, n)] *)
Definition substring_to (n : Z) (s : string) : string :=
  String.substring 0 (Z.to_nat n) s.

(** [s.replace(/\s+/g, ' ')]: every maximal run of whitespace becomes one
    space.  [in_run] tells that the previous character was whitespace. *)
Fixpoint collapse_whitespace_from (in_run : bool) (s : string) : string :=
  match s with
  | EmptyString => EmptyString
  | String c rest =>
      if is_whitespace c
      then if in_run then collapse_whitespace_from true rest
           else String " " (collapse_whitespace_from true rest)
      else String c (collapse_whitespace_from false rest)
  end.

Definition collapse_whitespace (s : string) : string :=
  collapse_whitespace_from false s.

(** For [/\n\s*\n/]: the number of characters of [s], counted from its
    head, up to and including the last line feed of its leading run of
    whitespace ([None] when that run has no line feed).  [\s*] is greedy,
    so the match ends at the last line feed it can reach. *)
Fixpoint blank_span (s : string) (seen : nat) (last : option nat) : option nat :=
  match s with
  | EmptyString => last
  | String c rest =>
      if is_whitespace c
      then blank_span rest (S seen)
             (if Ascii.eqb c lf then Some (S seen) else last)
      else last
  end.

(** [s.replace(/\n\s*\n/g, '\n\n')].  [skip] counts the characters still
    to drop because they belong to a match already replaced. *)
Fixpoint collapse_blank_lines_from (skip : nat) (s : string) : string :=
  match s with
  | EmptyString => EmptyString
  | String c rest =>
      match skip with
      | S k => collapse_blank_lines_from k rest
      | O =>
          if Ascii.eqb c lf
          then match blank_span rest 0 None with
               | Some n => String lf (String lf (collapse_blank_lines_from n rest))
               | None => String c (collapse_blank_lines_from 0 rest)
               end
          else String c (collapse_blank_lines_from 0 rest)
      end
  end.

Definition collapse_blank_lines (s : string) : string :=
  collapse_blank_lines_from 0 s.

(** [s] holds a line feed. *)
Fixpoint has_lf (s : string) : bool :=
  match s with
  | EmptyString => false
  | String c rest => Ascii.eqb c lf || has_lf rest
  end.

(** Every character of [s] is whitespace. *)
Fixpoint all_whitespace (s : string) : bool :=
  match s with
  | EmptyString => true
  | String c rest => is_whitespace c && all_whitespace rest
  end.

End Js.

(** ** Results of JavaScript code that may throw *)

(** [Throw msg] is an exception whose [message] is [msg]. *)
Inductive Res (A : Type) : Type :=
| Ok (a : A)
| Throw (msg : string).
Arguments Ok {A} a.
Arguments Throw {A} msg.

(** ** The content script *)

Module ContentScript.

Definition MAX_CONTENT : Z := 10000.
Definition ELLIPSIS : string := "...".

(** The view of the page the script works on.  [page_text] is the outcome
    of the DOM part of the function (choice of the container, clone,
    removal of the unwanted elements, [textContent || innerText || '']):
    the text, or the exception a DOM call raised. *)
Record Page := {
  page_title : string;
  page_href : string;
  page_text : Res string
}.

Record PageData := {
  title : string;
  url : string;
  content : string;
  contentLength : Z
}.

Inductive ExtractResponse :=
| ExtractOk (data : PageData)
| ExtractErr (error : string).

(** The whitespace clean-up: the two [replace] calls, then [trim]. *)
Definition clean_whitespace (raw : string) : string :=
  Js.trim (Js.collapse_blank_lines (Js.collapse_whitespace raw)).

(** The size limit. *)
Definition limit_content (mainContent : string) : string :=
  if MAX_CONTENT <? Js.len mainContent
  then Js.substring_to MAX_CONTENT mainContent +:+ ELLIPSIS
  else mainContent.

Definition extractPageContent (p : Page) : ExtractResponse :=
  match page_text p with
  | Throw msg => ExtractErr msg
  | Ok raw =>
      let mainContent := limit_content (clean_whitespace raw) in
      ExtractOk {| title := page_title p;
                   url := page_href p;
                   content := mainContent;
                   contentLength := Js.len mainContent |}
  end.

End ContentScript.

(** ** The background service worker *)

Module Background.

(** *** Platform calls and their observable trace *)

(** The notifications [chrome.runtime.sendMessage] carries to the panel. *)
Inductive StreamMessage :=
| streamChunk (messageId : option string) (chunk fullText : string)
| streamComplete (messageId : option string) (text : string) (model : option string)
| streamError (messageId : option string) (error : string).

(** One event per call that leaves the worker. *)
Inductive Event :=
| TabsGet (tabId : Z)
| TabsQueryActive
| TabsSendMessage (tabId : Z)
| ExecuteScript (tabId : Z)
| FetchGenerate (model prompt : string)
| RuntimeSendMessage (m : StreamMessage).

(** Page scripting: a message to the content script of a tab, or the
    injection of the content script into a tab. *)
Definition is_scripting (e : Event) : bool :=
  match e with
  | TabsSendMessage _ | ExecuteScript _ => true
  | _ => false
  end.

(** A tab as [chrome.tabs] reports it; [title] and [url] may be missing. *)
Record Tab := {
  tab_id : Z;
  tab_title : option string;
  tab_url : option string;
  tab_active : bool
}.

(** How the body of a response ends: [reader.read()] reports [done], or
    it rejects. *)
Inductive StreamEnd :=
| EndOfStream
| ReadFails (msg : string).

(** The response to [POST /api/generate]: [body] lists the values of the
    successive [reader.read()] calls, already decoded to text. *)
Record FetchResponse := {
  ok : bool;
  status : Z;
  body : list string;
  body_end : StreamEnd
}.

(** A record of the generation stream, [{response?, done?, model?,
    context?}], with the types the inference server gives its fields; a
    missing [done] is [false]. *)
Record GenRecord := {
  rec_response : option string;
  rec_done : bool;
  rec_model : option string;
  rec_context : option (list Z)
}.

(** What the platform answers.  [tabs_sendMessage tabId n] is the outcome
    of the [n]-th [extractContent] message of one extraction to [tabId]
    ([0] before any injection, [1] after it): it rejects, resolves with
    [undefined] ([None]), or resolves with the content script's answer.
    [JSON_parse line] is [None] when [JSON.parse] throws. *)
Record Platform := {
  tabs_get : Z -> Res (option Tab);
  tabs_query_active : Res (list Tab);
  tabs_sendMessage : Z -> nat -> Res (option ContentScript.ExtractResponse);
  scripting_executeScript : Z -> Res unit;
  fetch_generate : string -> string -> Res FetchResponse;
  JSON_parse : string -> option GenRecord
}.

(** A computation that may throw and that records the calls it makes. *)
Definition Eff (A : Type) : Type := Res A * list Event.

Definition ret {A} (a : A) : Eff A := (Ok a, []).

Definition throw {A} (msg : string) : Eff A := (Throw msg, []).

Definition bind {A B} (m : Eff A) (k : A -> Eff B) : Eff B :=
  match m with
  | (Ok a, t) => let '(r, t') := k a in (r, t ++ t')
  | (Throw msg, t) => (Throw msg, t)
  end.

(** [try { m } catch (error) { handler error.message }] *)
Definition try_catch {A} (m : Eff A) (handler : string -> Eff A) : Eff A :=
  match m with
  | (Ok a, t) => (Ok a, t)
  | (Throw msg, t) => let '(r, t') := handler msg in (r, t ++ t')
  end.

(** The outcome of [m] as a value: what a [catch] block gets to see. *)
Definition attempt {A} (m : Eff A) : Eff (Res A) := (Ok (fst m), snd m).

(** A platform call: its event, then its outcome. *)
Definition call {A} (e : Event) (outcome : Res A) : Eff A := (outcome, [e]).

Notation "x <- m ;; k" := (bind m (fun x => k))
  (at level 100, m at next level, right associativity).
Notation "m ;; k" := (bind m (fun _ => k))
  (at level 100, right associativity).

Definition trace_of {A} (m : Eff A) : list Event := snd m.
Definition result_of {A} (m : Eff A) : Res A := fst m.

(** *** generateWithOllama *)

Inductive GenResult :=
| GenOk (text : string) (model : option string) (context : option (list Z))
| GenErr (error : string).

(** [chunk.split('\n').filter(line => line.trim())] *)
Definition lines_of (chunk : string) : list string :=
  List.filter (fun line => Js.truthy (Js.trim line)) (Js.split_on Js.lf chunk).

(** Where the [for] loop over the lines of a chunk stands: the function
    has returned, or the loop goes on with the accumulator. *)
Inductive LoopOutcome :=
| Returned (r : GenResult)
| Running (fullResponse : string).

Section Generate.

(** [St] is the state the callback closes over; the callback returns
    the new state and the calls it made, and it does not throw. *)
Context {St : Type}.
Variable P : Platform.
Variable onChunk : option (string -> St -> St * list Event).

(** [if (onChunk) { onChunk(data.response); }] *)
Definition call_onChunk (fragment : string) (s : St) : St * list Event :=
  match onChunk with
  | Some f => f fragment s
  | None => (s, [])
  end.

(** [if (data.response) { fullResponse += data.response; ... }] *)
Definition take_fragment (data : GenRecord) (fullResponse : string) (s : St)
  : string * St * list Event :=
  match rec_response data with
  | Some fragment =>
      if Js.truthy fragment
      then let '(s', t) := call_onChunk fragment s in
           (fullResponse +:+ fragment, s', t)
      else (fullResponse, s, [])
  | None => (fullResponse, s, [])
  end.

(** The [for (const line of lines)] loop; a line [JSON.parse] rejects
    is skipped by the inner [catch]. *)
Fixpoint for_lines (lines : list string) (fullResponse : string) (s : St)
  : LoopOutcome * St * list Event :=
  match lines with
  | [] => (Running fullResponse, s, [])
  | line :: rest =>
      match JSON_parse P line with
      | None => for_lines rest fullResponse s
      | Some data =>
          let '(fullResponse', s', t) := take_fragment data fullResponse s in
          if rec_done data
          then (Returned (GenOk fullResponse' (rec_model data) (rec_context data)), s', t)
          else let '(o, s'', t') := for_lines rest fullResponse' s' in
               (o, s'', t ++ t')
      end
  end.

(** The [while (true)] loop over [reader.read()]. *)
Fixpoint read_loop (chunks : list string) (e : StreamEnd)
         (fullResponse : string) (s : St)
  : Res GenResult * St * list Event :=
  match chunks with
  | [] =>
      match e with
      | EndOfStream => (Ok (GenOk fullResponse None None), s, [])
      | ReadFails msg => (Throw msg, s, [])
      end
  | chunk :: rest =>
      match for_lines (lines_of chunk) fullResponse s with
      | (Returned r, s', t) => (Ok r, s', t)
      | (Running fullResponse', s', t) =>
          let '(r, s'', t') := read_loop rest e fullResponse' s' in
          (r, s'', t ++ t')
      end
  end.

(** The outer [catch] turns every exception into a failure result, so
    the function returns a result, the final state of the callback and
    the trace. *)
Definition generateWithOllama (model prompt : string) (s : St)
  : GenResult * St * list Event :=
  match fetch_generate P model prompt with
  | Throw msg => (GenErr msg, s, [FetchGenerate model prompt])
  | Ok resp =>
      if negb (ok resp)
      then (GenErr ("Ollama API error: " +:+ Js.interp_num (status resp)), s,
            [FetchGenerate model prompt])
      else
        let '(r, s', t) := read_loop (body resp) (body_end resp) "" s in
        (match r with Ok g => g | Throw msg => GenErr msg end, s',
         FetchGenerate model prompt :: t)
  end.

End Generate.

(** *** extractTabContent and extractActiveTabContent *)

(** What both extraction functions return: the four fields of the content
    script's answer or of a placeholder, and the two fields
    [extractTabContent] adds on success. *)
Record TabContent := {
  title : string;
  url : string;
  content : string;
  contentLength : Z;
  tabTitle : option string;
  tabUrl : option string
}.

Definition placeholder (title url content : string) : TabContent :=
  {| title := title; url := url; content := content; contentLength := 0;
     tabTitle := None; tabUrl := None |}.

(** The prefixes of the access check. *)
Definition RESTRICTED_PREFIXES : list string :=
  ["chrome://"; "chrome-extension://"; "edge://"; "brave://"; "about:"; "data:"].

(** The condition of the access check, on [tabUrl = String(tab.url || '')]. *)
Definition cannot_access (tabUrl : string) : bool :=
  negb (Js.truthy tabUrl)
  || String.eqb tabUrl ""
  || Js.startsWith tabUrl "chrome://"
  || Js.startsWith tabUrl "chrome-extension://"
  || Js.startsWith tabUrl "edge://"
  || Js.startsWith tabUrl "brave://"
  || Js.startsWith tabUrl "about:"
  || Js.startsWith tabUrl "data:".

(** The message to the content script; when it rejects, the script is
    injected and the message sent once more. *)
Definition request_content (P : Platform) (tabId : Z)
  : Eff (option ContentScript.ExtractResponse) :=
  try_catch
    (call (TabsSendMessage tabId) (tabs_sendMessage P tabId 0))
    (fun _ =>
       call (ExecuteScript tabId) (scripting_executeScript P tabId) ;;
       call (TabsSendMessage tabId) (tabs_sendMessage P tabId 1)).

Definition COULD_NOT_EXTRACT : string :=
  "[Could not extract content - tab may need to be refreshed]".
Definition CANNOT_ACCESS : string :=
  "[Cannot access system or extension pages]".
Definition EXTRACTION_UNAVAILABLE : string :=
  "[Content extraction unavailable - tab may need to be refreshed]".

(** The [try] block of [extractTabContent] once [tab] is assigned. *)
Definition extract_from_tab (P : Platform) (tabId : Z) (tab : Tab) : Eff TabContent :=
  let tabUrl := Js.or_else (tab_url tab) "" in
  if cannot_access tabUrl
  then ret (placeholder (Js.or_else (tab_title tab) "Restricted Tab")
                        (Js.or_else (tab_url tab) "") CANNOT_ACCESS)
  else
    response <- request_content P tabId ;;
    match response with
    | Some (ContentScript.ExtractOk data) =>
        ret {| title := ContentScript.title data;
               url := ContentScript.url data;
               content := ContentScript.content data;
               contentLength := ContentScript.contentLength data;
               tabTitle := tab_title tab;
               tabUrl := tab_url tab |}
    | _ =>
        ret (placeholder (Js.or_else (tab_title tab) "Error")
                         (Js.or_else (tab_url tab) "") COULD_NOT_EXTRACT)
    end.

(** [tab] is declared before the [try]: the [catch] block reads the value
    it has when the exception is raised, [undefined] when
    [chrome.tabs.get] itself rejected. *)
Definition extractTabContent (P : Platform) (tabId : Z) : Eff TabContent :=
  let catch_all (tab : option Tab) : Eff TabContent :=
    ret (placeholder (Js.or_else (tab ≫= tab_title) "Error")
                     (Js.or_else (tab ≫= tab_url) "") COULD_NOT_EXTRACT) in
  got <- attempt (call (TabsGet tabId) (tabs_get P tabId)) ;;
  match got with
  | Throw _ => catch_all None
  | Ok None => ret (placeholder "Error" "" "[Tab not found]")
  | Ok (Some tab) =>
      try_catch (extract_from_tab P tabId tab) (fun _ => catch_all (Some tab))
  end.

Definition extractActiveTabContent (P : Platform) : Eff TabContent :=
  try_catch
    (tabs <- call TabsQueryActive (tabs_query_active P) ;;
     match tabs with
     | [] => ret (placeholder "Current Tab" "" "[No active tab found]")
     | tab :: _ =>
         if tab_id tab =? 0
         then ret (placeholder "Current Tab" "" "[No active tab found]")
         else
           let tabUrl := Js.or_else (tab_url tab) "" in
           if cannot_access tabUrl
           then ret (placeholder "Current Tab" "" CANNOT_ACCESS)
           else
             response <- request_content P (tab_id tab) ;;
             match response with
             | Some (ContentScript.ExtractOk data) =>
                 ret {| title := ContentScript.title data;
                        url := ContentScript.url data;
                        content := ContentScript.content data;
                        contentLength := ContentScript.contentLength data;
                        tabTitle := None;
                        tabUrl := None |}
             | _ => ret (placeholder "Current Tab" "" EXTRACTION_UNAVAILABLE)
             end
     end)
    (fun _ => ret (placeholder "Current Tab" "" EXTRACTION_UNAVAILABLE)).

(** *** handleQuery and handleStreamingQuery *)

(** An entry of [mentionedTabs]: [{id, title, url}]. *)
Record MentionedTab := {
  mention_id : Z;
  mention_title : option string;
  mention_url : option string
}.

(** The [data] of a [query] or [queryStream] request; [mentionedTabs] is
    [[]] when the request has none (the default of the destructuring),
    [messageId] is [None] when it has none. *)
Record QueryData := {
  query : string;
  model : string;
  includePageContent : bool;
  mentionedTabs : list MentionedTab;
  messageId : option string
}.

Inductive QueryResult :=
| QueryOk (text : string) (model : option string)
| QueryErr (error : string).

(** [Promise.all]: every computation runs; the results keep the order of
    the list; a rejection, if any, is the result.  The calls of the
    computations are listed one computation after the other: the code
    starts all of them before it awaits any, and how their calls
    interleave is not modelled. *)
Fixpoint promise_all {A} (ms : list (Eff A)) : Eff (list A) :=
  match ms with
  | [] => ret []
  | m :: rest =>
      let '(r, t) := m in
      let '(rs, t') := promise_all rest in
      (match r, rs with
       | Ok a, Ok l => Ok (a :: l)
       | Throw msg, _ => Throw msg
       | Ok _, Throw msg => Throw msg
       end, t ++ t')
  end.

(** The block pushed to [contextParts] for one tab. *)
Definition tab_block (tabInfo : MentionedTab) (tabData : TabContent) : string :=
  "Tab: " +:+ Js.interp (mention_title tabInfo) +:+ Js.nl +:+
  "URL: " +:+ Js.interp (mention_url tabInfo) +:+ Js.nl +:+
  Js.nl +:+
  "Content:" +:+ Js.nl +:+
  content tabData +:+ Js.nl.

(** [tabContents.forEach((tabData, index) => ...)], from [index] on:
    [tabInfo] is [mentionedTabs[index]], and reading [title] of a missing
    entry throws. *)
Fixpoint push_context_parts (tabContents : list TabContent) (index : nat)
         (mentionedTabs : list MentionedTab) (contextParts : list string)
  : Res (list string) :=
  match tabContents with
  | [] => Ok contextParts
  | tabData :: rest =>
      match mentionedTabs !! index with
      | Some tabInfo =>
          push_context_parts rest (S index) mentionedTabs
            (contextParts ++ [tab_block tabInfo tabData])
      | None => Throw "Cannot read properties of undefined (reading 'title')"
      end
  end.

Definition TABS_SEPARATOR : string :=
  Js.nl +:+ "---" +:+ Js.nl +:+ Js.nl.

Definition tabs_prompt (contextParts : list string) (query : string) : string :=
  "Based on the following web page content from referenced tabs, please answer the question." +:+
  Js.nl +:+ Js.nl +:+
  Js.join TABS_SEPARATOR contextParts +:+ Js.nl +:+
  Js.nl +:+
  "Question: " +:+ query +:+ Js.nl +:+
  Js.nl +:+
  "Answer:".

Definition page_prompt (pageData : TabContent) (query : string) : string :=
  "Based on the following web page content, please answer the question." +:+
  Js.nl +:+ Js.nl +:+
  "Page Title: " +:+ title pageData +:+ Js.nl +:+
  "URL: " +:+ url pageData +:+ Js.nl +:+
  Js.nl +:+
  "Content:" +:+ Js.nl +:+
  content pageData +:+ Js.nl +:+
  Js.nl +:+
  "Question: " +:+ query +:+ Js.nl +:+
  Js.nl +:+
  "Answer:".

(** The [else if (includePageContent)] branch, the same in both handlers. *)
Definition page_context_prompt (P : Platform) (query : string) : Eff string :=
  try_catch
    (pageData <- extractActiveTabContent P ;;
     ret (page_prompt pageData query))
    (fun _ => ret (query +:+ Js.nl +:+ Js.nl +:+ "[Note: Page content unavailable]")).

(** The prompt of [handleQuery]. *)
Definition query_prompt (P : Platform) (data : QueryData) : Eff string :=
  if (0 <? Z.of_nat (length (mentionedTabs data)))
  then
    tabContents <- promise_all
      (map (fun tab => extractTabContent P (mention_id tab)) (mentionedTabs data)) ;;
    match push_context_parts tabContents 0 (mentionedTabs data) [] with
    | Ok contextParts => ret (tabs_prompt contextParts (query data))
    | Throw msg => throw msg
    end
  else if includePageContent data
  then page_context_prompt P (query data)
  else ret (query data).

(** [await generateWithOllama(model, prompt)] without a callback. *)
Definition generate (P : Platform) (model prompt : string) : Eff GenResult :=
  let '(r, _, t) := generateWithOllama P None model prompt tt in (Ok r, t).

Definition handleQuery (P : Platform) (data : QueryData) : Eff QueryResult :=
  try_catch
    (if negb (Js.truthy (model data))
     then throw "No model selected"
     else
       prompt <- query_prompt P data ;;
       result <- generate P (model data) prompt ;;
       match result with
       | GenOk text m _ => ret (QueryOk text m)
       | GenErr error => throw error
       end)
    (fun msg => ret (QueryErr msg)).

(** The prompt of [handleStreamingQuery]: [mentionedTabs] is not read. *)
Definition streaming_prompt (P : Platform) (data : QueryData) : Eff string :=
  if includePageContent data
  then page_context_prompt P (query data)
  else ret (query data).

(** The callback of [handleStreamingQuery]; its state is [fullText]. *)
Definition forward_chunk (messageId : option string) (chunk fullText : string)
  : string * list Event :=
  let fullText' := fullText +:+ chunk in
  (fullText', [RuntimeSendMessage (streamChunk messageId chunk fullText')]).

(** [handleStreamingQuery]; its second parameter, [tabId], is not used.
    [messageId] is declared by the [const] of the [try] block, so it is
    not in scope in the [catch] block: building the [streamError] message
    there raises a [ReferenceError], no notification is sent and the
    function rejects. *)
Definition handleStreamingQuery (P : Platform) (data : QueryData) : Eff QueryResult :=
  try_catch
    (if negb (Js.truthy (model data))
     then throw "No model selected"
     else
       prompt <- streaming_prompt P data ;;
       result <- (let '(r, _, t) :=
                    generateWithOllama P (Some (forward_chunk (messageId data)))
                      (model data) prompt "" in (Ok r, t)) ;;
       match result with
       | GenOk text m _ =>
           call (RuntimeSendMessage (streamComplete (messageId data) text m)) (Ok tt) ;;
           ret (QueryOk text m)
       | GenErr error => throw error
       end)
    (fun _ => throw "messageId is not defined").

(** *** Observations on a generation stream *)

(** The lines of a body, in the order the loops meet them. *)
Definition stream_lines (chunks : list string) : list string :=
  flat_map lines_of chunks.


(** The text fragment a line carries: the [response] of its record when
    it is a non-empty string. *)
Definition fragment_of (P : Platform) (line : string) : option string :=
  match JSON_parse P line with
  | Some data =>
      match rec_response data with
      | Some fragment => if Js.truthy fragment then Some fragment else None
      | None => None
      end
  | None => None
  end.

Definition fragments (P : Platform) (lines : list string) : list string :=
  omap (fragment_of P) lines.

(** The line is a record whose completion flag is set. *)
Definition completes (P : Platform) (line : string) : bool :=
  match JSON_parse P line with
  | Some data => rec_done data
  | None => false
  end.

(** The callback called on each fragment in turn, from state [s]. *)
Fixpoint deliver {St} (onChunk : option (string -> St -> St * list Event))
         (fragments : list string) (s : St) : St * list Event :=
  match fragments with
  | [] => (s, [])
  | fragment :: rest =>
      let '(s', t) := call_onChunk onChunk fragment s in
      let '(s'', t') := deliver onChunk rest s' in
      (s'', t ++ t')
  end.

(** What the function returns when the [for] loop over every line of
    the body stands at [o] with callback state [s] and trace [t]: the
    result of the early [return], or what the end of the body gives. *)
Definition finish {St} (e : StreamEnd) (o : LoopOutcome * St * list Event)
  : Res GenResult * St * list Event :=
  match o with
  | (Returned r, s, t) => (Ok r, s, t)
  | (Running fullResponse, s, t) =>
      (match e with
       | EndOfStream => Ok (GenOk fullResponse None None)
       | ReadFails msg => Throw msg
       end, s, t)
  end.

(** A callback that only records its argument. *)
Definition record_chunk (chunk : string) (seen : list string)
  : list string * list Event :=
  (seen ++ [chunk], []).

(** The restricted URLs in the words of the specification: the URL is
    empty (or missing), or it begins with one of the restricted prefixes. *)
Definition restricted_url (u : option string) : Prop :=
  Js.or_else u "" = "" \/
  exists prefix, In prefix RESTRICTED_PREFIXES /\
                 Js.startsWith (Js.or_else u "") prefix = true.

(** The result of [extractTabContent] as a value; the function never
    throws, so the second case is never met. *)
Definition extracted (P : Platform) (tabId : Z) : TabContent :=
  match result_of (extractTabContent P tabId) with
  | Ok r => r
  | Throw _ => placeholder "Error" "" COULD_NOT_EXTRACT
  end.

(** The request without its mentions. *)
Definition without_mentions (data : QueryData) : QueryData :=
  {| query := query data; model := model data;
     includePageContent := includePageContent data;
     mentionedTabs := []; messageId := messageId data |}.

(** The block of every mentioned tab, with the content extracted from it. *)
Definition tab_blocks (P : Platform) (mentioned : list MentionedTab) : list string :=
  map (fun tab => tab_block tab (extracted P (mention_id tab))) mentioned.

(** The prompts a run sent to the inference server. *)
Definition prompts_sent (t : list Event) : list string :=
  omap (fun e => match e with FetchGenerate _ prompt => Some prompt | _ => None end) t.

End Background.

(** ** The side panel *)

(** The repository holds two versions of the panel script.  They share
    [init] and [loadModels]; they differ in the query input, a
    [contenteditable] element with mention tags in the first and a
    [textarea] in the second, hence in [parseTabMentions] and [handleSend]. *)

Module SidePanel.

Record ModelDescriptor := {
  name : string;
  size : Z
}.

(** The answer of the worker to [getModels]. *)
Inductive ModelsResponse :=
| ModelsOk (models : list ModelDescriptor)
| ModelsErr (error : string).

(** The answer of the worker to [getTabs]. *)
Inductive TabsResponse :=
| TabsOk (tabs : list Background.Tab)
| TabsErr (error : string).

(** What [chrome.runtime.sendMessage] resolves to, per action. *)
Record Runtime := {
  getModels : Res ModelsResponse;
  getTabs : Res TabsResponse
}.

(** The globals of the script the model follows, the checkbox, and
    [chrome.storage.local] restricted to its string entries. *)
Record Panel := {
  isLoading : bool;
  availableModels : list ModelDescriptor;
  selectedModel : option string;
  allTabs : list Background.Tab;
  includePage : bool;
  storage : gmap string string
}.

Definition set_availableModels (v : list ModelDescriptor) (p : Panel) : Panel :=
  {| isLoading := isLoading p; availableModels := v;
     selectedModel := selectedModel p; allTabs := allTabs p;
     includePage := includePage p; storage := storage p |}.

Definition set_selectedModel (v : option string) (p : Panel) : Panel :=
  {| isLoading := isLoading p; availableModels := availableModels p;
     selectedModel := v; allTabs := allTabs p;
     includePage := includePage p; storage := storage p |}.

Definition set_allTabs (v : list Background.Tab) (p : Panel) : Panel :=
  {| isLoading := isLoading p; availableModels := availableModels p;
     selectedModel := selectedModel p; allTabs := v;
     includePage := includePage p; storage := storage p |}.

Definition set_storage (v : gmap string string) (p : Panel) : Panel :=
  {| isLoading := isLoading p; availableModels := availableModels p;
     selectedModel := selectedModel p; allTabs := allTabs p;
     includePage := includePage p; storage := v |}.

(** The script as loaded: the initial values of its globals, over the
    storage the previous sessions left. *)
Definition loaded (includePage : bool) (persisted : gmap string string) : Panel :=
  {| isLoading := false; availableModels := []; selectedModel := None;
     allTabs := []; includePage := includePage; storage := persisted |}.

(** Truthiness of [selectedModel]: [null] and the empty string are falsy. *)
Definition model_truthy (m : option string) : bool :=
  match m with
  | Some s => Js.truthy s
  | None => false
  end.

Definition loadTabs (R : Runtime) (p : Panel) : Panel :=
  match getTabs R with
  | Ok (TabsOk tabs) => set_allTabs tabs p
  | _ => p
  end.

(** [loadModels], without the dropdown and the error banners; the write
    to the storage is taken to succeed. *)
Definition loadModels (R : Runtime) (p : Panel) : Panel :=
  match getModels R with
  | Ok (ModelsOk models) =>
      if (0 <? Z.of_nat (length models))
      then
        let p := set_availableModels models p in
        match models with
        | first :: _ =>
            if negb (model_truthy (selectedModel p))
            then
              let p := set_selectedModel (Some (name first)) p in
              set_storage (<["selectedModel" := name first]> (storage p)) p
            else p
        | [] => p
        end
      else p
  | _ => p
  end.

(** [init], reduced to the steps that touch the modelled state: the tab
    snapshot, the models, then the saved selection. *)
Definition init (R : Runtime) (p : Panel) : Panel :=
  let p := loadTabs R p in
  let p := loadModels R p in
  match storage p !! "selectedModel" with
  | Some saved =>
      if Js.truthy saved
         && existsb (fun m => String.eqb (name m) saved) (availableModels p)
      then set_selectedModel (Some saved) p
      else p
  | None => p
  end.

(** The models the worker fetched: none when the request failed. *)
Definition fetched (R : Runtime) : list ModelDescriptor :=
  match getModels R with
  | Ok (ModelsOk models) => models
  | _ => []
  end.

(** [t.title === tabTitle] *)
Definition has_title (tabTitle : string) (t : Background.Tab) : bool :=
  match Background.tab_title t with
  | Some s => String.eqb s tabTitle
  | None => false
  end.

(** The loop both versions of [parseTabMentions] run over the recorded
    titles: [allTabs.find], then [mentions.push(tab)] when a tab is found. *)
Fixpoint push_mentions (allTabs : list Background.Tab) (titles : list string)
         (mentions : list Background.Tab) : list Background.Tab :=
  match titles with
  | [] => mentions
  | tabTitle :: rest =>
      match List.find (has_title tabTitle) allTabs with
      | Some tab => push_mentions allTabs rest (mentions ++ [tab])
      | None => push_mentions allTabs rest mentions
      end
  end.

(** The tab the mention [title] resolves to in the snapshot, if any. *)
Definition resolve (allTabs : list Background.Tab) (title : string)
  : option Background.Tab :=
  List.find (has_title title) allTabs.

(** [t] is a tab of the snapshot whose title is one of [titles]. *)
Definition matched (allTabs : list Background.Tab) (titles : list string)
           (t : Background.Tab) : Prop :=
  In t allTabs /\ exists title, In title titles /\ Background.tab_title t = Some title.

(** [mentionedTabs.map(t => ({ id: t.id, title: t.title, url: t.url }))] *)
Definition to_mention (t : Background.Tab) : Background.MentionedTab :=
  {| Background.mention_id := Background.tab_id t;
     Background.mention_title := Background.tab_title t;
     Background.mention_url := Background.tab_url t |}.

(** The query input of the first version: text nodes and mention tags. *)
Inductive InputNode :=
| TextNode (text : string)
| MentionTag (tabTitle tabUrl : string).

(** [dataset.tabTitle] of the [.tab-mention] elements, in document order. *)
Definition mention_titles (queryInput : list InputNode) : list string :=
  omap (fun n => match n with
                 | MentionTag tabTitle _ => Some tabTitle
                 | TextNode _ => None
                 end) queryInput.

Definition parseTabMentions (allTabs : list Background.Tab)
           (queryInput : list InputNode) : list Background.Tab :=
  push_mentions allTabs (mention_titles queryInput) [].

Fixpoint getPlainText (queryInput : list InputNode) : string :=
  match queryInput with
  | [] => ""
  | TextNode text :: rest => text +:+ getPlainText rest
  | MentionTag tabTitle _ :: rest =>
      "@" +:+ Js.quote +:+ tabTitle +:+ Js.quote +:+ getPlainText rest
  end.

(** [handleSend] up to the request it sends: [None] when it returns
    before sending. *)
Definition handleSend (p : Panel) (queryInput : list InputNode)
  : option Background.QueryData :=
  let query := Js.trim (getPlainText queryInput) in
  if negb (Js.truthy query) || isLoading p || negb (model_truthy (selectedModel p))
  then None
  else
    let mentionedTabs := parseTabMentions (allTabs p) queryInput in
    Some {| Background.query := query;
            Background.model := Js.interp (selectedModel p);
            Background.includePageContent := includePage p;
            Background.mentionedTabs := map to_mention mentionedTabs;
            Background.messageId := None |}.

End SidePanel.

(** ** The side panel with a [textarea] *)

Module TextareaPanel.

(** The longest prefix of [s] without a double quote, and the rest. *)
Fixpoint span_unquoted (s : string) : string * string :=
  match s with
  | EmptyString => (EmptyString, EmptyString)
  | String c rest =>
      if Ascii.eqb c Js.dquote then (EmptyString, s)
      else let '(tabName, after) := span_unquoted rest in (String c tabName, after)
  end.

(** The regular expression of [parseTabMentions] tried at the head of
    [s]: an at sign, a double quote, the captured name and a double
    quote.  The name is the whole run of characters other than the double
    quote; it must not be empty and a double quote must follow it. *)
Definition match_mention (s : string) : option string :=
  match s with
  | String "@" (String q rest) =>
      if Ascii.eqb q Js.dquote
      then match span_unquoted rest with
           | (String c tabName, String _ _) => Some (String c tabName)
           | _ => None
           end
      else None
  | _ => None
  end.

(** The successive [regex.exec(text)] of the global regular expression:
    the leftmost match, then the search resumes after it.  [skip] counts
    the characters that remain of the match just found. *)
Fixpoint exec_all (skip : nat) (text : string) : list string :=
  match text with
  | EmptyString => []
  | String _ rest =>
      match skip with
      | S k => exec_all k rest
      | O =>
          match match_mention text with
          | Some tabName => tabName :: exec_all (String.length tabName + 2) rest
          | None => exec_all 0 rest
          end
      end
  end.

Definition parseTabMentions (allTabs : list Background.Tab) (text : string)
  : list Background.Tab :=
  SidePanel.push_mentions allTabs (exec_all 0 text) [].

Definition handleSend (p : SidePanel.Panel) (value : string)
  : option Background.QueryData :=
  let query := Js.trim value in
  if negb (Js.truthy query) || SidePanel.isLoading p
     || negb (SidePanel.model_truthy (SidePanel.selectedModel p))
  then None
  else
    let mentionedTabs := parseTabMentions (SidePanel.allTabs p) query in
    Some {| Background.query := query;
            Background.model := Js.interp (SidePanel.selectedModel p);
            Background.includePageContent := SidePanel.includePage p;
            Background.mentionedTabs := map SidePanel.to_mention mentionedTabs;
            Background.messageId := None |}.

End TextareaPanel.

(** ** Sample inputs *)

Module Samples.

Import Background.

(** [quoted s] is [s] between double quotes. *)
Definition quoted (s : string) : string := Js.quote +:+ s +:+ Js.quote.

(** Three records of a generation stream, as JSON text, and a line that
    is not JSON. *)
Definition line_hel : string :=
  "{" +:+ quoted "response" +:+ ":" +:+ quoted "Hel" +:+ ","
      +:+ quoted "done" +:+ ":false}".
Definition line_lo : string :=
  "{" +:+ quoted "response" +:+ ":" +:+ quoted "lo" +:+ ","
      +:+ quoted "done" +:+ ":false}".
Definition line_done : string :=
  "{" +:+ quoted "model" +:+ ":" +:+ quoted "llama3" +:+ ","
      +:+ quoted "response" +:+ ":" +:+ quoted "" +:+ ","
      +:+ quoted "done" +:+ ":true," +:+ quoted "context" +:+ ":[1,2]}".
Definition line_garbage : string := "{" +:+ quoted "response" +:+ ":".

(** [JSON.parse] on these lines. *)
Definition parse (line : string) : option GenRecord :=
  if String.eqb line line_hel
  then Some {| rec_response := Some "Hel"; rec_done := false;
               rec_model := None; rec_context := None |}
  else if String.eqb line line_lo
  then Some {| rec_response := Some "lo"; rec_done := false;
               rec_model := None; rec_context := None |}
  else if String.eqb line line_done
  then Some {| rec_response := Some ""; rec_done := true;
               rec_model := Some "llama3"; rec_context := Some [1; 2] |}
  else None.

Definition docs_tab : Tab :=
  {| tab_id := 7; tab_title := Some "Docs"; tab_url := Some "https://x";
     tab_active := false |}.

Definition settings_tab : Tab :=
  {| tab_id := 3; tab_title := Some "Settings";
     tab_url := Some "chrome://settings/"; tab_active := true |}.

Definition docs_page : ContentScript.Page :=
  {| ContentScript.page_title := "Docs";
     ContentScript.page_href := "https://x";
     ContentScript.page_text := Ok ("  Hello " +:+ Js.nl +:+ " world ") |}.

(** A browser with the two tabs, the settings tab in front; the content
    script of the docs tab answers once it has been injected.  The
    inference server answers with [resp]. *)
Definition browser (resp : Res FetchResponse) : Platform :=
  {| tabs_get := fun tabId =>
       if tabId =? 7 then Ok (Some docs_tab)
       else if tabId =? 3 then Ok (Some settings_tab)
       else Throw "No tab with id";
     tabs_query_active := Ok [settings_tab];
     tabs_sendMessage := fun tabId n =>
       match n with
       | O => Throw "Could not establish connection. Receiving end does not exist."
       | _ => if tabId =? 7
              then Ok (Some (ContentScript.extractPageContent docs_page))
              else Ok None
       end;
     scripting_executeScript := fun _ => Ok tt;
     fetch_generate := fun _ _ => resp;
     JSON_parse := parse |}.

(** A complete stream in three reads, with a record after the completion
    record. *)
Definition complete_stream : FetchResponse :=
  {| ok := true; status := 200;
     body := [line_hel +:+ Js.nl;
              line_lo +:+ Js.nl +:+ line_done +:+ Js.nl;
              line_hel +:+ Js.nl];
     body_end := EndOfStream |}.

(** The same stream with a malformed line before the second record. *)
Definition noisy_stream : FetchResponse :=
  {| ok := true; status := 200;
     body := [line_hel +:+ Js.nl;
              line_garbage +:+ Js.nl +:+ line_lo +:+ Js.nl +:+ line_done +:+ Js.nl;
              line_hel +:+ Js.nl];
     body_end := EndOfStream |}.



(** A stream that ends before any completion record. *)
Definition cut_stream : FetchResponse :=
  {| ok := true; status := 200;
     body := [line_hel +:+ Js.nl; line_lo +:+ Js.nl];
     body_end := EndOfStream |}.

Definition platform : Platform := browser (Ok complete_stream).

(** The scenario of the specification: one mentioned tab. *)
Definition docs_query : QueryData :=
  {| query := "Summarize"; model := "llama3"; includePageContent := false;
     mentionedTabs := [ {| mention_id := 7; mention_title := Some "Docs";
                           mention_url := Some "https://x" |} ];
     messageId := Some "m1" |}.

(** A page of 2500 five-letter words, each followed by two spaces. *)
Definition long_page : ContentScript.Page :=
  {| ContentScript.page_title := "Long";
     ContentScript.page_href := "https://example.org/long";
     ContentScript.page_text := Ok (String.concat "" (repeat "words  " 2500)) |}.

(** A panel that has started: two tabs in the snapshot, a model selected. *)
Definition panel : SidePanel.Panel :=
  {| SidePanel.isLoading := false;
     SidePanel.availableModels := [ {| SidePanel.name := "llama3"; SidePanel.size := 4 |} ];
     SidePanel.selectedModel := Some "llama3";
     SidePanel.allTabs := [docs_tab; settings_tab];
     SidePanel.includePage := false;
     SidePanel.storage := {[ "selectedModel" := "llama3" ]} |}.

(** The worker answers with one model, [mistral]. *)
Definition runtime : SidePanel.Runtime :=
  {| SidePanel.getModels :=
       Ok (SidePanel.ModelsOk [ {| SidePanel.name := "mistral"; SidePanel.size := 4 |} ]);
     SidePanel.getTabs := Ok (SidePanel.TabsOk [docs_tab; settings_tab]) |}.

(** The storage a session that had selected [llama2] left. *)
Definition persisted : gmap string string := {[ "selectedModel" := "llama2" ]}.

(** A query that mentions the docs tab and a tab that is no longer open,
    as the two versions of the panel hold it. *)
Definition rich_input : list SidePanel.InputNode :=
  [SidePanel.TextNode "Compare "; SidePanel.MentionTag "Docs" "https://x";
   SidePanel.TextNode " with "; SidePanel.MentionTag "Gone" "https://gone"].

Definition text_input : string :=
  "Compare @" +:+ quoted "Docs" +:+ " with @" +:+ quoted "Gone" +:+ " ".

End Samples.

(** ** The mention autocomplete of the side panel *)

(** Both versions of the panel share [detectAtMention], [showAutocomplete],
    [hideAutocomplete] and [navigateAutocomplete]; the text and the cursor
    position come from the [textarea] in one and from the [contenteditable]
    element in the other, and are arguments here. *)

Module Autocomplete.

(** [c.toLowerCase()] on the code units below 256: the letters A to Z and
    the accented capitals (all of 192 to 222 but the multiplication sign). *)
Definition lower_char (c : ascii) : ascii :=
  let n := N_of_ascii c in
  if ((65 <=? n) && (n <=? 90) || (192 <=? n) && (n <=? 222) && negb (n =? 215))%N
  then ascii_of_N (n + 32)
  else c.

(** [s.toLowerCase()] *)
Fixpoint toLowerCase (s : string) : string :=
  match s with
  | EmptyString => EmptyString
  | String c rest => String (lower_char c) (toLowerCase rest)
  end.

(** [s.includes(term)] *)
Fixpoint includes (s term : string) : bool :=
  String.prefix term s
  || match s with
     | EmptyString => false
     | String _ rest => includes rest term
     end.

(** [s.substring(from)] *)
Definition substring_from (from : Z) (s : string) : string :=
  String.substring (Z.to_nat from) (String.length s - Z.to_nat from) s.

(** [s.substring(from, to)] for [0 <= from <= to]. *)
Definition substring_between (from to : Z) (s : string) : string :=
  String.substring (Z.to_nat from) (Z.to_nat (to - from)) s.

(** The state of the dropdown: whether it is displayed, the title and the
    URL each suggestion shows, and the two globals of the script. *)
Record Suggestions := {
  displayed : bool;
  items : list (string * string);
  selectedTabIndex : Z;
  currentAtMentionStart : Z
}.

Definition hideAutocomplete (s : Suggestions) : Suggestions :=
  {| displayed := false; items := items s;
     selectedTabIndex := -1; currentAtMentionStart := -1 |}.

(** A missing URL shows as the empty text. *)
Definition showAutocomplete (tabs : list Background.Tab) (s : Suggestions) : Suggestions :=
  {| displayed := true;
     items := map (fun tab => (Js.or_else (Background.tab_title tab) "Untitled",
                               default "" (Background.tab_url tab))) tabs;
     selectedTabIndex := -1;
     currentAtMentionStart := currentAtMentionStart s |}.

(** The backward [for] loop of [detectAtMention] from index [i]: [before]
    lists the characters at the indices [i], [i - 1], ..., [0]. *)
Fixpoint find_at (before : list ascii) (i : Z) : Z :=
  match before with
  | [] => -1
  | c :: rest =>
      if Ascii.eqb c "@" then i
      else if Ascii.eqb c " " || Ascii.eqb c Js.lf then -1
      else find_at rest (i - 1)
  end.

(** The characters before the cursor, the nearest first.  An index past
    the end of the text reads [undefined], which the loop steps over. *)
Definition chars_before (text : string) (cursorPos : Z) : list ascii :=
  rev (String.list_ascii_of_string (Js.substring_to cursorPos text)).

Definition at_position (text : string) (cursorPos : Z) : Z :=
  find_at (chars_before text cursorPos)
          (Z.of_nat (length (chars_before text cursorPos)) - 1).

(** The search term of a mention that starts at [atPos]. *)
Definition search_term (text : string) (atPos cursorPos : Z) : string :=
  toLowerCase (substring_between (atPos + 1) cursorPos text).

Definition NO_LOWERCASE : string :=
  "Cannot read properties of undefined (reading 'toLowerCase')".

(** The predicate of the filter; [toLowerCase] of a missing title throws,
    and so does that of a missing URL when the title does not match. *)
Definition tab_matches (searchTerm : string) (tab : Background.Tab) : Res bool :=
  match Background.tab_title tab with
  | None => Throw NO_LOWERCASE
  | Some title =>
      if includes (toLowerCase title) searchTerm then Ok true
      else match Background.tab_url tab with
           | None => Throw NO_LOWERCASE
           | Some url => Ok (includes (toLowerCase url) searchTerm)
           end
  end.

(** [allTabs.filter(...)], stopped by the first exception. *)
Fixpoint filter_tabs (searchTerm : string) (tabs : list Background.Tab)
  : Res (list Background.Tab) :=
  match tabs with
  | [] => Ok []
  | tab :: rest =>
      match tab_matches searchTerm tab with
      | Throw msg => Throw msg
      | Ok keep =>
          match filter_tabs searchTerm rest with
          | Throw msg => Throw msg
          | Ok kept => Ok (if keep then tab :: kept else kept)
          end
      end
  end.

(** [detectAtMention]: the new state of the dropdown, and whether the
    function returned or threw. *)
Definition detectAtMention (allTabs : list Background.Tab) (text : string)
           (cursorPos : Z) (s : Suggestions) : Suggestions * Res unit :=
  let atPos := at_position text cursorPos in
  if atPos =? -1 then (hideAutocomplete s, Ok tt)
  else
    let searchTerm := search_term text atPos cursorPos in
    let s := {| displayed := displayed s; items := items s;
                selectedTabIndex := selectedTabIndex s;
                currentAtMentionStart := atPos |} in
    match filter_tabs searchTerm allTabs with
    | Throw msg => (s, Throw msg)
    | Ok [] => (hideAutocomplete s, Ok tt)
    | Ok filtered => (showAutocomplete filtered s, Ok tt)
    end.

(** A tab the filter cannot read for this term: it has no title, or its
    title does not match and it has no URL. *)
Definition unreadable (searchTerm : string) (tab : Background.Tab) : Prop :=
  Background.tab_title tab = None \/
  exists title,
    Background.tab_title tab = Some title /\
    includes (toLowerCase title) searchTerm = false /\
    Background.tab_url tab = None.

(** [navigateAutocomplete(direction)], without the highlighting. *)
Definition navigateAutocomplete (direction : Z) (s : Suggestions) : Suggestions :=
  let n := Z.of_nat (length (items s)) in
  if n =? 0 then s
  else
    let i := selectedTabIndex s + direction in
    let i := if i <? 0 then n - 1 else i in
    let i := if n <=? i then 0 else i in
    {| displayed := displayed s; items := items s;
       selectedTabIndex := i;
       currentAtMentionStart := currentAtMentionStart s |}.

(** [selectedModel !== null && selectedModel !== ''] *)
Definition hasModel (p : SidePanel.Panel) : bool :=
  match SidePanel.selectedModel p with
  | Some m => negb (String.eqb m "")
  | None => false
  end.

(** [sendBtn.disabled] as [handleInputChange] sets it, for the text of the
    query input. *)
Definition send_disabled (p : SidePanel.Panel) (text : string) : bool :=
  negb (0 <? Js.len (Js.trim text)) || negb (hasModel p) || SidePanel.isLoading p.

End Autocomplete.

(** ** Selecting a suggestion, in the panel with a [textarea] *)

Module TextareaSelect.

Import Autocomplete.

Record Textarea := {
  value : string;
  selectionStart : Z
}.

(** The token a selected tab is written as: an at sign, the title between
    double quotes, a space. *)
Definition mention_token (tabTitle : string) : string :=
  "@" +:+ Js.quote +:+ tabTitle +:+ Js.quote +:+ " ".

(** [selectCurrentTab], with the [handleInputChange] that ends it; the
    state of the button is [Autocomplete.send_disabled]. *)
Definition selectCurrentTab (allTabs : list Background.Tab) (s : Suggestions)
           (q : Textarea) : Suggestions * Textarea * Res unit :=
  if (selectedTabIndex s <? 0) || (Z.of_nat (length (items s)) <=? selectedTabIndex s)
  then (s, q, Ok tt)
  else
    match items s !! Z.to_nat (selectedTabIndex s) with
    | None => (s, q, Ok tt)
    | Some (tabTitle, _) =>
        let text := value q in
        let beforeAt := Js.substring_to (currentAtMentionStart s) text in
        let afterCursor := substring_from (selectionStart q) text in
        let q' := {| value := beforeAt +:+ mention_token tabTitle +:+ afterCursor;
                     selectionStart := Js.len beforeAt + Js.len tabTitle + 4 |} in
        let '(s', r) :=
          detectAtMention allTabs (value q') (selectionStart q') (hideAutocomplete s) in
        (s', q', r)
    end.

End TextareaSelect.

(** ** Selecting a suggestion, in the panel with a [contenteditable] input *)

Module RichSelect.

Import Autocomplete.

(** [queryInput.textContent]: a mention tag reads as its title. *)
Fixpoint textContent (queryInput : list SidePanel.InputNode) : string :=
  match queryInput with
  | [] => ""
  | SidePanel.TextNode text :: rest => text +:+ textContent rest
  | SidePanel.MentionTag tabTitle _ :: rest => tabTitle +:+ textContent rest
  end.

(** [selectCurrentTab] up to [hideAutocomplete]: the new state of the
    dropdown, the new content of the input and the position the deferred
    [setCursorPosition] asks for.  The input is emptied and rebuilt from
    its text: the text before the at sign if there is any, the new tag, and
    a space with the text after the cursor.  The [handleInputChange] that
    follows reads the selection of the document and leaves the input as it
    is. *)
Definition selectCurrentTab (s : Suggestions) (queryInput : list SidePanel.InputNode)
           (cursorPos : Z) : Suggestions * list SidePanel.InputNode * option Z :=
  if (selectedTabIndex s <? 0) || (Z.of_nat (length (items s)) <=? selectedTabIndex s)
  then (s, queryInput, None)
  else
    match items s !! Z.to_nat (selectedTabIndex s) with
    | None => (s, queryInput, None)
    | Some (tabTitle, tabUrl) =>
        let text := textContent queryInput in
        let beforeAt := Js.substring_to (currentAtMentionStart s) text in
        let afterCursor := substring_from cursorPos text in
        (hideAutocomplete s,
         (if Js.truthy beforeAt then [SidePanel.TextNode beforeAt] else [])
           ++ [SidePanel.MentionTag tabTitle tabUrl;
               SidePanel.TextNode (" " +:+ afterCursor)],
         Some (Js.len beforeAt + Js.len tabTitle + 1))
    end.

End RichSelect.

(** ** Further observations on the background worker *)

Module Observe.

Import Background.

(** The lines the loops of [generateWithOllama] get to: all of them up to
    and including the first one with a completion flag. *)
Fixpoint consumed (P : Platform) (lines : list string) : list string :=
  match lines with
  | [] => []
  | line :: rest => if completes P line then [line] else line :: consumed P rest
  end.

(** The first record with a completion flag. *)
Fixpoint completion (P : Platform) (lines : list string) : option GenRecord :=
  match lines with
  | [] => None
  | line :: rest =>
      match JSON_parse P line with
      | Some data => if rec_done data then Some data else completion P rest
      | None => completion P rest
      end
  end.

(** The [streamChunk] notifications for [fragments], the text forwarded
    before them being [fullText]. *)
Fixpoint chunk_messages (messageId : option string) (fragments : list string)
         (fullText : string) : list Event :=
  match fragments with
  | [] => []
  | fragment :: rest =>
      RuntimeSendMessage (streamChunk messageId fragment (fullText +:+ fragment))
        :: chunk_messages messageId rest (fullText +:+ fragment)
  end.

Definition is_notification (e : Event) : bool :=
  match e with
  | RuntimeSendMessage _ => true
  | _ => false
  end.

Definition is_stream_error (e : Event) : bool :=
  match e with
  | RuntimeSendMessage (streamError _ _) => true
  | _ => false
  end.

(** The tabs [chrome.tabs.get] was asked for, in order. *)
Definition tabs_looked_up (t : list Event) : list Z :=
  omap (fun e => match e with TabsGet tabId => Some tabId | _ => None end) t.

Definition is_active_query (e : Event) : bool :=
  match e with
  | TabsQueryActive => true
  | _ => false
  end.

(** The result of [extractActiveTabContent] as a value; the function never
    throws, so the second case is never met. *)
Definition active_content (P : Platform) : TabContent :=
  match result_of (extractActiveTabContent P) with
  | Ok r => r
  | Throw _ => placeholder "Current Tab" "" EXTRACTION_UNAVAILABLE
  end.

(** What [handleQuery] makes of the result of the generation. *)
Definition query_result (g : GenResult) : QueryResult :=
  match g with
  | GenOk text m _ => QueryOk text m
  | GenErr error => QueryErr error
  end.

(** Every content script of the platform is the one of the repository: an
    answer to [extractContent] is what [extractPageContent] returns on
    some page. *)
Definition content_scripts_genuine (P : Platform) : Prop :=
  forall tabId n response,
    tabs_sendMessage P tabId n = Ok (Some response) ->
    exists page, response = ContentScript.extractPageContent page.

(** What an answer of the content script becomes in the result. *)
Definition relayed (data : ContentScript.PageData) (r : TabContent) : Prop :=
  title r = ContentScript.title data /\
  url r = ContentScript.url data /\
  content r = ContentScript.content data /\
  contentLength r = ContentScript.contentLength data.

End Observe.

(** ** The shape of a cleaned text *)

Module TextShape.

(** Every whitespace character of [s] is a space, and no space follows a
    space; [after_space] tells that a space comes just before [s]. *)
Fixpoint single_spaced (after_space : bool) (s : string) : bool :=
  match s with
  | EmptyString => true
  | String c rest =>
      if Js.is_whitespace c
      then Ascii.eqb c " " && negb after_space && single_spaced true rest
      else single_spaced false rest
  end.

Definition starts_with_whitespace (s : string) : bool :=
  match s with
  | EmptyString => false
  | String c _ => Js.is_whitespace c
  end.

Fixpoint ends_with_whitespace (s : string) : bool :=
  match s with
  | EmptyString => false
  | String c rest =>
      match rest with
      | EmptyString => Js.is_whitespace c
      | String _ _ => ends_with_whitespace rest
      end
  end.

(** The characters of [s] that are not whitespace, in order. *)
Fixpoint visible (s : string) : string :=
  match s with
  | EmptyString => EmptyString
  | String c rest =>
      if Js.is_whitespace c then visible rest else String c (visible rest)
  end.

End TextShape.

(** ** The model catalogue: worker and panel *)

Module ModelCatalog.

(** What [response.json()] resolves to: the JSON [null], or any other
    value, of which the function reads [models] only.  [models] is [None]
    when the value has no such field or a falsy one, and a list of
    descriptors otherwise, as the inference server gives it. *)
Inductive JsonBody :=
| BodyNull
| BodyData (models : option (list SidePanel.ModelDescriptor)).

(** The response to [GET /api/tags].  [tags_json] is the outcome of
    [response.json()]: it rejects when the body is not JSON. *)
Record TagsResponse := {
  tags_ok : bool;
  tags_status : Z;
  tags_json : Res JsonBody
}.

(** The message of the [TypeError] that reading [models] of [null] throws. *)
Definition NULL_MODELS : string :=
  "Cannot read properties of null (reading 'models')".

(** [fetchOllamaModels], on the outcome of the request. *)
Definition fetchOllamaModels (outcome : Res TagsResponse) : SidePanel.ModelsResponse :=
  match outcome with
  | Throw msg => SidePanel.ModelsErr msg
  | Ok response =>
      if negb (tags_ok response)
      then SidePanel.ModelsErr ("Ollama API error: " +:+ Js.interp_num (tags_status response))
      else match tags_json response with
           | Throw msg => SidePanel.ModelsErr msg
           | Ok BodyNull => SidePanel.ModelsErr NULL_MODELS
           | Ok (BodyData models) => SidePanel.ModelsOk (default [] models)
           end
  end.

(** [checkOllamaConnection], on the outcome of the request. *)
Definition checkOllamaConnection (outcome : Res TagsResponse) : bool :=
  match outcome with
  | Ok response => tags_ok response
  | Throw _ => false
  end.

(** The worker behind the panel: what the listener answers to [getModels]
    when the catalogue request has this outcome. *)
Definition worker (outcome : Res TagsResponse) (tabs : Res SidePanel.TabsResponse)
  : SidePanel.Runtime :=
  {| SidePanel.getModels := Ok (fetchOllamaModels outcome);
     SidePanel.getTabs := tabs |}.

(** [handleModelChange], for the value of the dropdown. *)
Definition handleModelChange (value : string) (p : SidePanel.Panel) : SidePanel.Panel :=
  let p := SidePanel.set_selectedModel (Some value) p in
  SidePanel.set_storage (<["selectedModel" := value]> (SidePanel.storage p)) p.

End ModelCatalog.

(** ** Texts without markers *)

Module Markers.

(** No character of [s] is an at sign, a space or a line feed: the
    characters that end the backward scan of [detectAtMention]. *)
Fixpoint mention_free (s : string) : bool :=
  match s with
  | EmptyString => true
  | String c rest =>
      negb (Ascii.eqb c "@" || Ascii.eqb c " " || Ascii.eqb c Js.lf)
      && mention_free rest
  end.

(** No character of [s] is a double quote. *)
Fixpoint quote_free (s : string) : bool :=
  match s with
  | EmptyString => true
  | String c rest => negb (Ascii.eqb c Js.dquote) && quote_free rest
  end.

End Markers.

(** ** Inputs whose mentions can be read back *)

Module Readable.

(** A title a mention token can carry: not empty, no double quote. *)
Definition title_ok (tabTitle : string) : bool :=
  Js.truthy tabTitle && Markers.quote_free tabTitle.

(** Every text node is free of double quotes and every mention tag has a
    title a token can carry. *)
Definition node_ok (n : SidePanel.InputNode) : bool :=
  match n with
  | SidePanel.TextNode text => Markers.quote_free text
  | SidePanel.MentionTag tabTitle _ => title_ok tabTitle
  end.

(** [s] does not begin with a double quote. *)
Definition unquoted_head (s : string) : Prop :=
  match s with
  | EmptyString => True
  | String c _ => Ascii.eqb c Js.dquote = false
  end.

End Readable.

(** ** A dropdown and two inputs for the examples *)

Module Typing.

(** The dropdown while a mention is typed at index 4: two suggestions, the
    first one highlighted. *)
Definition offered : Autocomplete.Suggestions :=
  {| Autocomplete.displayed := true;
     Autocomplete.items := [("Docs", "https://x"); ("Settings", "chrome://settings/")];
     Autocomplete.selectedTabIndex := 0;
     Autocomplete.currentAtMentionStart := 4 |}.

(** The textarea, the cursor right after the term. *)
Definition textarea : TextareaSelect.Textarea :=
  {| TextareaSelect.value := "Sum @Do more"; TextareaSelect.selectionStart := 7 |}.

(** The rich input with an earlier mention tag; the term is typed at
    index 13 of its text. *)
Definition rich_input : list SidePanel.InputNode :=
  [SidePanel.MentionTag "Settings" "chrome://settings/"; SidePanel.TextNode " and @Do more"].

End Typing.

(** * Properties *)

(** ** Strings *)

Module JsFacts.

Lemma app_nil_l (s : string) : "" +:+ s = s.
Proof. reflexivity. Qed.

Lemma app_cons (c : ascii) (s1 s2 : string) :
  String c s1 +:+ s2 = String c (s1 +:+ s2).
Proof. reflexivity. Qed.

Lemma length_app (s1 s2 : string) :
  String.length (s1 +:+ s2) = (String.length s1 + String.length s2)%nat.
Proof.
  induction s1 as [|c s1 IH]; [reflexivity|].
  rewrite app_cons. cbn. now rewrite IH.
Qed.

Lemma len_app (s1 s2 : string) : Js.len (s1 +:+ s2) = Js.len s1 + Js.len s2.
Proof. unfold Js.len. rewrite length_app. lia. Qed.

Lemma app_assoc (s1 s2 s3 : string) : (s1 +:+ s2) +:+ s3 = s1 +:+ (s2 +:+ s3).
Proof.
  induction s1 as [|c s1 IH]; [reflexivity|].
  rewrite !app_cons. now rewrite IH.
Qed.

Lemma app_empty_r (s : string) : s +:+ "" = s.
Proof.
  induction s as [|c s IH]; [reflexivity|].
  rewrite app_cons. now rewrite IH.
Qed.

(** A string is its first [n] characters followed by the others. *)
Lemma substring_split (n : nat) (s : string) :
  s = String.substring 0 n s +:+ String.substring n (String.length s - n) s.
Proof.
  revert n; induction s as [|c s IH]; intros [|n]; cbn; try reflexivity.
  - rewrite app_nil_l. f_equal. specialize (IH 0%nat). cbn in IH.
    replace (String.length s - 0)%nat with (String.length s) in IH by lia.
    destruct s; [reflexivity|]. exact IH.
  - rewrite app_cons. f_equal. apply IH.
Qed.

Lemma length_substring_0 (n : nat) (s : string) :
  (n <= String.length s)%nat -> String.length (String.substring 0 n s) = n.
Proof.
  revert n; induction s as [|c s IH]; intros [|n] Hn; cbn in *; try lia.
  rewrite IH; lia.
Qed.

Lemma len_substring_to (n : Z) (s : string) :
  0 <= n <= Js.len s -> Js.len (Js.substring_to n s) = n.
Proof.
  unfold Js.len, Js.substring_to. intros Hn.
  rewrite length_substring_0; lia.
Qed.

(** Once the runs of whitespace are collapsed, no line feed is left. *)
Lemma collapse_whitespace_from_no_lf (in_run : bool) (s : string) :
  Js.has_lf (Js.collapse_whitespace_from in_run s) = false.
Proof.
  revert in_run. induction s as [|c s IH]; intros in_run; [reflexivity|].
  cbn [Js.collapse_whitespace_from].
  destruct (Js.is_whitespace c) eqn:Hc.
  - destruct in_run; [apply IH|]. cbn [Js.has_lf]. by rewrite IH.
  - cbn [Js.has_lf]. rewrite IH.
    destruct (Ascii.eqb_spec c Js.lf) as [->|]; [discriminate|reflexivity].
Qed.

(** Without a line feed, the second [replace] finds nothing to replace. *)
Lemma collapse_blank_lines_no_lf (s : string) :
  Js.has_lf s = false -> Js.collapse_blank_lines s = s.
Proof.
  unfold Js.collapse_blank_lines. induction s as [|c s IH]; [reflexivity|].
  cbn [Js.has_lf Js.collapse_blank_lines_from].
  destruct (Ascii.eqb c Js.lf); [discriminate|]. cbn [orb].
  intros Hs. by rewrite IH.
Qed.

Lemma substring_all (p : string) : String.substring 0 (String.length p) p = p.
Proof. induction p as [|c p IH]; cbn; [reflexivity|]. now rewrite IH. Qed.

Lemma substring_skip (s p : string) (m : nat) :
  String.substring (String.length s) m (s +:+ p) = String.substring 0 m p.
Proof.
  induction s as [|c s IH]; [reflexivity|].
  rewrite app_cons. cbn. exact IH.
Qed.

Lemma endsWith_app (s p : string) : Js.endsWith (s +:+ p) p = true.
Proof.
  unfold Js.endsWith. rewrite length_app.
  destruct (Nat.leb_spec (String.length p) (String.length s + String.length p)); [|lia].
  replace (String.length s + String.length p - String.length p)%nat
    with (String.length s) by lia.
  apply String.eqb_eq.
  now rewrite substring_skip, substring_all.
Qed.

Example split_on_keeps_empty_pieces :
  Js.split_on Js.lf ("a" +:+ Js.nl +:+ Js.nl +:+ "b" +:+ Js.nl) = ["a"; ""; "b"; ""].
Proof. reflexivity. Qed.

Example trim_both_ends : Js.trim "  a b  " = "a b".
Proof. reflexivity. Qed.

Example collapse_whitespace_runs :
  Js.collapse_whitespace ("  a " +:+ Js.nl +:+ Js.nl +:+ " b  ") = " a b ".
Proof. reflexivity. Qed.

(** On a text that still has its line feeds, the second [replace] turns a
    line feed, the whitespace after it and the last line feed of that run
    into two line feeds. *)
Example collapse_blank_lines_greedy :
  Js.collapse_blank_lines
    ("a" +:+ Js.nl +:+ "  " +:+ Js.nl +:+ " " +:+ Js.nl +:+ " b" +:+ Js.nl +:+ "c")
  = "a" +:+ Js.nl +:+ Js.nl +:+ " b" +:+ Js.nl +:+ "c".
Proof. reflexivity. Qed.

End JsFacts.

(** ** The content script *)

Module ContentScriptFacts.

Import ContentScript.

(** The second [replace] of the clean-up never applies: the first one
    has already turned every line feed into a space. *)
Lemma clean_whitespace_collapse (raw : string) :
  clean_whitespace raw = Js.trim (Js.collapse_whitespace raw).
Proof.
  unfold clean_whitespace.
  rewrite JsFacts.collapse_blank_lines_no_lf; [reflexivity|].
  apply JsFacts.collapse_whitespace_from_no_lf.
Qed.

Lemma limit_content_long (text : string) :
  MAX_CONTENT < Js.len text ->
  limit_content text = Js.substring_to MAX_CONTENT text +:+ ELLIPSIS.
Proof.
  intros Hlong. unfold limit_content.
  destruct (Z.ltb_spec MAX_CONTENT (Js.len text)); [reflexivity|lia].
Qed.

Lemma limit_content_short (text : string) :
  Js.len text <= MAX_CONTENT -> limit_content text = text.
Proof.
  intros Hshort. unfold limit_content.
  destruct (Z.ltb_spec MAX_CONTENT (Js.len text)); [lia|reflexivity].
Qed.

(** C8. When the cleaned text of the page is longer than 10,000
    characters, the content returned is the first 10,000 characters of
    that text followed by the three-dot marker; when it has 10,000
    characters or fewer, the content is that text, with no marker. *)
Theorem extractPageContent_truncates (p : Page) (raw : string) :
  page_text p = Ok raw ->
  exists data,
    extractPageContent p = ExtractOk data /\
    (MAX_CONTENT < Js.len (clean_whitespace raw) ->
     exists kept dropped,
       clean_whitespace raw = kept +:+ dropped /\
       Js.len kept = 10000 /\
       content data = kept +:+ "...") /\
    (Js.len (clean_whitespace raw) <= MAX_CONTENT ->
     content data = clean_whitespace raw).
Proof.
  intros Hraw. unfold extractPageContent. rewrite Hraw.
  eexists; split; [reflexivity|]. cbn [content]. split.
  - intros Hlong. rewrite (limit_content_long _ Hlong).
    exists (Js.substring_to MAX_CONTENT (clean_whitespace raw)).
    eexists. split; [apply JsFacts.substring_split|]. split; [|reflexivity].
    apply JsFacts.len_substring_to. unfold MAX_CONTENT in *. lia.
  - intros Hshort. now apply limit_content_short.
Qed.

Lemma extractPageContent_truncates_witness :
  page_text Samples.long_page = Ok (String.concat "" (repeat "words  " 2500)) /\
  exists data,
    extractPageContent Samples.long_page = ExtractOk data /\
    Js.len (content data) = 10003 /\
    Js.endsWith (content data) "..." = true.
Proof.
  split; [reflexivity|].
  destruct (extractPageContent_truncates Samples.long_page _ eq_refl)
    as (data & Hdata & Hlong & _).
  exists data. split; [exact Hdata|].
  destruct Hlong as (kept & dropped & _ & Hkept & ->); [now vm_compute|].
  split; [|apply JsFacts.endsWith_app].
  rewrite JsFacts.len_app, Hkept. reflexivity.
Defined.

(** C10. The [contentLength] of a success result is the length of its
    [content], marker included: 10,003 for a page whose cleaned text is
    longer than 10,000 characters. *)
Theorem extractPageContent_contentLength (p : Page) (data : PageData) :
  extractPageContent p = ExtractOk data ->
  contentLength data = Js.len (content data) /\
  (forall raw, page_text p = Ok raw ->
     MAX_CONTENT < Js.len (clean_whitespace raw) ->
     contentLength data = 10003).
Proof.
  unfold extractPageContent. intros Hdata.
  destruct (page_text p) as [raw|msg]; [|discriminate].
  injection Hdata as <-. cbn [contentLength content]. split; [reflexivity|].
  intros raw' [= <-] Hlong.
  rewrite (limit_content_long _ Hlong), JsFacts.len_app.
  rewrite JsFacts.len_substring_to by (unfold MAX_CONTENT in *; lia).
  reflexivity.
Qed.

Lemma extractPageContent_contentLength_witness :
  exists data,
    extractPageContent Samples.long_page = ExtractOk data /\
    contentLength data = Js.len (content data) /\
    contentLength data = 10003.
Proof.
  eexists. split; [reflexivity|].
  destruct (extractPageContent_contentLength Samples.long_page _ eq_refl) as [Hlen Hlong].
  split; [exact Hlen|].
  apply (Hlong _ eq_refl). now vm_compute.
Defined.

End ContentScriptFacts.

(** ** The background worker: generation *)

Module BackgroundFacts.
Import Background.

Lemma concat_cons (x : string) (l : list string) :
  String.concat "" (x :: l) = x +:+ String.concat "" l.
Proof.
  destruct l as [|y l]; cbn [String.concat].
  - now rewrite JsFacts.app_empty_r.
  - reflexivity.
Qed.


Section Generate.
Context {St : Type}.
Variable P : Platform.
Variable onChunk : option (string -> St -> St * list Event).

Lemma fragments_cons line lines :
  fragments P (line :: lines) =
  match fragment_of P line with
  | Some fragment => fragment :: fragments P lines
  | None => fragments P lines
  end.
Proof. reflexivity. Qed.

Lemma take_fragment_spec data line fullResponse s :
  JSON_parse P line = Some data ->
  take_fragment onChunk data fullResponse s =
  match fragment_of P line with
  | Some fragment =>
      (fullResponse +:+ fragment,
       (call_onChunk onChunk fragment s).1, (call_onChunk onChunk fragment s).2)
  | None => (fullResponse, s, [])
  end.
Proof.
  intros Hdata. unfold take_fragment, fragment_of. rewrite Hdata.
  destruct (rec_response data) as [f|]; [|done].
  destruct (Js.truthy f); [|done].
  by destruct (call_onChunk onChunk f s).
Qed.


(** Lines without a completion flag leave the loop running, with their
    fragments appended and forwarded in order. *)
Lemma for_lines_running lines fullResponse s :
  Forall (fun line => completes P line = false) lines ->
  for_lines P onChunk lines fullResponse s =
  (Running (fullResponse +:+ String.concat "" (fragments P lines)),
   (deliver onChunk (fragments P lines) s).1,
   (deliver onChunk (fragments P lines) s).2).
Proof.
  intros Hno. revert fullResponse s.
  induction Hno as [|line lines Hline _ IH]; intros fullResponse s.
  - cbn. now rewrite JsFacts.app_empty_r.
  - cbn [for_lines]. rewrite fragments_cons. unfold completes in Hline.
    destruct (JSON_parse P line) as [data|] eqn:Hdata.
    + rewrite Hline, (take_fragment_spec data line) by done.
      destruct (fragment_of P line) as [f|].
      * rewrite IH, concat_cons, JsFacts.app_assoc. cbn [deliver].
        destruct (call_onChunk onChunk f s) as [s' t]. cbn.
        by destruct (deliver onChunk _ s').
      * by rewrite IH.
    + unfold fragment_of. rewrite Hdata. apply IH.
Qed.

(** The loop over two lists of lines in a row. *)
Lemma for_lines_app lines1 lines2 fullResponse s :
  for_lines P onChunk (lines1 ++ lines2) fullResponse s =
  match for_lines P onChunk lines1 fullResponse s with
  | (Returned r, s', t) => (Returned r, s', t)
  | (Running fullResponse', s', t) =>
      let '(o, s'', t') := for_lines P onChunk lines2 fullResponse' s' in
      (o, s'', t ++ t')
  end.
Proof.
  revert fullResponse s.
  induction lines1 as [|line lines1 IH]; intros fullResponse s; cbn [for_lines app].
  - by destruct (for_lines P onChunk lines2 fullResponse s) as [[o s'] t].
  - destruct (JSON_parse P line) as [data|]; [|apply IH].
    destruct (take_fragment onChunk data fullResponse s) as [[fr1 s1] t1].
    destruct (rec_done data); [done|]. rewrite IH.
    destruct (for_lines P onChunk lines1 fr1 s1) as [[[r|fr2] s2] t2]; [done|].
    destruct (for_lines P onChunk lines2 fr2 s2) as [[o s3] t3].
    by rewrite (assoc_L (++)).
Qed.


(** The two nested loops see the lines of the body as one sequence. *)
Lemma read_loop_lines chunks e fullResponse s :
  read_loop P onChunk chunks e fullResponse s =
  finish e (for_lines P onChunk (stream_lines chunks) fullResponse s).
Proof.
  revert fullResponse s.
  induction chunks as [|chunk chunks IH]; intros fullResponse s; [by destruct e|].
  cbn [read_loop stream_lines flat_map]. rewrite for_lines_app.
  destruct (for_lines P onChunk (lines_of chunk) fullResponse s) as [[[r|fr1] s1] t1];
    [done|].
  rewrite IH. fold (stream_lines chunks).
  by destruct (for_lines P onChunk (stream_lines chunks) fr1 s1) as [[[r|fr2] s2] t2].
Qed.

Lemma generateWithOllama_ok model prompt s resp :
  fetch_generate P model prompt = Ok resp -> ok resp = true ->
  generateWithOllama P onChunk model prompt s =
  let '(r, s', t) :=
    finish (body_end resp)
           (for_lines P onChunk (stream_lines (body resp)) "" s) in
  (match r with Ok g => g | Throw msg => GenErr msg end, s',
   FetchGenerate model prompt :: t).
Proof.
  intros Hresp Hok. unfold generateWithOllama.
  by rewrite Hresp, Hok, read_loop_lines.
Qed.

Lemma generateWithOllama_no_completion model prompt s resp :
  fetch_generate P model prompt = Ok resp -> ok resp = true ->
  body_end resp = EndOfStream ->
  Forall (fun line => completes P line = false) (stream_lines (body resp)) ->
  generateWithOllama P onChunk model prompt s =
  (GenOk (String.concat "" (fragments P (stream_lines (body resp)))) None None,
   (deliver onChunk (fragments P (stream_lines (body resp))) s).1,
   FetchGenerate model prompt
     :: (deliver onChunk (fragments P (stream_lines (body resp))) s).2).
Proof.
  intros Hresp Hok Hend Hno.
  rewrite (generateWithOllama_ok _ _ _ resp) by done.
  rewrite for_lines_running, Hend by done.
  reflexivity.
Qed.

End Generate.

Lemma deliver_record (fs seen : list string) :
  deliver (Some record_chunk) fs seen = (seen ++ fs, []).
Proof.
  revert seen. induction fs as [|f fs IH]; intros seen; cbn [deliver call_onChunk].
  - by rewrite (right_id_L [] (++)).
  - unfold record_chunk at 1. rewrite IH. by rewrite <- (assoc_L (++)).
Qed.




(** C6. When the body ends and no record carried the completion flag, the
    function returns a success with the text accumulated so far; the
    result has no model, no context and no sign of truncation. *)
Theorem generateWithOllama_without_completion
        {St} (P : Platform) (onChunk : option (string -> St -> St * list Event))
        (model prompt : string) (s : St) (resp : FetchResponse) :
  fetch_generate P model prompt = Ok resp ->
  ok resp = true ->
  body_end resp = EndOfStream ->
  Forall (fun line => forall data,
            JSON_parse P line = Some data -> rec_done data = false)
         (stream_lines (body resp)) ->
  generateWithOllama P onChunk model prompt s =
    (GenOk (String.concat "" (fragments P (stream_lines (body resp)))) None None,
     (deliver onChunk (fragments P (stream_lines (body resp))) s).1,
     FetchGenerate model prompt
       :: (deliver onChunk (fragments P (stream_lines (body resp))) s).2).
Proof.
  intros Hresp Hok Hend Hno.
  apply generateWithOllama_no_completion; try done.
  eapply Forall_impl; [exact Hno|]. intros line Hline. unfold completes.
  destruct (JSON_parse P line) as [data|] eqn:Hdata; [by apply Hline|done].
Qed.

Lemma generateWithOllama_without_completion_witness :
  generateWithOllama (Samples.browser (Ok Samples.cut_stream))
                     (Some record_chunk) "llama3" "Hi" [] =
    (GenOk "Hello" None None, ["Hel"; "lo"], [FetchGenerate "llama3" "Hi"]).
Proof.
  apply (generateWithOllama_without_completion
           (Samples.browser (Ok Samples.cut_stream)) (Some record_chunk)
           "llama3" "Hi" [] Samples.cut_stream); try reflexivity.
  change (stream_lines (body Samples.cut_stream))
    with [Samples.line_hel; Samples.line_lo].
  constructor; [|constructor; [|constructor]];
    intros data Hdata; vm_compute in Hdata; injection Hdata as <-; reflexivity.
Defined.

End BackgroundFacts.

(** ** The background worker: tab extraction *)

Module ExtractionFacts.

Import Background.

(** Case analysis on the answers of the platform the goal depends on. *)
Ltac case_platform :=
  repeat match goal with
         | |- context [tabs_get ?P ?i] =>
             destruct (tabs_get P i) as [[?|]|?]; cbn
         | |- context [tabs_query_active ?P] =>
             destruct (tabs_query_active P) as [[|? ?]|?]; cbn
         | |- context [Z.eqb ?a ?b] => destruct (Z.eqb a b); cbn
         | |- context [cannot_access ?u] => destruct (cannot_access u); cbn
         | |- context [tabs_sendMessage ?P ?i ?n] =>
             destruct (tabs_sendMessage P i n) as [[[?|?]|]|?]; cbn
         | |- context [scripting_executeScript ?P ?i] =>
             destruct (scripting_executeScript P i) as [?|?]; cbn
         end.

Ltac unfold_extract :=
  unfold extractTabContent, extractActiveTabContent, extract_from_tab,
    request_content, result_of, trace_of, attempt, call, try_catch, bind, ret;
  cbn.

Lemma cannot_access_restricted (u : option string) :
  restricted_url u -> cannot_access (Js.or_else u "") = true.
Proof.
  intros [Hempty | (prefix & Hin & Hprefix)].
  - by rewrite Hempty.
  - unfold cannot_access. cbn in Hin.
    destruct Hin as [<-|[<-|[<-|[<-|[<-|[<-|[]]]]]]];
      rewrite Hprefix; by rewrite ?orb_true_r.
Qed.

Lemma extractTabContent_never_throws (P : Platform) (tabId : Z) :
  result_of (extractTabContent P tabId) = Ok (extracted P tabId).
Proof.
  unfold extracted. destruct (result_of (extractTabContent P tabId)) eqn:Hres; [done|].
  exfalso. revert Hres. unfold_extract. case_platform; discriminate.
Qed.

Lemma extractTabContent_sends_no_prompt (P : Platform) (tabId : Z) :
  prompts_sent (trace_of (extractTabContent P tabId)) = [].
Proof. unfold_extract. case_platform; reflexivity. Qed.

Lemma extractActiveTabContent_sends_no_prompt (P : Platform) :
  prompts_sent (trace_of (extractActiveTabContent P)) = [].
Proof. unfold_extract. case_platform; reflexivity. Qed.

(** C7. For a tab whose URL is empty or begins with a restricted prefix,
    both extraction functions return a placeholder whose [contentLength]
    is 0, and their trace holds no page-scripting call: no message to a
    content script, no script injection. *)
Theorem restricted_tab_is_never_scripted (P : Platform) :
  (forall tabId tab,
      tabs_get P tabId = Ok (Some tab) ->
      restricted_url (tab_url tab) ->
      exists r t,
        extractTabContent P tabId = (Ok r, t) /\
        content r = CANNOT_ACCESS /\
        contentLength r = 0 /\
        Forall (fun e => is_scripting e = false) t) /\
  (forall tab others,
      tabs_query_active P = Ok (tab :: others) ->
      restricted_url (tab_url tab) ->
      exists r t,
        extractActiveTabContent P = (Ok r, t) /\
        (content r = CANNOT_ACCESS \/ content r = "[No active tab found]") /\
        contentLength r = 0 /\
        Forall (fun e => is_scripting e = false) t).
Proof.
  split.
  - intros tabId tab Htab Hurl. apply cannot_access_restricted in Hurl.
    unfold_extract. rewrite Htab. cbn. unfold extract_from_tab. rewrite Hurl. cbn.
    do 2 eexists. split; [reflexivity|]. repeat split. by repeat constructor.
  - intros tab others Htabs Hurl. apply cannot_access_restricted in Hurl.
    unfold_extract. rewrite Htabs. cbn.
    destruct (tab_id tab =? 0); cbn.
    + do 2 eexists. split; [reflexivity|]. split; [by right|]. split; [done|].
      by repeat constructor.
    + rewrite Hurl. cbn.
      do 2 eexists. split; [reflexivity|]. split; [by left|]. split; [done|].
      by repeat constructor.
Qed.

Lemma restricted_tab_is_never_scripted_witness :
  (exists r t,
     extractTabContent Samples.platform 3 = (Ok r, t) /\
     content r = CANNOT_ACCESS /\
     contentLength r = 0 /\
     Forall (fun e => is_scripting e = false) t) /\
  (exists r t,
     extractActiveTabContent Samples.platform = (Ok r, t) /\
     (content r = CANNOT_ACCESS \/ content r = "[No active tab found]") /\
     contentLength r = 0 /\
     Forall (fun e => is_scripting e = false) t).
Proof.
  assert (restricted_url (tab_url Samples.settings_tab)) as Hurl.
  { right. exists "chrome://". split; [by left|reflexivity]. }
  split.
  - apply (proj1 (restricted_tab_is_never_scripted Samples.platform)
                 3 Samples.settings_tab eq_refl Hurl).
  - apply (proj2 (restricted_tab_is_never_scripted Samples.platform)
                 Samples.settings_tab [] eq_refl Hurl).
Defined.

End ExtractionFacts.

(** ** The background worker: prompts *)

Module QueryFacts.

Import Background.

Lemma prompts_sent_app (t1 t2 : list Event) :
  prompts_sent (t1 ++ t2) = prompts_sent t1 ++ prompts_sent t2.
Proof. apply omap_app. Qed.

Lemma prompts_sent_fetch (model prompt : string) (t : list Event) :
  prompts_sent (FetchGenerate model prompt :: t) = prompt :: prompts_sent t.
Proof. reflexivity. Qed.

Lemma endsWith_iff (s p : string) :
  Js.endsWith s p = true <-> exists front, s = front +:+ p.
Proof.
  split.
  - unfold Js.endsWith.
    destruct (Nat.leb_spec (String.length p) (String.length s)) as [Hle|]; [|done].
    intros Heq%String.eqb_eq.
    exists (String.substring 0 (String.length s - String.length p) s).
    etransitivity;
      [apply (JsFacts.substring_split (String.length s - String.length p))|].
    f_equal.
    replace (String.length s - (String.length s - String.length p))%nat
      with (String.length p) by lia.
    exact Heq.
  - intros [front ->]. apply JsFacts.endsWith_app.
Qed.

Lemma endsWith_app_r (front s p : string) :
  Js.endsWith s p = true -> Js.endsWith (front +:+ s) p = true.
Proof.
  rewrite !endsWith_iff. intros [x ->]. exists (front +:+ x).
  by rewrite JsFacts.app_assoc.
Qed.

Section Callback.

Context {St : Type}.
Variable P : Platform.
Variable onChunk : option (string -> St -> St * list Event).
Hypothesis onChunk_quiet :
  forall fragment s, prompts_sent (call_onChunk onChunk fragment s).2 = [].

Lemma for_lines_sends_no_prompt lines fullResponse s :
  prompts_sent (for_lines P onChunk lines fullResponse s).2 = [].
Proof.
  revert fullResponse s.
  induction lines as [|line lines IH]; intros fullResponse s; [done|].
  cbn [for_lines]. destruct (JSON_parse P line) as [data|]; [|apply IH].
  unfold take_fragment.
  destruct (rec_response data) as [fragment|].
  - destruct (Js.truthy fragment).
    + pose proof (onChunk_quiet fragment s) as Hquiet.
      destruct (call_onChunk onChunk fragment s) as [s1 t1].
      destruct (rec_done data); [done|].
      specialize (IH (fullResponse +:+ fragment) s1).
      destruct (for_lines P onChunk lines _ s1) as [[o s2] t2].
      cbn [fst snd] in *. by rewrite prompts_sent_app, Hquiet, IH.
    + destruct (rec_done data); [done|].
      specialize (IH fullResponse s).
      by destruct (for_lines P onChunk lines _ s) as [[o s2] t2].
  - destruct (rec_done data); [done|].
    specialize (IH fullResponse s).
    by destruct (for_lines P onChunk lines _ s) as [[o s2] t2].
Qed.

(** A run of the generator sends its prompt, and only it. *)
Lemma generateWithOllama_sends_prompt model prompt s :
  prompts_sent (generateWithOllama P onChunk model prompt s).2 = [prompt].
Proof.
  unfold generateWithOllama.
  destruct (fetch_generate P model prompt) as [resp|msg]; [|done].
  destruct (ok resp); [|done]. cbn [negb].
  rewrite BackgroundFacts.read_loop_lines.
  pose proof (for_lines_sends_no_prompt (stream_lines (body resp)) "" s) as Hquiet.
  destruct (for_lines P onChunk (stream_lines (body resp)) "" s) as [[[r|fr] s1] t1];
    cbn [fst snd finish] in *; destruct (body_end resp); cbn [fst snd prompts_sent omap].
  all: by rewrite prompts_sent_fetch, Hquiet.
Qed.

End Callback.

Lemma forward_chunk_quiet messageId fragment s :
  prompts_sent (call_onChunk (Some (forward_chunk messageId)) fragment s).2 = [].
Proof. reflexivity. Qed.

Lemma no_callback_quiet fragment (s : unit) :
  prompts_sent (call_onChunk None fragment s).2 = [].
Proof. reflexivity. Qed.

Lemma page_context_prompt_sends_no_prompt (P : Platform) (query : string) :
  prompts_sent (trace_of (page_context_prompt P query)) = [].
Proof.
  unfold page_context_prompt, trace_of, try_catch, bind, ret.
  pose proof (ExtractionFacts.extractActiveTabContent_sends_no_prompt P) as Hquiet.
  unfold trace_of in Hquiet.
  destruct (extractActiveTabContent P) as [[pageData|msg] t]; cbn [fst snd] in *;
    by rewrite ?prompts_sent_app, Hquiet.
Qed.

(** [Promise.all] over the mentioned tabs gives the extraction results in
    the order of the mentions, and sends no prompt. *)
Lemma promise_all_extract (P : Platform) (mentioned : list MentionedTab) :
  exists t,
    promise_all (map (fun tab => extractTabContent P (mention_id tab)) mentioned) =
      (Ok (map (fun tab => extracted P (mention_id tab)) mentioned), t) /\
    prompts_sent t = [].
Proof.
  induction mentioned as [|tab mentioned (t' & IH & Hquiet')].
  - by exists [].
  - cbn [map promise_all]. rewrite IH.
    pose proof (ExtractionFacts.extractTabContent_never_throws P (mention_id tab)) as Hres.
    pose proof (ExtractionFacts.extractTabContent_sends_no_prompt P (mention_id tab)) as Hquiet.
    unfold result_of, trace_of in *.
    destruct (extractTabContent P (mention_id tab)) as [r t]. cbn [fst snd] in *. subst r.
    eexists. split; [reflexivity|]. by rewrite prompts_sent_app, Hquiet, Hquiet'.
Qed.

(** The [forEach] loop pairs the i-th result with the i-th mention. *)
Lemma push_context_parts_blocks (g : MentionedTab -> TabContent)
      (before rest : list MentionedTab) (contextParts : list string) :
  push_context_parts (map g rest) (length before) (before ++ rest) contextParts =
  Ok (contextParts ++ map (fun tab => tab_block tab (g tab)) rest).
Proof.
  revert before contextParts.
  induction rest as [|tab rest IH]; intros before contextParts; cbn [map push_context_parts].
  - by rewrite (right_id_L [] (++)).
  - rewrite list_lookup_middle by done.
    replace (before ++ tab :: rest) with ((before ++ [tab]) ++ rest)
      by (by rewrite <- (assoc_L (++))).
    replace (S (length before)) with (length (before ++ [tab]))
      by (rewrite length_app; cbn; lia).
    rewrite IH. by rewrite <- (assoc_L (++)).
Qed.

(** The prompt [handleQuery] sends when tabs are mentioned. *)
Lemma handleQuery_sends_tabs_prompt (P : Platform) (data : QueryData) :
  mentionedTabs data <> [] ->
  Js.truthy (model data) = true ->
  prompts_sent (trace_of (handleQuery P data)) =
  [tabs_prompt (tab_blocks P (mentionedTabs data)) (query data)].
Proof.
  intros Hsome Hmodel. unfold handleQuery, query_prompt. rewrite Hmodel. cbn [negb].
  replace (0 <? Z.of_nat (length (mentionedTabs data))) with true
    by (symmetry; apply Z.ltb_lt; destruct (mentionedTabs data); [done|cbn; lia]).
  destruct (promise_all_extract P (mentionedTabs data)) as (t & Hall & Hquiet).
  pose proof (push_context_parts_blocks
                (fun tab => extracted P (mention_id tab)) [] (mentionedTabs data) [])
    as Hpush.
  cbn [length app] in Hpush.
  unfold trace_of, try_catch, bind, ret, throw. rewrite Hall, Hpush.
  fold (tab_blocks P (mentionedTabs data)).
  set (prompt := tabs_prompt _ _).
  pose proof (generateWithOllama_sends_prompt P None no_callback_quiet
                (model data) prompt tt) as Hsent.
  unfold generate.
  destruct (generateWithOllama P None (model data) prompt tt) as [[g u] tg].
  cbn [fst snd] in *.
  destruct g as [text m c|error]; cbn [fst snd];
    by rewrite ?(right_id_L [] (++)), ?prompts_sent_app, Hquiet, Hsent.
Qed.

Lemma query_prompt_without_mentions (P : Platform) (data : QueryData) :
  query_prompt P (without_mentions data) = streaming_prompt P data.
Proof. reflexivity. Qed.

(** What [handleStreamingQuery] sends is what [handleQuery] sends for the
    same request without its mentions. *)
Lemma handleStreamingQuery_prompt (P : Platform) (data : QueryData) :
  prompts_sent (trace_of (handleStreamingQuery P data)) =
  prompts_sent (trace_of (handleQuery P (without_mentions data))).
Proof.
  unfold handleStreamingQuery, handleQuery.
  rewrite query_prompt_without_mentions.
  change (model (without_mentions data)) with (model data).
  destruct (Js.truthy (model data)); [|done]. cbn [negb].
  assert (prompts_sent (trace_of (streaming_prompt P data)) = []) as Hquiet.
  { unfold streaming_prompt. destruct (includePageContent data); [|done].
    apply page_context_prompt_sends_no_prompt. }
  set (build := streaming_prompt P data) in *.
  unfold trace_of, try_catch, bind, ret, throw, call, generate in *.
  destruct build as [[prompt|msg] t]; cbn [fst snd] in *; [|done].
  pose proof (generateWithOllama_sends_prompt P None no_callback_quiet
                (model data) prompt tt) as Hplain.
  pose proof (generateWithOllama_sends_prompt
                P (Some (forward_chunk (messageId data)))
                (forward_chunk_quiet (messageId data))
                (model data) prompt "") as Hstream.
  destruct (generateWithOllama P None (model data) prompt tt) as [[g u] tg].
  destruct (generateWithOllama P (Some _) (model data) prompt "") as [[g' u'] tg'].
  cbn [fst snd] in *.
  destruct g as [text m c|error], g' as [text' m' c'|error']; cbn [fst snd];
    rewrite ?(right_id_L [] (++)), ?prompts_sent_app, ?Hquiet, ?Hplain, ?Hstream;
    reflexivity.
Qed.

(** C1, at the scenario of the specification.  For a request that mentions
    the docs tab, [handleQuery] sends the prompt built from the content of
    that tab, and [handleStreamingQuery] sends the bare query: it does not
    read [mentionedTabs]. *)
Theorem handleStreamingQuery_ignores_mentions :
  prompts_sent (trace_of (handleQuery Samples.platform Samples.docs_query)) =
    [tabs_prompt
       [tab_block {| mention_id := 7; mention_title := Some "Docs";
                     mention_url := Some "https://x" |}
                  (extracted Samples.platform 7)]
       "Summarize"] /\
  content (extracted Samples.platform 7) = "Hello world" /\
  prompts_sent (trace_of (handleStreamingQuery Samples.platform Samples.docs_query)) =
    ["Summarize"] /\
  prompts_sent (trace_of (handleStreamingQuery Samples.platform Samples.docs_query)) <>
  prompts_sent (trace_of (handleQuery Samples.platform Samples.docs_query)).
Proof.
  split; [by apply handleQuery_sends_tabs_prompt|].
  split; [reflexivity|].
  split; [reflexivity|].
  by vm_compute.
Qed.

(** C3 as stated fails on its last part: the prompt built for the scenario
    of the specification does not end with the question, nor with the
    question line; it ends with the answer cue. *)
Lemma tabs_prompt_does_not_end_with_question :
  exists prompt,
    prompts_sent (trace_of (handleQuery Samples.platform Samples.docs_query)) = [prompt] /\
    Js.endsWith prompt (query Samples.docs_query) = false /\
    Js.endsWith prompt ("Question: " +:+ query Samples.docs_query) = false /\
    Js.endsWith prompt "Answer:" = true.
Proof. eexists. repeat split; by vm_compute. Qed.

(** C3, amended.  For a request with a model and N mentioned tabs, N not
    zero, the prompt [handleQuery] sends is the fixed heading, the N tab
    blocks joined by the separator, then the question line and the answer
    cue, which ends the prompt.  There are exactly N blocks, in the order
    of the mentions; the i-th block is [tab_block] of the i-th mention and
    of the result of the extraction from the i-th mentioned tab, that is
    the title and the URL of the mention and the extracted content. *)
Theorem handleQuery_tab_blocks (P : Platform) (data : QueryData) :
  mentionedTabs data <> [] ->
  Js.truthy (model data) = true ->
  exists prompt blocks,
    prompts_sent (trace_of (handleQuery P data)) = [prompt] /\
    prompt =
      "Based on the following web page content from referenced tabs, please answer the question."
      +:+ Js.nl +:+ Js.nl
      +:+ Js.join TABS_SEPARATOR blocks
      +:+ Js.nl +:+ Js.nl
      +:+ "Question: " +:+ query data +:+ Js.nl +:+ Js.nl +:+ "Answer:" /\
    length blocks = length (mentionedTabs data) /\
    (forall i tab,
        mentionedTabs data !! i = Some tab ->
        exists tabData,
          result_of (extractTabContent P (mention_id tab)) = Ok tabData /\
          blocks !! i =
            Some ("Tab: " +:+ Js.interp (mention_title tab) +:+ Js.nl
                  +:+ "URL: " +:+ Js.interp (mention_url tab) +:+ Js.nl
                  +:+ Js.nl
                  +:+ "Content:" +:+ Js.nl
                  +:+ content tabData +:+ Js.nl)) /\
    Js.endsWith prompt
      ("Question: " +:+ query data +:+ Js.nl +:+ Js.nl +:+ "Answer:") = true.
Proof.
  intros Hsome Hmodel.
  exists (tabs_prompt (tab_blocks P (mentionedTabs data)) (query data)),
         (tab_blocks P (mentionedTabs data)).
  split; [by apply handleQuery_sends_tabs_prompt|].
  split; [reflexivity|].
  split; [apply length_map|].
  split.
  - intros i tab Hi. exists (extracted P (mention_id tab)).
    split; [apply ExtractionFacts.extractTabContent_never_throws|].
    unfold tab_blocks. by rewrite list_lookup_fmap, Hi.
  - unfold tabs_prompt. do 6 apply endsWith_app_r.
    rewrite endsWith_iff. by exists "".
Qed.

Lemma handleQuery_tab_blocks_witness :
  exists prompt blocks,
    prompts_sent (trace_of (handleQuery Samples.platform Samples.docs_query)) = [prompt] /\
    prompt =
      "Based on the following web page content from referenced tabs, please answer the question."
      +:+ Js.nl +:+ Js.nl
      +:+ Js.join TABS_SEPARATOR blocks
      +:+ Js.nl +:+ Js.nl
      +:+ "Question: " +:+ "Summarize" +:+ Js.nl +:+ Js.nl +:+ "Answer:" /\
    length blocks = 1%nat /\
    (forall i tab,
        mentionedTabs Samples.docs_query !! i = Some tab ->
        exists tabData,
          result_of (extractTabContent Samples.platform (mention_id tab)) = Ok tabData /\
          blocks !! i =
            Some ("Tab: " +:+ Js.interp (mention_title tab) +:+ Js.nl
                  +:+ "URL: " +:+ Js.interp (mention_url tab) +:+ Js.nl
                  +:+ Js.nl
                  +:+ "Content:" +:+ Js.nl
                  +:+ content tabData +:+ Js.nl)) /\
    Js.endsWith prompt
      ("Question: " +:+ "Summarize" +:+ Js.nl +:+ Js.nl +:+ "Answer:") = true.
Proof.
  apply (handleQuery_tab_blocks Samples.platform Samples.docs_query); [done|reflexivity].
Defined.

End QueryFacts.

(** ** The side panel *)

Module PanelFacts.

Import SidePanel.

(** *** Startup *)

(** C9 as stated fails: the saved model [llama2] is not among the fetched
    models, and a model is selected all the same, the first fetched one. *)
Lemma absent_saved_model_first_model_selected :
  Samples.persisted !! "selectedModel" = Some "llama2" /\
  ~ In "llama2" (map name (fetched Samples.runtime)) /\
  selectedModel (init Samples.runtime (loaded false Samples.persisted)) = Some "mistral" /\
  selectedModel (init Samples.runtime (loaded false Samples.persisted)) <> None.
Proof.
  split; [by vm_compute|]. split; [|split; by vm_compute].
  cbn. intros [Heq|[]]. discriminate.
Qed.

Lemma loadTabs_keeps (R : Runtime) (p : Panel) :
  storage (loadTabs R p) = storage p /\
  selectedModel (loadTabs R p) = selectedModel p /\
  availableModels (loadTabs R p) = availableModels p.
Proof. unfold loadTabs. by destruct (getTabs R) as [[tabs|error]|msg]. Qed.

(** Loading the models into a panel that has no selection yet. *)
Lemma loadModels_fresh (R : Runtime) (p : Panel) :
  selectedModel p = None ->
  availableModels p = [] ->
  selectedModel (loadModels R p) = name <$> head (fetched R) /\
  availableModels (loadModels R p) = fetched R /\
  storage (loadModels R p) =
    match head (fetched R) with
    | Some first => <["selectedModel" := name first]> (storage p)
    | None => storage p
    end.
Proof.
  intros Hnone Hav. unfold loadModels, fetched.
  destruct (getModels R) as [[[|first models]|error]|msg]; try done.
  change (0 <? Z.of_nat (length (first :: models))) with true. cbn iota.
  cbn [set_availableModels selectedModel]. rewrite Hnone. done.
Qed.

(** C9, amended.  At startup, a saved name that is absent from the fetched
    models is not selected; the selection is the default that loading the
    models made: the first fetched model, or no model when nothing was
    fetched. *)
Theorem init_absent_saved_model (R : Runtime) (includePage : bool)
        (persisted : gmap string string) (saved : string) :
  persisted !! "selectedModel" = Some saved ->
  ~ In saved (map name (fetched R)) ->
  selectedModel (init R (loaded includePage persisted)) = name <$> head (fetched R) /\
  selectedModel (init R (loaded includePage persisted)) <> Some saved.
Proof.
  intros Hsaved Habsent.
  assert (selectedModel (init R (loaded includePage persisted))
          = name <$> head (fetched R)) as Hsel.
  { unfold init.
    destruct (loadTabs_keeps R (loaded includePage persisted)) as (Hst & Hnone & Hav).
    destruct (loadModels_fresh R (loadTabs R (loaded includePage persisted)) Hnone Hav)
      as (Hsel & Hav' & Hst').
    rewrite Hst in Hst'. cbn [loaded storage] in Hst'.
    set (p := loadModels R _) in *. rewrite Hst'.
    destruct (fetched R) as [|first models] eqn:Hfetched; cbn [head] in *.
    - rewrite Hsaved, Hav'. cbn [existsb]. by rewrite andb_false_r.
    - rewrite lookup_insert_eq. by destruct (_ && _). }
  split; [exact Hsel|].
  rewrite Hsel. intros Heq. apply Habsent.
  destruct (fetched R) as [|first models]; [done|].
  cbn in Heq. injection Heq as <-. by left.
Qed.

Lemma init_absent_saved_model_witness :
  selectedModel (init Samples.runtime (loaded false Samples.persisted))
    = name <$> head (fetched Samples.runtime) /\
  selectedModel (init Samples.runtime (loaded false Samples.persisted)) <> Some "llama2".
Proof.
  apply (init_absent_saved_model Samples.runtime false Samples.persisted "llama2").
  - by vm_compute.
  - cbn. intros [Heq|[]]. discriminate.
Defined.

(** *** Mentions *)

Lemma omap_resolve_cons (allTabs : list Background.Tab) (title : string)
      (titles : list string) :
  omap (resolve allTabs) (title :: titles) =
  match resolve allTabs title with
  | Some t => t :: omap (resolve allTabs) titles
  | None => omap (resolve allTabs) titles
  end.
Proof. reflexivity. Qed.

(** The loop of [parseTabMentions] keeps the tabs the titles resolve to,
    in the order of the titles. *)
Lemma push_mentions_resolve (allTabs : list Background.Tab) (titles : list string)
      (mentions : list Background.Tab) :
  push_mentions allTabs titles mentions = mentions ++ omap (resolve allTabs) titles.
Proof.
  revert mentions. induction titles as [|title titles IH]; intros mentions.
  - cbn. by rewrite (right_id_L [] (++)).
  - cbn [push_mentions]. rewrite omap_resolve_cons. unfold resolve at 1.
    destruct (List.find (has_title title) allTabs) as [tab|]; rewrite IH; [|done].
    by rewrite <- (assoc_L (++)).
Qed.

Lemma has_title_true (title : string) (t : Background.Tab) :
  has_title title t = true <-> Background.tab_title t = Some title.
Proof.
  unfold has_title. destruct (Background.tab_title t) as [s|]; [|done].
  rewrite String.eqb_eq. split; congruence.
Qed.

Lemma resolve_Some (allTabs : list Background.Tab) (title : string) (t : Background.Tab) :
  resolve allTabs title = Some t -> In t allTabs /\ Background.tab_title t = Some title.
Proof.
  intros [Hin Htitle]%find_some. split; [done|]. by apply has_title_true.
Qed.

Lemma resolve_None (allTabs : list Background.Tab) (title : string) :
  (forall t, In t allTabs -> Background.tab_title t <> Some title) ->
  resolve allTabs title = None.
Proof.
  intros Hnone. destruct (resolve allTabs title) as [t|] eqn:Ht; [|done].
  apply resolve_Some in Ht as [Hin Htitle]. by destruct (Hnone t Hin).
Qed.

(** A title without a tab adds nothing to the mentions. *)
Lemma push_mentions_drop (allTabs : list Background.Tab) (before after : list string)
      (title : string) :
  (forall t, In t allTabs -> Background.tab_title t <> Some title) ->
  push_mentions allTabs (before ++ title :: after) [] =
  push_mentions allTabs (before ++ after) [].
Proof.
  intros Hnone. rewrite !push_mentions_resolve, !omap_app, omap_resolve_cons.
  by rewrite (resolve_None allTabs title Hnone).
Qed.

(** Every mention the loop keeps is a tab of the snapshot whose title is
    one of the titles. *)
Lemma push_mentions_matched (allTabs : list Background.Tab) (titles : list string)
      (t : Background.Tab) :
  In t (push_mentions allTabs titles []) -> matched allTabs titles t.
Proof.
  rewrite push_mentions_resolve. cbn [app].
  rewrite <- list_elem_of_In, list_elem_of_omap.
  intros (title & Hin%list_elem_of_In & [Htab Htitle]%resolve_Some).
  split; [done|]. by exists title.
Qed.

Lemma mention_titles_app (nodes1 nodes2 : list InputNode) :
  mention_titles (nodes1 ++ nodes2) = mention_titles nodes1 ++ mention_titles nodes2.
Proof. apply omap_app. Qed.

Lemma getPlainText_app (nodes1 nodes2 : list InputNode) :
  getPlainText (nodes1 ++ nodes2) = getPlainText nodes1 +:+ getPlainText nodes2.
Proof.
  induction nodes1 as [|[text|tabTitle tabUrl] nodes1 IH]; cbn [app getPlainText].
  - reflexivity.
  - by rewrite IH, JsFacts.app_assoc.
  - by rewrite IH, !JsFacts.app_assoc.
Qed.

Lemma all_whitespace_app (s1 s2 : string) :
  Js.all_whitespace (s1 +:+ s2) = Js.all_whitespace s1 && Js.all_whitespace s2.
Proof.
  induction s1 as [|c s1 IH]; [reflexivity|].
  rewrite JsFacts.app_cons. cbn [Js.all_whitespace]. by rewrite IH, andb_assoc.
Qed.

(** Text with a character that is not whitespace survives [trim]. *)
Lemma trim_truthy (s : string) :
  Js.all_whitespace s = false -> Js.truthy (Js.trim s) = true.
Proof.
  unfold Js.trim. induction s as [|c s IH]; [done|].
  cbn [Js.all_whitespace Js.trimStart].
  destruct (Js.is_whitespace c) eqn:Hc; [exact IH|]. intros _.
  cbn [Js.trimEnd]. destruct (Js.trimEnd s); [by rewrite Hc|done].
Qed.

Lemma exec_all_empty (skip : nat) : TextareaPanel.exec_all skip "" = [].
Proof. by destruct skip. Qed.

Example exec_all_two_mentions :
  TextareaPanel.exec_all 0 Samples.text_input = ["Docs"; "Gone"].
Proof. reflexivity. Qed.

(** An empty name is no mention; a name runs up to the next double quote,
    at signs included. *)
Example exec_all_empty_name_and_at_sign :
  TextareaPanel.exec_all 0
    ("@" +:+ Js.quote +:+ Js.quote +:+ " x @@" +:+ Samples.quoted "A@b"
         +:+ "@" +:+ Js.quote +:+ "open")
  = ["A@b"].
Proof. reflexivity. Qed.

(** C4. A mention whose recorded title is the title of no tab of the
    snapshot is left out of the mentioned tabs: both versions of
    [parseTabMentions] return what they return without it, and every tab
    they return is a tab of the snapshot with the title of a mention.  The
    mention does not stop the query: when a model is selected and no query
    is running, [handleSend] sends the request, with the mentioned tabs of
    the other mentions. *)
Theorem mention_without_tab_is_dropped (p : Panel) (tabTitle : string) :
  (forall t, In t (allTabs p) -> Background.tab_title t <> Some tabTitle) ->
  (forall before after tabUrl,
      let queryInput := before ++ MentionTag tabTitle tabUrl :: after in
      parseTabMentions (allTabs p) queryInput =
        parseTabMentions (allTabs p) (before ++ after) /\
      (forall t, In t (parseTabMentions (allTabs p) queryInput) ->
                 matched (allTabs p) (mention_titles (before ++ after)) t) /\
      (isLoading p = false -> model_truthy (selectedModel p) = true ->
       exists request,
         handleSend p queryInput = Some request /\
         Background.mentionedTabs request =
           map to_mention (parseTabMentions (allTabs p) (before ++ after)))) /\
  (forall value before after,
      TextareaPanel.exec_all 0 (Js.trim value) = before ++ tabTitle :: after ->
      TextareaPanel.parseTabMentions (allTabs p) (Js.trim value) =
        push_mentions (allTabs p) (before ++ after) [] /\
      (forall t, In t (TextareaPanel.parseTabMentions (allTabs p) (Js.trim value)) ->
                 matched (allTabs p) (before ++ after) t) /\
      (isLoading p = false -> model_truthy (selectedModel p) = true ->
       exists request,
         TextareaPanel.handleSend p value = Some request /\
         Background.mentionedTabs request =
           map to_mention (push_mentions (allTabs p) (before ++ after) []))).
Proof.
  intros Hnone. split.
  - intros before after tabUrl queryInput.
    assert (parseTabMentions (allTabs p) queryInput =
            parseTabMentions (allTabs p) (before ++ after)) as Hdrop.
    { unfold parseTabMentions. subst queryInput. rewrite !mention_titles_app.
      cbn [mention_titles omap]. by apply push_mentions_drop. }
    split; [exact Hdrop|]. split.
    + intros t. rewrite Hdrop. apply push_mentions_matched.
    + intros Hidle Hmodel. unfold handleSend. rewrite Hidle, Hmodel, trim_truthy.
      * eexists. split; [reflexivity|]. cbn [Background.mentionedTabs]. by rewrite Hdrop.
      * subst queryInput. rewrite getPlainText_app. cbn [getPlainText].
        rewrite !all_whitespace_app. cbn. by rewrite andb_false_r.
  - intros value before after Hexec.
    assert (TextareaPanel.parseTabMentions (allTabs p) (Js.trim value) =
            push_mentions (allTabs p) (before ++ after) []) as Hdrop.
    { unfold TextareaPanel.parseTabMentions. rewrite Hexec. by apply push_mentions_drop. }
    split; [exact Hdrop|]. split.
    + intros t. rewrite Hdrop. apply push_mentions_matched.
    + intros Hidle Hmodel. unfold TextareaPanel.handleSend. rewrite Hidle, Hmodel.
      destruct (Js.trim value) as [|c rest] eqn:Hquery.
      * rewrite exec_all_empty in Hexec. by destruct before.
      * cbn [Js.truthy negb orb]. eexists. split; [reflexivity|].
        cbn [Background.mentionedTabs]. by rewrite Hdrop.
Qed.

Lemma mention_without_tab_is_dropped_witness :
  (exists request,
     handleSend Samples.panel Samples.rich_input = Some request /\
     Background.mentionedTabs request = [to_mention Samples.docs_tab]) /\
  (exists request,
     TextareaPanel.handleSend Samples.panel Samples.text_input = Some request /\
     Background.mentionedTabs request = [to_mention Samples.docs_tab]).
Proof.
  assert (forall t, In t (allTabs Samples.panel) ->
                    Background.tab_title t <> Some "Gone") as Hgone.
  { intros t [<-|[<-|[]]]; discriminate. }
  destruct (mention_without_tab_is_dropped Samples.panel "Gone" Hgone) as [Hrich Htext].
  split.
  - apply (Hrich [TextNode "Compare "; MentionTag "Docs" "https://x"; TextNode " with "]
                 [] "https://gone"); reflexivity.
  - apply (Htext Samples.text_input ["Docs"] []); reflexivity.
Defined.

End PanelFacts.


(** * Further properties *)

(** ** generateWithOllama on every response *)

Module GenerateFacts.

Import Background Observe.

Section Loops.

Context {St : Type}.
Variable P : Platform.
Variable onChunk : option (string -> St -> St * list Event).

Lemma deliver_cons fragment rest (s : St) :
  deliver onChunk (fragment :: rest) s =
  let '(s', t) := call_onChunk onChunk fragment s in
  let '(s'', t') := deliver onChunk rest s' in
  (s'', t ++ t').
Proof. reflexivity. Qed.

Lemma fragment_of_malformed line :
  JSON_parse P line = None -> fragment_of P line = None.
Proof. intros Hline. unfold fragment_of. by rewrite Hline. Qed.

(** The [for] loop in closed form. *)
Lemma for_lines_closed lines fullResponse s :
  for_lines P onChunk lines fullResponse s =
  (match completion P lines with
   | Some data =>
       Returned (GenOk (fullResponse +:+ String.concat "" (fragments P (consumed P lines)))
                       (rec_model data) (rec_context data))
   | None => Running (fullResponse +:+ String.concat "" (fragments P (consumed P lines)))
   end,
   (deliver onChunk (fragments P (consumed P lines)) s).1,
   (deliver onChunk (fragments P (consumed P lines)) s).2).
Proof.
  revert fullResponse s.
  induction lines as [|line lines IH]; intros fullResponse s.
  - cbn. by rewrite JsFacts.app_empty_r.
  - cbn [for_lines consumed completion]. unfold completes.
    destruct (JSON_parse P line) as [data|] eqn:Hdata.
    + rewrite (BackgroundFacts.take_fragment_spec P onChunk data line) by done.
      destruct (rec_done data) eqn:Hdone.
      * rewrite BackgroundFacts.fragments_cons.
        destruct (fragment_of P line) as [f|]; cbn.
        -- destruct (call_onChunk onChunk f s) as [s' t]. cbn.
           by rewrite (right_id_L [] (++)).
        -- by rewrite JsFacts.app_empty_r.
      * rewrite BackgroundFacts.fragments_cons.
        destruct (fragment_of P line) as [f|].
        -- rewrite IH, BackgroundFacts.concat_cons, JsFacts.app_assoc, deliver_cons.
           destruct (call_onChunk onChunk f s) as [s' t]. cbn [fst snd].
           by destruct (deliver onChunk _ s').
        -- by rewrite IH.
    + rewrite IH, BackgroundFacts.fragments_cons, (fragment_of_malformed line) by done.
      reflexivity.
Qed.

End Loops.

(** The run on a response with an OK status, in closed form. *)
Lemma generateWithOllama_ok_closed
        {St} (P : Platform) (onChunk : option (string -> St -> St * list Event))
        (model prompt : string) (s : St) (resp : FetchResponse) :
  fetch_generate P model prompt = Ok resp ->
  ok resp = true ->
  generateWithOllama P onChunk model prompt s =
    (match completion P (stream_lines (body resp)), body_end resp with
     | Some data, _ =>
         GenOk (String.concat "" (fragments P (consumed P (stream_lines (body resp)))))
               (rec_model data) (rec_context data)
     | None, EndOfStream =>
         GenOk (String.concat "" (fragments P (consumed P (stream_lines (body resp)))))
               None None
     | None, ReadFails msg => GenErr msg
     end,
     (deliver onChunk (fragments P (consumed P (stream_lines (body resp)))) s).1,
     FetchGenerate model prompt
       :: (deliver onChunk (fragments P (consumed P (stream_lines (body resp)))) s).2).
Proof.
  intros Hresp Hok.
  rewrite (BackgroundFacts.generateWithOllama_ok P onChunk _ _ _ resp) by done.
  rewrite for_lines_closed. unfold finish.
  destruct (completion P (stream_lines (body resp))) as [data|]; [done|].
  by destruct (body_end resp).
Qed.





(** X1. For every response with an OK status, only the lines up to the
    first completion record count.  Their fragments are forwarded to the
    callback in order and concatenated; the result is a success with that
    text, with the model and the context of the completion record when
    there is one and without them when the body just ends, and it is a
    failure with the message of the read error when a read rejects before
    any completion record, though the fragments were forwarded by then. *)
Theorem generateWithOllama_closed_form
        {St} (P : Platform) (onChunk : option (string -> St -> St * list Event))
        (model prompt : string) (s : St) (resp : FetchResponse) :
  fetch_generate P model prompt = Ok resp ->
  ok resp = true ->
  generateWithOllama P onChunk model prompt s =
    (match completion P (stream_lines (body resp)), body_end resp with
     | Some data, _ =>
         GenOk (String.concat "" (fragments P (consumed P (stream_lines (body resp)))))
               (rec_model data) (rec_context data)
     | None, EndOfStream =>
         GenOk (String.concat "" (fragments P (consumed P (stream_lines (body resp)))))
               None None
     | None, ReadFails msg => GenErr msg
     end,
     (deliver onChunk (fragments P (consumed P (stream_lines (body resp)))) s).1,
     FetchGenerate model prompt
       :: (deliver onChunk (fragments P (consumed P (stream_lines (body resp)))) s).2).
Proof.
  intros Hresp Hok.
  rewrite (BackgroundFacts.generateWithOllama_ok P onChunk _ _ _ resp) by done.
  rewrite for_lines_closed. unfold finish.
  destruct (completion P (stream_lines (body resp))) as [data|]; [done|].
  by destruct (body_end resp).
Qed.

Lemma generateWithOllama_closed_form_witness :
  generateWithOllama (Samples.browser (Ok Samples.noisy_stream))
                     (Some record_chunk) "llama3" "Hi" [] =
    (GenOk "Hello" (Some "llama3") (Some [1; 2]), ["Hel"; "lo"],
     [FetchGenerate "llama3" "Hi"]).
Proof.
  apply (generateWithOllama_closed_form
           (Samples.browser (Ok Samples.noisy_stream)) (Some record_chunk)
           "llama3" "Hi" [] Samples.noisy_stream); reflexivity.
Defined.

(** X2. The function never throws, and it returns a failure in three cases
    only: the request rejects, the status of the response is not OK, or a
    read of the body rejects before any completion record. *)
Theorem generateWithOllama_fails_iff
        {St} (P : Platform) (onChunk : option (string -> St -> St * list Event))
        (model prompt : string) (s : St) :
  (exists error, (generateWithOllama P onChunk model prompt s).1.1 = GenErr error) <->
  (exists msg, fetch_generate P model prompt = Throw msg) \/
  (exists resp,
      fetch_generate P model prompt = Ok resp /\
      (ok resp = false \/
       (exists msg, body_end resp = ReadFails msg) /\
       completion P (stream_lines (body resp)) = None)).
Proof.
  destruct (fetch_generate P model prompt) as [resp|msg] eqn:Hresp.
  - destruct (ok resp) eqn:Hok.
    + rewrite (generateWithOllama_ok_closed P onChunk _ _ _ resp) by done.
      cbn [fst]. split.
      * intros [error Herror]. right. exists resp. split; [done|]. right.
        destruct (completion P (stream_lines (body resp))) as [data|]; [done|].
        destruct (body_end resp) as [|msg]; [done|]. split; [by exists msg|done].
      * intros [[msg [=]]|(resp' & [= <-] & [Hfalse|[[msg Hend] Hnone]])]; [congruence|].
        rewrite Hnone, Hend. by exists msg.
    + unfold generateWithOllama. rewrite Hresp, Hok. cbn. split.
      * intros _. right. exists resp. split; [done|by left].
      * intros _. by eexists.
  - unfold generateWithOllama. rewrite Hresp. cbn. split.
    + intros _. left. by exists msg.
    + intros _. by exists msg.
Qed.

(** X3. Whatever the server answers, when the function returns a success
    its text is the concatenation of the fragments it passed to the
    callback, in the order of the calls. *)
Theorem generateWithOllama_text_is_what_was_forwarded
        (P : Platform) (model prompt text : string) (m : option string)
        (c : option (list Z)) (seen : list string) (t : list Event) :
  generateWithOllama P (Some record_chunk) model prompt [] = (GenOk text m c, seen, t) ->
  text = String.concat "" seen.
Proof.
  destruct (fetch_generate P model prompt) as [resp|msg] eqn:Hresp.
  - destruct (ok resp) eqn:Hok.
    + rewrite (generateWithOllama_ok_closed P (Some record_chunk) _ _ _ resp) by done.
      rewrite BackgroundFacts.deliver_record. cbn [fst snd app].
      intros [= Hres <- _].
      destruct (completion P (stream_lines (body resp))) as [data|].
      * by injection Hres as <- _ _.
      * destruct (body_end resp); [|done]. by injection Hres as <- _ _.
    + unfold generateWithOllama. rewrite Hresp, Hok. discriminate.
  - unfold generateWithOllama. rewrite Hresp. discriminate.
Qed.

Lemma generateWithOllama_text_is_what_was_forwarded_witness :
  "Hello" = String.concat "" ["Hel"; "lo"].
Proof.
  apply (generateWithOllama_text_is_what_was_forwarded
           (Samples.browser (Ok Samples.cut_stream)) "llama3" "Hi" "Hello"
           None None ["Hel"; "lo"] [FetchGenerate "llama3" "Hi"]).
  reflexivity.
Defined.

End GenerateFacts.

(** ** Tab extraction on every platform *)

Module ExtractionMore.

Import Background Observe.

(** X4. Neither extraction function rejects.  The result is a placeholder
    whose [contentLength] is 0, or it relays the data of a successful
    answer of the content script of the tab; [extractTabContent] then adds
    the title and the URL of the tab. *)
Theorem extraction_never_rejects (P : Platform) :
  (forall tabId,
      exists r,
        result_of (extractTabContent P tabId) = Ok r /\
        ((contentLength r = 0 /\ tabTitle r = None /\ tabUrl r = None) \/
         exists tab n data,
           tabs_get P tabId = Ok (Some tab) /\
           tabs_sendMessage P tabId n = Ok (Some (ContentScript.ExtractOk data)) /\
           relayed data r /\
           tabTitle r = tab_title tab /\ tabUrl r = tab_url tab)) /\
  (exists r,
      result_of (extractActiveTabContent P) = Ok r /\
      (contentLength r = 0 \/
       exists tab others n data,
         tabs_query_active P = Ok (tab :: others) /\
         tabs_sendMessage P (tab_id tab) n = Ok (Some (ContentScript.ExtractOk data)) /\
         relayed data r)).
Proof.
  split.
  - intros tabId. unfold extractTabContent, extract_from_tab, request_content,
      result_of, attempt, call, try_catch, bind, ret. cbn.
    destruct (tabs_get P tabId) as [[tab|]|msg] eqn:Htab; cbn;
      [|eexists; split; [reflexivity|by left]..].
    destruct (cannot_access _); cbn; [eexists; split; [reflexivity|by left]|].
    destruct (tabs_sendMessage P tabId 0) as [[[data|error]|]|msg] eqn:Hfirst; cbn;
      try (eexists; split; [reflexivity|by left]).
    + eexists; split; [reflexivity|]. right. by exists tab, 0%nat, data.
    + destruct (scripting_executeScript P tabId) as [[]|msg']; cbn;
        [|eexists; split; [reflexivity|by left]].
      destruct (tabs_sendMessage P tabId 1) as [[[data|error]|]|msg'] eqn:Hsecond; cbn;
        try (eexists; split; [reflexivity|by left]).
      eexists; split; [reflexivity|]. right. by exists tab, 1%nat, data.
  - unfold extractActiveTabContent, request_content,
      result_of, call, try_catch, bind, ret. cbn.
    destruct (tabs_query_active P) as [[|tab others]|msg] eqn:Htabs; cbn;
      [eexists; split; [reflexivity|by left]| |eexists; split; [reflexivity|by left]].
    destruct (tab_id tab =? 0); cbn; [eexists; split; [reflexivity|by left]|].
    destruct (cannot_access _); cbn; [eexists; split; [reflexivity|by left]|].
    destruct (tabs_sendMessage P (tab_id tab) 0) as [[[data|error]|]|msg] eqn:Hfirst; cbn;
      try (eexists; split; [reflexivity|by left]).
    + eexists; split; [reflexivity|]. right. by exists tab, others, 0%nat, data.
    + destruct (scripting_executeScript P (tab_id tab)) as [[]|msg']; cbn;
        [|eexists; split; [reflexivity|by left]].
      destruct (tabs_sendMessage P (tab_id tab) 1) as [[[data|error]|]|msg'] eqn:Hsecond;
        cbn; try (eexists; split; [reflexivity|by left]).
      eexists; split; [reflexivity|]. right. by exists tab, others, 1%nat, data.
Qed.

(** X5. [extractTabContent] looks the tab up once, then sends at most two
    messages to its content script and injects the script at most once:
    the injection and the second message happen only after the first
    message was rejected. *)
Theorem extractTabContent_retries_once (P : Platform) (tabId : Z) :
  let t := trace_of (extractTabContent P tabId) in
  t = [TabsGet tabId] \/
  (t = [TabsGet tabId; TabsSendMessage tabId] /\
   exists response, tabs_sendMessage P tabId 0 = Ok response) \/
  ((t = [TabsGet tabId; TabsSendMessage tabId; ExecuteScript tabId] \/
    t = [TabsGet tabId; TabsSendMessage tabId; ExecuteScript tabId;
         TabsSendMessage tabId]) /\
   exists msg, tabs_sendMessage P tabId 0 = Throw msg).
Proof.
  unfold extractTabContent, extract_from_tab, request_content,
    trace_of, attempt, call, try_catch, bind, ret. cbn.
  destruct (tabs_get P tabId) as [[tab|]|msg]; cbn; [|by left..].
  destruct (cannot_access _); cbn; [by left|].
  destruct (tabs_sendMessage P tabId 0) as [response|msg] eqn:Hfirst; cbn.
  - right; left. split; [|by exists response].
    by destruct response as [[data|error]|].
  - right; right. split; [|by exists msg].
    destruct (scripting_executeScript P tabId) as [[]|msg']; cbn; [|by left].
    right. by destruct (tabs_sendMessage P tabId 1) as [[[data|error]|]|msg'].
Qed.

Lemma extractPageContent_bounded (p : ContentScript.Page) (data : ContentScript.PageData) :
  ContentScript.extractPageContent p = ContentScript.ExtractOk data ->
  ContentScript.contentLength data = Js.len (ContentScript.content data) /\
  0 <= Js.len (ContentScript.content data) <= 10003.
Proof.
  unfold ContentScript.extractPageContent.
  destruct (ContentScript.page_text p) as [raw|msg]; [|discriminate].
  intros [= <-]. cbn [ContentScript.contentLength ContentScript.content].
  split; [reflexivity|]. unfold ContentScript.limit_content.
  destruct (Z.ltb_spec ContentScript.MAX_CONTENT
                       (Js.len (ContentScript.clean_whitespace raw))) as [Hlong|Hshort].
  - rewrite JsFacts.len_app, JsFacts.len_substring_to
      by (unfold ContentScript.MAX_CONTENT in *; lia).
    unfold ContentScript.MAX_CONTENT, ContentScript.ELLIPSIS, Js.len. cbn. lia.
  - unfold ContentScript.MAX_CONTENT, Js.len in *. lia.
Qed.

(** X6. When the content scripts of the platform are the content script of
    the repository, the content both extraction functions return is never
    longer than 10,003 characters, and their [contentLength] is within 0
    and 10,003. *)
Theorem extracted_content_is_bounded (P : Platform) :
  content_scripts_genuine P ->
  (forall tabId,
      0 <= contentLength (extracted P tabId) <= 10003 /\
      Js.len (content (extracted P tabId)) <= 10003) /\
  0 <= contentLength (active_content P) <= 10003 /\
  Js.len (content (active_content P)) <= 10003.
Proof.
  intros Hgenuine.
  assert (forall tabId n data,
             tabs_sendMessage P tabId n = Ok (Some (ContentScript.ExtractOk data)) ->
             0 <= ContentScript.contentLength data <= 10003 /\
             Js.len (ContentScript.content data) <= 10003) as Hrelay.
  { intros tabId n data Hanswer.
    destruct (Hgenuine _ _ _ Hanswer) as [page Hpage].
    symmetry in Hpage. apply extractPageContent_bounded in Hpage as [Hlen Hbound].
    rewrite Hlen. lia. }
  split; [intros tabId|].
  - unfold extracted, result_of, extractTabContent, extract_from_tab, request_content,
      attempt, call, try_catch, bind, ret. cbn.
    destruct (tabs_get P tabId) as [[tab|]|msg]; cbn; [|by vm_compute..].
    destruct (cannot_access _); cbn; [by vm_compute|].
    destruct (tabs_sendMessage P tabId 0) as [[[data|error]|]|msg] eqn:Hfirst; cbn;
      try by vm_compute.
    + by apply (Hrelay tabId 0%nat data).
    + destruct (scripting_executeScript P tabId) as [[]|msg']; cbn; [|by vm_compute].
      destruct (tabs_sendMessage P tabId 1) as [[[data|error]|]|msg'] eqn:Hsecond; cbn;
        try by vm_compute.
      by apply (Hrelay tabId 1%nat data).
  - unfold active_content, result_of, extractActiveTabContent, request_content,
      call, try_catch, bind, ret. cbn.
    destruct (tabs_query_active P) as [[|tab others]|msg]; cbn; try by vm_compute.
    destruct (tab_id tab =? 0); cbn; [by vm_compute|].
    destruct (cannot_access _); cbn; [by vm_compute|].
    destruct (tabs_sendMessage P (tab_id tab) 0) as [[[data|error]|]|msg] eqn:Hfirst; cbn;
      try by vm_compute.
    + by apply (Hrelay (tab_id tab) 0%nat data).
    + destruct (scripting_executeScript P (tab_id tab)) as [[]|msg']; cbn;
        [|by vm_compute].
      destruct (tabs_sendMessage P (tab_id tab) 1) as [[[data|error]|]|msg'] eqn:Hsecond;
        cbn; try by vm_compute.
      by apply (Hrelay (tab_id tab) 1%nat data).
Qed.

Lemma samples_content_scripts_genuine : content_scripts_genuine Samples.platform.
Proof.
  intros tabId n response. cbn. destruct n as [|n]; [discriminate|].
  destruct (tabId =? 7); [|discriminate].
  intros [= <-]. by exists Samples.docs_page.
Qed.

Lemma extracted_content_is_bounded_witness :
  0 <= contentLength (extracted Samples.platform 7) <= 10003 /\
  Js.len (content (extracted Samples.platform 7)) <= 10003.
Proof.
  apply (proj1 (extracted_content_is_bounded Samples.platform
                  samples_content_scripts_genuine) 7).
Defined.

End ExtractionMore.

(** ** handleQuery and handleStreamingQuery on every request *)

Module HandlerFacts.

Import Background Observe.

Ltac unfold_eff :=
  unfold result_of, trace_of, attempt, call, try_catch, bind, ret, throw.

Lemma deliver_no_callback {St} (forwarded : list string) (s : St) :
  deliver None forwarded s = (s, []).
Proof.
  induction forwarded as [|f forwarded IH]; [reflexivity|].
  cbn [deliver call_onChunk]. by rewrite IH.
Qed.

Lemma deliver_forward_chunk (messageId : option string) (forwarded : list string)
      (fullText : string) :
  deliver (Some (forward_chunk messageId)) forwarded fullText =
  (fullText +:+ String.concat "" forwarded,
   chunk_messages messageId forwarded fullText).
Proof.
  revert fullText. induction forwarded as [|f forwarded IH]; intros fullText.
  - cbn. by rewrite JsFacts.app_empty_r.
  - cbn [deliver call_onChunk chunk_messages]. unfold forward_chunk at 1.
    rewrite IH, BackgroundFacts.concat_cons. by rewrite JsFacts.app_assoc.
Qed.

(** What a run of the generator forwards, records and returns. *)
Lemma generateWithOllama_run {St} (P : Platform)
      (onChunk : option (string -> St -> St * list Event))
      (model prompt : string) (s : St) :
  exists forwarded,
    (generateWithOllama P onChunk model prompt s).1.2 = (deliver onChunk forwarded s).1 /\
    (generateWithOllama P onChunk model prompt s).2 =
      FetchGenerate model prompt :: (deliver onChunk forwarded s).2 /\
    forall text m c,
      (generateWithOllama P onChunk model prompt s).1.1 = GenOk text m c ->
      text = String.concat "" forwarded.
Proof.
  destruct (fetch_generate P model prompt) as [resp|msg] eqn:Hresp.
  - destruct (ok resp) eqn:Hok.
    + exists (fragments P (consumed P (stream_lines (body resp)))).
      rewrite (GenerateFacts.generateWithOllama_ok_closed P onChunk _ _ _ resp) by done.
      cbn [fst snd]. split; [done|]. split; [done|]. intros text m c.
      destruct (completion P (stream_lines (body resp))) as [data|]; [by intros [= <- _ _]|].
      destruct (body_end resp); [by intros [= <- _ _]|done].
    + exists []. unfold generateWithOllama. rewrite Hresp, Hok. by cbn.
  - exists []. unfold generateWithOllama. rewrite Hresp. by cbn.
Qed.

Lemma generate_trace (P : Platform) (model prompt : string) :
  generate P model prompt =
  (Ok (generateWithOllama P None model prompt tt).1.1, [FetchGenerate model prompt]).
Proof.
  unfold generate.
  destruct (generateWithOllama_run P None model prompt tt) as (forwarded & _ & Htrace & _).
  rewrite deliver_no_callback in Htrace.
  destruct (generateWithOllama P None model prompt tt) as [[g u] t]. cbn in *. by subst t.
Qed.

Lemma extractActiveTabContent_never_throws (P : Platform) :
  result_of (extractActiveTabContent P) = Ok (active_content P).
Proof.
  unfold active_content. destruct (result_of (extractActiveTabContent P)) eqn:Hres; [done|].
  exfalso. revert Hres. ExtractionFacts.unfold_extract.
  ExtractionFacts.case_platform; discriminate.
Qed.

Lemma extractTabContent_trace (P : Platform) (tabId : Z) :
  tabs_looked_up (trace_of (extractTabContent P tabId)) = [tabId] /\
  existsb is_active_query (trace_of (extractTabContent P tabId)) = false.
Proof. ExtractionFacts.unfold_extract. ExtractionFacts.case_platform; by split. Qed.

Lemma extractActiveTabContent_trace (P : Platform) :
  existsb is_notification (trace_of (extractActiveTabContent P)) = false.
Proof. ExtractionFacts.unfold_extract. ExtractionFacts.case_platform; reflexivity. Qed.

(** [Promise.all] over the mentioned tabs: the results and the trace. *)
Lemma promise_all_mentions (P : Platform) (mentioned : list MentionedTab) :
  exists t,
    promise_all (map (fun tab => extractTabContent P (mention_id tab)) mentioned) =
      (Ok (map (fun tab => extracted P (mention_id tab)) mentioned), t) /\
    prompts_sent t = [] /\
    tabs_looked_up t = map mention_id mentioned /\
    existsb is_active_query t = false.
Proof.
  induction mentioned as [|tab mentioned (t' & IH & Hquiet' & Hlooked' & Hactive')].
  - by exists [].
  - cbn [map promise_all]. rewrite IH.
    pose proof (ExtractionFacts.extractTabContent_never_throws P (mention_id tab)) as Hres.
    pose proof (ExtractionFacts.extractTabContent_sends_no_prompt P (mention_id tab))
      as Hquiet.
    destruct (extractTabContent_trace P (mention_id tab)) as [Hlooked Hactive].
    unfold result_of, trace_of in *.
    destruct (extractTabContent P (mention_id tab)) as [r t]. cbn [fst snd] in *. subst r.
    eexists. split; [reflexivity|].
    split; [by rewrite QueryFacts.prompts_sent_app, Hquiet, Hquiet'|].
    split; [unfold tabs_looked_up in *; by rewrite omap_app, Hlooked, Hlooked'|].
    by rewrite existsb_app, Hactive, Hactive'.
Qed.

(** The prompt the mention branch builds, and the trace of building it. *)
Lemma query_prompt_mentions (P : Platform) (data : QueryData) :
  mentionedTabs data <> [] ->
  exists t,
    query_prompt P data =
      (Ok (tabs_prompt (tab_blocks P (mentionedTabs data)) (query data)), t) /\
    prompts_sent t = [] /\
    tabs_looked_up t = map mention_id (mentionedTabs data) /\
    existsb is_active_query t = false.
Proof.
  intros Hsome. unfold query_prompt.
  replace (0 <? Z.of_nat (length (mentionedTabs data))) with true
    by (symmetry; apply Z.ltb_lt; destruct (mentionedTabs data); [done|cbn; lia]).
  destruct (promise_all_mentions P (mentionedTabs data))
    as (t & Hall & Hquiet & Hlooked & Hactive).
  pose proof (QueryFacts.push_context_parts_blocks
                (fun tab => extracted P (mention_id tab)) [] (mentionedTabs data) [])
    as Hpush.
  cbn [length app] in Hpush.
  unfold bind, ret. rewrite Hall, Hpush. fold (tab_blocks P (mentionedTabs data)).
  exists (t ++ []). rewrite (right_id_L [] (++)). done.
Qed.

(** The page branch: the fallback note is never used, as the extraction
    from the active tab never throws. *)
Lemma page_context_prompt_result (P : Platform) (query : string) :
  page_context_prompt P query =
  (Ok (page_prompt (active_content P) query), trace_of (extractActiveTabContent P)).
Proof.
  unfold page_context_prompt. pose proof (extractActiveTabContent_never_throws P) as Hres.
  unfold result_of in Hres. unfold_eff.
  destruct (extractActiveTabContent P) as [r t]. cbn [fst snd] in *. subst r.
  by rewrite (right_id_L [] (++)).
Qed.

(** [handleQuery] once the prompt is built. *)
Lemma handleQuery_with_prompt (P : Platform) (data : QueryData)
      (prompt : string) (t : list Event) :
  Js.truthy (model data) = true ->
  query_prompt P data = (Ok prompt, t) ->
  handleQuery P data =
  (Ok (query_result (generateWithOllama P None (model data) prompt tt).1.1),
   t ++ [FetchGenerate (model data) prompt]).
Proof.
  intros Hmodel Hprompt. unfold handleQuery. rewrite Hmodel, Hprompt. cbn [negb].
  unfold_eff. rewrite generate_trace.
  destruct ((generateWithOllama P None (model data) prompt tt).1.1) as [text m c|error];
    cbn [query_result]; by rewrite ?(right_id_L [] (++)).
Qed.

(** Without mentions, the prompt is that of the page branch or the query. *)
Lemma query_prompt_no_mentions (P : Platform) (data : QueryData) :
  mentionedTabs data = [] ->
  query_prompt P data =
  if includePageContent data
  then (Ok (page_prompt (active_content P) (query data)),
        trace_of (extractActiveTabContent P))
  else (Ok (query data), []).
Proof.
  intros Hnone. unfold query_prompt. rewrite Hnone. cbn [length Z.of_nat Z.ltb Z.compare].
  destruct (includePageContent data); [apply page_context_prompt_result|done].
Qed.

(** X7. [handleQuery] never rejects.  Without a model it returns the
    failure [No model selected] before any call to the platform.  With a
    model it sends exactly one generation request, and its result is the
    result of that generation: the same text and model on success, the
    same error message on failure. *)
Theorem handleQuery_outcome (P : Platform) (data : QueryData) :
  (Js.truthy (model data) = false ->
   handleQuery P data = (Ok (QueryErr "No model selected"), [])) /\
  (Js.truthy (model data) = true ->
   exists prompt,
     prompts_sent (trace_of (handleQuery P data)) = [prompt] /\
     result_of (handleQuery P data) =
       Ok (query_result (generateWithOllama P None (model data) prompt tt).1.1)).
Proof.
  split; intros Hmodel.
  - unfold handleQuery. by rewrite Hmodel.
  - assert (exists prompt t, query_prompt P data = (Ok prompt, t) /\ prompts_sent t = [])
      as (prompt & t & Hprompt & Hquiet).
    { destruct (mentionedTabs data) as [|tab rest] eqn:Hmentions.
      - rewrite query_prompt_no_mentions by done.
        destruct (includePageContent data); do 2 eexists; (split; [reflexivity|]); [|done].
        apply ExtractionFacts.extractActiveTabContent_sends_no_prompt.
      - destruct (query_prompt_mentions P data) as (t & Hprompt & Hquiet & _);
          [by rewrite Hmentions|].
        by do 2 eexists. }
    exists prompt. rewrite (handleQuery_with_prompt P data prompt t) by done.
    split; [|done]. unfold trace_of. cbn [snd].
    by rewrite QueryFacts.prompts_sent_app, Hquiet.
Qed.

Lemma handleQuery_outcome_witness :
  handleQuery Samples.platform
    {| query := "Hi"; model := ""; includePageContent := true;
       mentionedTabs := []; messageId := None |}
    = (Ok (QueryErr "No model selected"), []) /\
  exists prompt,
    prompts_sent (trace_of (handleQuery Samples.platform Samples.docs_query)) = [prompt] /\
    result_of (handleQuery Samples.platform Samples.docs_query) =
      Ok (query_result (generateWithOllama Samples.platform None "llama3" prompt tt).1.1).
Proof.
  split.
  - by apply (proj1 (handleQuery_outcome Samples.platform _)).
  - by apply (proj2 (handleQuery_outcome Samples.platform Samples.docs_query)).
Defined.

(** X8. Mentions come first: when the request mentions tabs, each mentioned
    tab is looked up once, in the order of the mentions, and the active tab
    is never queried, whether [includePageContent] is set or not. *)
Theorem handleQuery_mentions_come_first (P : Platform) (data : QueryData) :
  mentionedTabs data <> [] ->
  Js.truthy (model data) = true ->
  tabs_looked_up (trace_of (handleQuery P data)) = map mention_id (mentionedTabs data) /\
  existsb is_active_query (trace_of (handleQuery P data)) = false.
Proof.
  intros Hsome Hmodel.
  destruct (query_prompt_mentions P data Hsome) as (t & Hprompt & _ & Hlooked & Hactive).
  rewrite (handleQuery_with_prompt P data _ t) by done.
  unfold trace_of. cbn [snd]. split.
  - unfold tabs_looked_up in *. rewrite omap_app, Hlooked. apply app_nil_r.
  - by rewrite existsb_app, Hactive.
Qed.

Lemma handleQuery_mentions_come_first_witness :
  tabs_looked_up
    (trace_of (handleQuery Samples.platform
       {| query := "Summarize"; model := "llama3"; includePageContent := true;
          mentionedTabs := mentionedTabs Samples.docs_query; messageId := None |}))
    = [7] /\
  existsb is_active_query
    (trace_of (handleQuery Samples.platform
       {| query := "Summarize"; model := "llama3"; includePageContent := true;
          mentionedTabs := mentionedTabs Samples.docs_query; messageId := None |}))
    = false.
Proof.
  by apply (handleQuery_mentions_come_first Samples.platform
              {| query := "Summarize"; model := "llama3"; includePageContent := true;
                 mentionedTabs := mentionedTabs Samples.docs_query;
                 messageId := None |}).
Defined.

(** X9. Without mentions, the prompt is the page prompt built from what
    [extractActiveTabContent] returned when [includePageContent] is set,
    and the bare query otherwise; in the second case no tab is touched.
    The note that page content is unavailable is never sent: a failed
    extraction arrives as a placeholder inside the page prompt. *)
Theorem handleQuery_without_mentions (P : Platform) (data : QueryData) :
  mentionedTabs data = [] ->
  Js.truthy (model data) = true ->
  (includePageContent data = true ->
   trace_of (handleQuery P data) =
     trace_of (extractActiveTabContent P)
       ++ [FetchGenerate (model data) (page_prompt (active_content P) (query data))]) /\
  (includePageContent data = false ->
   trace_of (handleQuery P data) = [FetchGenerate (model data) (query data)]).
Proof.
  intros Hnone Hmodel.
  pose proof (query_prompt_no_mentions P data Hnone) as Hprompt.
  split; intros Hpage; rewrite Hpage in Hprompt;
    by rewrite (handleQuery_with_prompt P data _ _ Hmodel Hprompt).
Qed.

Lemma handleQuery_without_mentions_witness :
  trace_of (handleQuery Samples.platform
              {| query := "Hi"; model := "llama3"; includePageContent := true;
                 mentionedTabs := []; messageId := None |})
  = [TabsQueryActive;
     FetchGenerate "llama3"
       (page_prompt (placeholder "Current Tab" "" CANNOT_ACCESS) "Hi")] /\
  trace_of (handleQuery Samples.platform
              {| query := "Hi"; model := "llama3"; includePageContent := false;
                 mentionedTabs := []; messageId := None |})
  = [FetchGenerate "llama3" "Hi"].
Proof.
  split.
  - by apply (proj1 (handleQuery_without_mentions Samples.platform
                       {| query := "Hi"; model := "llama3"; includePageContent := true;
                          mentionedTabs := []; messageId := None |} eq_refl eq_refl)).
  - by apply (proj2 (handleQuery_without_mentions Samples.platform
                       {| query := "Hi"; model := "llama3"; includePageContent := false;
                          mentionedTabs := []; messageId := None |} eq_refl eq_refl)).
Defined.

Lemma streaming_prompt_result (P : Platform) (data : QueryData) :
  exists prompt t,
    streaming_prompt P data = (Ok prompt, t) /\
    existsb is_notification t = false.
Proof.
  unfold streaming_prompt. destruct (includePageContent data).
  - rewrite page_context_prompt_result. do 2 eexists. split; [reflexivity|].
    apply extractActiveTabContent_trace.
  - by do 2 eexists.
Qed.

(** [handleStreamingQuery] once the prompt is built. *)
Lemma handleStreamingQuery_with_prompt (P : Platform) (data : QueryData)
      (prompt : string) (t : list Event) :
  Js.truthy (model data) = true ->
  streaming_prompt P data = (Ok prompt, t) ->
  exists forwarded,
    handleStreamingQuery P data =
    match (generateWithOllama P (Some (forward_chunk (messageId data)))
                              (model data) prompt "").1.1 with
    | GenOk text m _ =>
        (Ok (QueryOk text m),
         t ++ FetchGenerate (model data) prompt
           :: chunk_messages (messageId data) forwarded ""
           ++ [RuntimeSendMessage (streamComplete (messageId data) text m)])
    | GenErr _ =>
        (Throw "messageId is not defined",
         t ++ FetchGenerate (model data) prompt
           :: chunk_messages (messageId data) forwarded "")
    end /\
    forall text m c,
      (generateWithOllama P (Some (forward_chunk (messageId data)))
                          (model data) prompt "").1.1 = GenOk text m c ->
      text = String.concat "" forwarded.
Proof.
  intros Hmodel Hprompt.
  destruct (generateWithOllama_run P (Some (forward_chunk (messageId data)))
                                   (model data) prompt "")
    as (forwarded & _ & Htrace & Htext).
  exists forwarded. split; [|exact Htext].
  rewrite deliver_forward_chunk in Htrace. cbn [snd] in Htrace.
  unfold handleStreamingQuery. rewrite Hmodel, Hprompt. cbn [negb]. unfold_eff.
  destruct (generateWithOllama P (Some (forward_chunk (messageId data)))
                               (model data) prompt "") as [[g u] tg].
  cbn [fst snd] in *. subst tg.
  destruct g as [text m c|error]; cbn [fst snd].
  - reflexivity.
  - by rewrite !(right_id_L [] (++)).
Qed.

Lemma chunk_messages_no_error (messageId : option string) (forwarded : list string)
      (fullText : string) :
  existsb is_stream_error (chunk_messages messageId forwarded fullText) = false.
Proof.
  revert fullText. induction forwarded as [|f forwarded IH]; intros fullText; [done|].
  cbn [chunk_messages existsb is_stream_error orb]. apply IH.
Qed.

Lemma notification_free_no_error (t : list Event) :
  existsb is_notification t = false -> existsb is_stream_error t = false.
Proof.
  induction t as [|e t IH]; [done|]. cbn [existsb].
  intros [He Ht]%orb_false_iff. rewrite (IH Ht).
  by destruct e as [| | | | |[]].
Qed.

(** X10. When [handleStreamingQuery] succeeds, the panel was sent one
    [streamChunk] per forwarded fragment, in order, each with the text
    forwarded so far, then one [streamComplete], the last notification,
    whose text is the concatenation of the chunks; nothing was notified
    before the generation request. *)
Theorem handleStreamingQuery_notifications (P : Platform) (data : QueryData)
        (text : string) (m : option string) :
  result_of (handleStreamingQuery P data) = Ok (QueryOk text m) ->
  exists before prompt forwarded,
    trace_of (handleStreamingQuery P data) =
      before ++ FetchGenerate (model data) prompt
        :: chunk_messages (messageId data) forwarded ""
        ++ [RuntimeSendMessage (streamComplete (messageId data) text m)] /\
    text = String.concat "" forwarded /\
    existsb is_notification before = false.
Proof.
  destruct (Js.truthy (model data)) eqn:Hmodel;
    [|unfold handleStreamingQuery; by rewrite Hmodel].
  destruct (streaming_prompt_result P data) as (prompt & t & Hprompt & Hquiet).
  destruct (handleStreamingQuery_with_prompt P data prompt t Hmodel Hprompt)
    as (forwarded & -> & Htext).
  destruct ((generateWithOllama P _ (model data) prompt "").1.1)
    as [text' m' c'|error] eqn:Hrun; [|discriminate].
  intros [= <- <-]. exists t, prompt, forwarded.
  split; [reflexivity|]. split; [by eapply Htext|done].
Qed.

Lemma handleStreamingQuery_notifications_witness :
  exists before prompt forwarded,
    trace_of (handleStreamingQuery Samples.platform Samples.docs_query) =
      before ++ FetchGenerate "llama3" prompt
        :: chunk_messages (Some "m1") forwarded ""
        ++ [RuntimeSendMessage (streamComplete (Some "m1") "Hello" (Some "llama3"))] /\
    "Hello" = String.concat "" forwarded /\
    existsb is_notification before = false.
Proof.
  by apply (handleStreamingQuery_notifications Samples.platform Samples.docs_query
              "Hello" (Some "llama3")).
Defined.

(** X11. [handleStreamingQuery] never sends a [streamError] notification
    and never returns a failure result: when there is no model or the
    generation fails, the [catch] block reads [messageId], which the [try]
    block declared, and the function rejects with the reference error. *)
Theorem handleStreamingQuery_never_reports_error (P : Platform) (data : QueryData) :
  existsb is_stream_error (trace_of (handleStreamingQuery P data)) = false /\
  ((exists text m, result_of (handleStreamingQuery P data) = Ok (QueryOk text m)) \/
   result_of (handleStreamingQuery P data) = Throw "messageId is not defined").
Proof.
  destruct (Js.truthy (model data)) eqn:Hmodel.
  - destruct (streaming_prompt_result P data) as (prompt & t & Hprompt & Hquiet).
    destruct (handleStreamingQuery_with_prompt P data prompt t Hmodel Hprompt)
      as (forwarded & -> & _).
    apply notification_free_no_error in Hquiet.
    destruct ((generateWithOllama P _ (model data) prompt "").1.1) as [text m c|error];
      unfold result_of, trace_of; cbn [fst snd].
    + split; [|left; by exists text, m].
      rewrite existsb_app, Hquiet. cbn [existsb is_stream_error orb].
      by rewrite existsb_app, chunk_messages_no_error.
    + split; [|by right].
      rewrite existsb_app, Hquiet. cbn [existsb is_stream_error orb].
      apply chunk_messages_no_error.
  - unfold handleStreamingQuery. rewrite Hmodel. split; [done|by right].
Qed.

End HandlerFacts.

(** ** The whitespace clean-up of the content script *)

Module CleanFacts.

Import TextShape.

Lemma collapse_single_spaced (in_run : bool) (s : string) :
  single_spaced in_run (Js.collapse_whitespace_from in_run s) = true.
Proof.
  revert in_run. induction s as [|c s IH]; intros in_run; [reflexivity|].
  cbn [Js.collapse_whitespace_from]. destruct (Js.is_whitespace c) eqn:Hc.
  - destruct in_run; [apply IH|]. cbn. apply IH.
  - cbn [single_spaced]. rewrite Hc. apply IH.
Qed.

Lemma single_spaced_weaken (s : string) :
  single_spaced true s = true -> single_spaced false s = true.
Proof.
  destruct s as [|c s]; [done|]. cbn [single_spaced].
  destruct (Js.is_whitespace c); [|done]. by rewrite andb_false_r.
Qed.

Lemma trimStart_single_spaced (b : bool) (s : string) :
  single_spaced b s = true -> single_spaced false (Js.trimStart s) = true.
Proof.
  revert b. induction s as [|c s IH]; intros b; [done|].
  cbn [single_spaced Js.trimStart]. destruct (Js.is_whitespace c) eqn:Hc.
  - intros [_ Hs]%andb_true_iff. by apply (IH true).
  - intros Hs. cbn [single_spaced]. by rewrite Hc.
Qed.

Lemma trimEnd_single_spaced (b : bool) (s : string) :
  single_spaced b s = true -> single_spaced b (Js.trimEnd s) = true.
Proof.
  revert b. induction s as [|c s IH]; intros b; [done|].
  cbn [single_spaced Js.trimEnd]. destruct (Js.is_whitespace c) eqn:Hc.
  - intros [Hhead Hs]%andb_true_iff. specialize (IH true Hs).
    destruct (Js.trimEnd s) as [|c' kept]; [done|].
    cbn [single_spaced]. rewrite Hc, Hhead. exact IH.
  - intros Hs. specialize (IH false Hs).
    destruct (Js.trimEnd s) as [|c' kept]; cbn [single_spaced]; by rewrite Hc.
Qed.

Lemma trimStart_head (s : string) :
  starts_with_whitespace (Js.trimStart s) = false.
Proof.
  induction s as [|c s IH]; [done|]. cbn [Js.trimStart].
  by destruct (Js.is_whitespace c) eqn:Hc.
Qed.

Lemma trimEnd_head (s : string) :
  starts_with_whitespace s = false -> starts_with_whitespace (Js.trimEnd s) = false.
Proof.
  destruct s as [|c s]; [done|]. cbn [starts_with_whitespace Js.trimEnd]. intros Hc.
  destruct (Js.trimEnd s); by rewrite ?Hc.
Qed.

Lemma trimEnd_tail (s : string) : ends_with_whitespace (Js.trimEnd s) = false.
Proof.
  induction s as [|c s IH]; [done|]. cbn [Js.trimEnd].
  destruct (Js.trimEnd s) as [|c' kept].
  - by destruct (Js.is_whitespace c) eqn:Hc; cbn; rewrite ?Hc.
  - exact IH.
Qed.

Lemma trim_collapse_shape (raw : string) :
  single_spaced false (Js.trim (Js.collapse_whitespace raw)) = true /\
  starts_with_whitespace (Js.trim (Js.collapse_whitespace raw)) = false /\
  ends_with_whitespace (Js.trim (Js.collapse_whitespace raw)) = false.
Proof.
  unfold Js.trim. split; [|split].
  - apply trimEnd_single_spaced, (trimStart_single_spaced false).
    apply collapse_single_spaced.
  - apply trimEnd_head, trimStart_head.
  - apply trimEnd_tail.
Qed.

(** X12. The cleaned text holds no whitespace but single spaces between
    words: no tab and no line break, no two spaces in a row, no space at
    either end. *)
Theorem clean_whitespace_shape (raw : string) :
  single_spaced false (ContentScript.clean_whitespace raw) = true /\
  starts_with_whitespace (ContentScript.clean_whitespace raw) = false /\
  ends_with_whitespace (ContentScript.clean_whitespace raw) = false.
Proof.
  rewrite ContentScriptFacts.clean_whitespace_collapse. apply trim_collapse_shape.
Qed.

Lemma collapse_visible (in_run : bool) (s : string) :
  visible (Js.collapse_whitespace_from in_run s) = visible s.
Proof.
  revert in_run. induction s as [|c s IH]; intros in_run; [reflexivity|].
  cbn [Js.collapse_whitespace_from visible]. destruct (Js.is_whitespace c) eqn:Hc.
  - destruct in_run; [apply IH|]. cbn. apply IH.
  - cbn [visible]. by rewrite Hc, IH.
Qed.

Lemma trimStart_visible (s : string) : visible (Js.trimStart s) = visible s.
Proof.
  induction s as [|c s IH]; [reflexivity|]. cbn [Js.trimStart visible].
  destruct (Js.is_whitespace c) eqn:Hc; [exact IH|]. cbn [visible]. by rewrite Hc.
Qed.

Lemma trimEnd_visible (s : string) : visible (Js.trimEnd s) = visible s.
Proof.
  induction s as [|c s IH]; [reflexivity|]. cbn [Js.trimEnd visible]. rewrite <- IH.
  destruct (Js.trimEnd s) as [|c' kept]; destruct (Js.is_whitespace c) eqn:Hc;
    cbn [visible]; by rewrite ?Hc.
Qed.

Lemma collapse_fixed (b : bool) (s : string) :
  single_spaced b s = true -> Js.collapse_whitespace_from b s = s.
Proof.
  revert b. induction s as [|c s IH]; intros b; [done|].
  cbn [single_spaced Js.collapse_whitespace_from]. destruct (Js.is_whitespace c).
  - intros [[Hspace Hb%negb_true_iff]%andb_true_iff Hs]%andb_true_iff. subst b.
    apply Ascii.eqb_eq in Hspace as ->. by rewrite (IH true).
  - intros Hs. by rewrite (IH false).
Qed.

Lemma trimStart_fixed (s : string) :
  starts_with_whitespace s = false -> Js.trimStart s = s.
Proof. destruct s as [|c s]; [done|]. cbn. by intros ->. Qed.

Lemma trimEnd_fixed (s : string) :
  ends_with_whitespace s = false -> Js.trimEnd s = s.
Proof.
  induction s as [|c s IH]; [done|]. cbn [ends_with_whitespace Js.trimEnd].
  destruct s as [|c' s].
  - cbn. by intros ->.
  - intros Hs. by rewrite (IH Hs).
Qed.

(** X13. The clean-up keeps every character that is not whitespace, in
    order, and cleaning a cleaned text changes nothing. *)
Theorem clean_whitespace_keeps_text (raw : string) :
  visible (ContentScript.clean_whitespace raw) = visible raw /\
  ContentScript.clean_whitespace (ContentScript.clean_whitespace raw) =
    ContentScript.clean_whitespace raw.
Proof.
  split.
  - rewrite ContentScriptFacts.clean_whitespace_collapse. unfold Js.trim.
    rewrite trimEnd_visible, trimStart_visible. apply collapse_visible.
  - rewrite (ContentScriptFacts.clean_whitespace_collapse (ContentScript.clean_whitespace raw)).
    rewrite (ContentScriptFacts.clean_whitespace_collapse raw).
    destruct (trim_collapse_shape raw) as (Hspaced & Hhead & Htail).
    unfold Js.trim at 1. unfold Js.collapse_whitespace at 1.
    by rewrite collapse_fixed, trimStart_fixed, trimEnd_fixed.
Qed.

End CleanFacts.

(** ** Models at startup and on reload *)

Module CatalogFacts.

Import SidePanel ModelCatalog.

(** The selection and the storage after [init] on a loaded panel. *)
Lemma init_on_loaded (R : Runtime) (includePage : bool)
        (persisted : gmap string string) :
  selectedModel (init R (loaded includePage persisted)) = name <$> head (fetched R) /\
  storage (init R (loaded includePage persisted)) =
    match head (fetched R) with
    | Some first => <["selectedModel" := name first]> persisted
    | None => persisted
    end.
Proof.
  unfold init.
  destruct (PanelFacts.loadTabs_keeps R (loaded includePage persisted)) as (Hst & Hnone & Hav).
  destruct (PanelFacts.loadModels_fresh R (loadTabs R (loaded includePage persisted)) Hnone Hav)
    as (Hsel & Hav' & Hst').
  rewrite Hst in Hst'. cbn [loaded storage] in Hst'.
  set (p := loadModels R _) in *. rewrite Hst'.
  destruct (fetched R) as [|first models] eqn:Hfetched; cbn [head] in *.
  - destruct (persisted !! "selectedModel") as [saved|]; [|done].
    rewrite Hav'. cbn [existsb]. by rewrite andb_false_r.
  - rewrite lookup_insert_eq. by destruct (_ && _).
Qed.

(** X14. After [init] on a freshly loaded panel, the selected model is the
    first fetched model, and no model when none was fetched, whatever name
    the storage held; when a model was fetched, its name is also what the
    storage holds afterwards. *)
Theorem init_selects_first_fetched (R : Runtime) (includePage : bool)
        (persisted : gmap string string) :
  selectedModel (init R (loaded includePage persisted)) = name <$> head (fetched R) /\
  storage (init R (loaded includePage persisted)) =
    match head (fetched R) with
    | Some first => <["selectedModel" := name first]> persisted
    | None => persisted
    end.
Proof.
  unfold init.
  destruct (PanelFacts.loadTabs_keeps R (loaded includePage persisted)) as (Hst & Hnone & Hav).
  destruct (PanelFacts.loadModels_fresh R (loadTabs R (loaded includePage persisted)) Hnone Hav)
    as (Hsel & Hav' & Hst').
  rewrite Hst in Hst'. cbn [loaded storage] in Hst'.
  set (p := loadModels R _) in *. rewrite Hst'.
  destruct (fetched R) as [|first models] eqn:Hfetched; cbn [head] in *.
  - destruct (persisted !! "selectedModel") as [saved|]; [|done].
    rewrite Hav'. cbn [existsb]. by rewrite andb_false_r.
  - rewrite lookup_insert_eq. by destruct (_ && _).
Qed.

(** X15. Once a model is selected, loading the models again changes
    neither the selection nor the storage, even when the selected model is
    not among the models fetched; the list of available models is replaced
    only by a fetched list that is not empty. *)
Theorem loadModels_keeps_selection (R : Runtime) (p : Panel) :
  model_truthy (selectedModel p) = true ->
  selectedModel (loadModels R p) = selectedModel p /\
  storage (loadModels R p) = storage p /\
  availableModels (loadModels R p) =
    match fetched R with
    | [] => availableModels p
    | models => models
    end.
Proof.
  intros Hselected. unfold loadModels, fetched.
  destruct (getModels R) as [[[|first models]|error]|msg]; try done.
  change (0 <? Z.of_nat (length (first :: models))) with true. cbn iota.
  cbn [set_availableModels selectedModel]. by rewrite Hselected.
Qed.

Lemma loadModels_keeps_selection_witness :
  selectedModel (loadModels Samples.runtime Samples.panel) = Some "llama3" /\
  storage (loadModels Samples.runtime Samples.panel) = storage Samples.panel /\
  availableModels (loadModels Samples.runtime Samples.panel) =
    [ {| name := "mistral"; size := 4 |} ].
Proof. by apply (loadModels_keeps_selection Samples.runtime Samples.panel). Defined.

(** X16. [loadModels] changes the list of available models, the selected
    model or the stored selection only when the catalogue request of the
    worker succeeded with at least one model.  When the request rejects,
    when its status is not OK, when its body is not JSON or is the JSON
    null, and when the catalogue has no model, these three are left as
    they were; the dropdown and the error banner, which the function does
    change then, are not part of the modelled state. *)
Theorem loadModels_needs_a_catalogue (outcome : Res TagsResponse)
        (tabs : Res TabsResponse) (p : Panel) :
  availableModels (loadModels (worker outcome tabs) p) <> availableModels p \/
  selectedModel (loadModels (worker outcome tabs) p) <> selectedModel p \/
  storage (loadModels (worker outcome tabs) p) <> storage p ->
  exists response first models,
    outcome = Ok response /\
    tags_ok response = true /\
    tags_json response = Ok (BodyData (Some (first :: models))) /\
    availableModels (loadModels (worker outcome tabs) p) = first :: models.
Proof.
  unfold loadModels, worker, fetchOllamaModels. cbn [getModels].
  destruct outcome as [response|msg]; [|by intros [?|[?|?]]].
  destruct (tags_ok response) eqn:Hok; [|by intros [?|[?|?]]]. cbn [negb].
  destruct (tags_json response) as [[|[[|first models]|]]|msg] eqn:Hjson;
    try by intros [?|[?|?]].
  intros _. exists response, first, models. do 3 (split; [done|]).
  change (default [] (Some (first :: models))) with (first :: models).
  change (0 <? Z.of_nat (length (first :: models))) with true. cbn iota.
  match goal with |- context [if ?b then _ else _] => by destruct b end.
Qed.

Lemma loadModels_needs_a_catalogue_witness :
  exists response first models,
    Ok {| tags_ok := true; tags_status := 200;
          tags_json := Ok (BodyData (Some [ {| name := "mistral"; size := 4 |} ])) |}
      = Ok response /\
    tags_ok response = true /\
    tags_json response = Ok (BodyData (Some (first :: models))) /\
    availableModels
      (loadModels
         (worker (Ok {| tags_ok := true; tags_status := 200;
                        tags_json :=
                          Ok (BodyData (Some [ {| name := "mistral"; size := 4 |} ])) |})
                 (Ok (TabsOk [])))
         (loaded false Samples.persisted)) = first :: models.
Proof.
  apply (loadModels_needs_a_catalogue
           (Ok {| tags_ok := true; tags_status := 200;
                  tags_json :=
                    Ok (BodyData (Some [ {| name := "mistral"; size := 4 |} ])) |})
           (Ok (TabsOk [])) (loaded false Samples.persisted)).
  left. discriminate.
Defined.

(** X28. For one outcome of the catalogue request, the connection check
    says connected exactly when [fetchOllamaModels] succeeds or fails
    while it reads the body: the body is not JSON, or it is the JSON null,
    of which [models] cannot be read.  A catalogue that was fetched always
    means connected. *)
Theorem connected_iff_catalogue_or_bad_body (outcome : Res TagsResponse) :
  checkOllamaConnection outcome = true <->
  (exists models, fetchOllamaModels outcome = ModelsOk models) \/
  (exists response,
      outcome = Ok response /\ tags_ok response = true /\
      ((exists msg, tags_json response = Throw msg /\
                    fetchOllamaModels outcome = ModelsErr msg) \/
       (tags_json response = Ok BodyNull /\
        fetchOllamaModels outcome = ModelsErr NULL_MODELS))).
Proof.
  unfold checkOllamaConnection, fetchOllamaModels.
  destruct outcome as [response|msg].
  - destruct (tags_ok response) eqn:Hok; cbn [negb].
    + split; [intros _|done].
      destruct (tags_json response) as [[|models]|msg] eqn:Hjson.
      * right. exists response. do 2 (split; [done|]). by right.
      * left. by eexists.
      * right. exists response. do 2 (split; [done|]). left. by exists msg.
    + split; [done|]. intros [[models [=]]|(response' & [= <-] & Hok' & _)].
      congruence.
  - split; [done|]. by intros [[models [=]]|(response & [=] & _)].
Qed.

(** X29. The life of a choice made in the dropdown.  A name that is not
    empty is stored, and it stays selected and stored when the models are
    loaded again in the same session.  After a reload of the panel over
    the storage it left, it is selected again only if it is the name of
    the first model fetched. *)
Theorem model_choice_lifetime (R : Runtime) (value : string) (p : Panel)
        (includePage : bool) :
  Js.truthy value = true ->
  let chosen := handleModelChange value p in
  storage chosen !! "selectedModel" = Some value /\
  selectedModel (loadModels R chosen) = Some value /\
  storage (loadModels R chosen) !! "selectedModel" = Some value /\
  (selectedModel (init R (loaded includePage (storage chosen))) = Some value <->
   name <$> head (fetched R) = Some value).
Proof.
  intros Hvalue chosen.
  assert (storage chosen !! "selectedModel" = Some value) as Hstored.
  { subst chosen. unfold handleModelChange. cbn. by rewrite lookup_insert_eq. }
  assert (loadModels R chosen = chosen \/
          exists models, loadModels R chosen = set_availableModels models chosen) as Hload.
  { unfold loadModels.
    destruct (getModels R) as [[[|first models]|error]|msg]; try by left.
    change (0 <? Z.of_nat (length (first :: models))) with true. cbn iota.
    right. exists (first :: models).
    subst chosen. unfold handleModelChange. cbn. by rewrite Hvalue. }
  split; [done|].
  split; [|split].
  - by destruct Hload as [->|[models ->]].
  - by destruct Hload as [->|[models ->]].
  - destruct (init_on_loaded R includePage (storage chosen)) as [-> _]. done.
Qed.

Lemma model_choice_lifetime_witness :
  storage (handleModelChange "llama2" Samples.panel) !! "selectedModel" = Some "llama2" /\
  selectedModel (loadModels Samples.runtime (handleModelChange "llama2" Samples.panel))
    = Some "llama2" /\
  storage (loadModels Samples.runtime (handleModelChange "llama2" Samples.panel))
    !! "selectedModel" = Some "llama2" /\
  (selectedModel
     (init Samples.runtime
        (loaded false (storage (handleModelChange "llama2" Samples.panel))))
     = Some "llama2" <->
   name <$> head (fetched Samples.runtime) = Some "llama2").
Proof. by apply (model_choice_lifetime Samples.runtime "llama2" Samples.panel false). Defined.

End CatalogFacts.

(** ** The mention autocomplete *)

Module AutocompleteFacts.

Import Autocomplete Markers.

Lemma substring_app_l (a b : string) :
  String.substring 0 (String.length a) (a +:+ b) = a.
Proof.
  induction a as [|c a IH]; [by destruct b|].
  rewrite JsFacts.app_cons. cbn. by rewrite IH.
Qed.

Lemma substring_to_app (a b : string) : Js.substring_to (Js.len a) (a +:+ b) = a.
Proof. unfold Js.substring_to, Js.len. rewrite Nat2Z.id. apply substring_app_l. Qed.

Lemma substring_from_app (a b : string) : substring_from (Js.len a) (a +:+ b) = b.
Proof.
  unfold substring_from, Js.len. rewrite Nat2Z.id, JsFacts.length_app.
  replace (String.length a + String.length b - String.length a)%nat
    with (String.length b) by lia.
  by rewrite JsFacts.substring_skip, JsFacts.substring_all.
Qed.

Lemma list_ascii_app (a b : string) :
  String.list_ascii_of_string (a +:+ b) =
  String.list_ascii_of_string a ++ String.list_ascii_of_string b.
Proof.
  induction a as [|c a IH]; [reflexivity|].
  rewrite JsFacts.app_cons. cbn. by rewrite IH.
Qed.

Lemma list_ascii_length (a : string) :
  length (String.list_ascii_of_string a) = String.length a.
Proof. induction a as [|c a IH]; [reflexivity|]. cbn. by rewrite IH. Qed.

(** The scan steps over the characters of a term, the last first. *)
Lemma find_at_term (term : string) (before : list ascii) (i : Z) :
  mention_free term = true ->
  find_at (rev (String.list_ascii_of_string term) ++ before) i =
  find_at before (i - Js.len term).
Proof.
  revert before i. induction term as [|c term IH]; intros before i.
  - intros _. cbn. f_equal. unfold Js.len. cbn. lia.
  - cbn [mention_free String.list_ascii_of_string rev].
    intros [Hc Hterm]%andb_true_iff. rewrite <- (assoc_L (++)), IH by done.
    cbn [app find_at].
    apply negb_true_iff in Hc.
    apply orb_false_iff in Hc as [[Hat Hspace]%orb_false_iff Hlf].
    rewrite Hat, Hspace, Hlf. cbn [orb]. f_equal. unfold Js.len. cbn [String.length]. lia.
Qed.

Lemma chars_before_app (a b : string) :
  chars_before (a +:+ b) (Js.len a) = rev (String.list_ascii_of_string a).
Proof. unfold chars_before. by rewrite substring_to_app. Qed.

Lemma len_cons (c : ascii) (s : string) : Js.len (String c s) = 1 + Js.len s.
Proof. unfold Js.len. cbn [String.length]. lia. Qed.

Lemma len_nonneg (s : string) : 0 <= Js.len s.
Proof. unfold Js.len. lia. Qed.

(** The scan from the cursor placed right after [marker] and [term]. *)
Lemma at_position_after (before term rest : string) (marker : ascii) :
  mention_free term = true ->
  at_position (before +:+ String marker (term +:+ rest))
              (Js.len before + 1 + Js.len term) =
  find_at (marker :: rev (String.list_ascii_of_string before)) (Js.len before).
Proof.
  intros Hterm. unfold at_position.
  replace (before +:+ String marker (term +:+ rest))
    with ((before +:+ String marker term) +:+ rest)
    by (by rewrite JsFacts.app_assoc, JsFacts.app_cons).
  replace (Js.len before + 1 + Js.len term) with (Js.len (before +:+ String marker term))
    by (rewrite JsFacts.len_app, len_cons; lia).
  rewrite chars_before_app, list_ascii_app. cbn [String.list_ascii_of_string].
  rewrite rev_app_distr. cbn [rev]. rewrite <- (assoc_L (++)). cbn [app].
  rewrite find_at_term by done. f_equal.
  rewrite !length_app, length_rev, list_ascii_length. cbn [length].
  rewrite length_rev, list_ascii_length. unfold Js.len. lia.
Qed.

(** The scan finds the at sign a term was typed after. *)
Lemma at_position_typed (before term rest : string) :
  mention_free term = true ->
  at_position (before +:+ "@" +:+ term +:+ rest) (Js.len before + 1 + Js.len term) =
  Js.len before.
Proof.
  intros Hterm. change ("@" +:+ term +:+ rest) with (String "@" (term +:+ rest)).
  by rewrite at_position_after.
Qed.

(** The search term is what was typed after the at sign, in lower case. *)
Lemma search_term_typed (before term rest : string) :
  search_term (before +:+ "@" +:+ term +:+ rest) (Js.len before)
              (Js.len before + 1 + Js.len term) = toLowerCase term.
Proof.
  unfold search_term, substring_between. f_equal.
  replace (before +:+ "@" +:+ term +:+ rest)
    with ((before +:+ "@") +:+ term +:+ rest) by (by rewrite JsFacts.app_assoc).
  replace (Z.to_nat (Js.len before + 1)) with (String.length (before +:+ "@"))
    by (rewrite JsFacts.length_app; unfold Js.len; cbn; lia).
  replace (Z.to_nat (Js.len before + 1 + Js.len term - (Js.len before + 1)))
    with (String.length term) by (unfold Js.len; lia).
  rewrite JsFacts.substring_skip. apply substring_app_l.
Qed.

(** X17. A mention being typed is found where it starts: with the cursor
    right after an at sign and a term that has no at sign, space or line
    feed, the mention starts at that at sign and the search term is the
    term in lower case.  A space or a line feed in place of the at sign
    means no mention. *)
Theorem detect_typed_mention (before term rest : string) :
  mention_free term = true ->
  let cursorPos := Js.len before + 1 + Js.len term in
  at_position (before +:+ "@" +:+ term +:+ rest) cursorPos = Js.len before /\
  search_term (before +:+ "@" +:+ term +:+ rest) (Js.len before) cursorPos =
    toLowerCase term /\
  at_position (before +:+ " " +:+ term +:+ rest) cursorPos = -1 /\
  at_position (before +:+ Js.nl +:+ term +:+ rest) cursorPos = -1.
Proof.
  intros Hterm cursorPos. subst cursorPos. split; [|split; [|split]].
  - by apply at_position_typed.
  - apply search_term_typed.
  - change (" " +:+ term +:+ rest) with (String " " (term +:+ rest)).
    by rewrite at_position_after.
  - change (Js.nl +:+ term +:+ rest) with (String Js.lf (term +:+ rest)).
    by rewrite at_position_after.
Qed.

Lemma detect_typed_mention_witness :
  at_position ("Sum " +:+ "@" +:+ "DO" +:+ " more") (Js.len "Sum " + 1 + Js.len "DO")
    = Js.len "Sum " /\
  search_term ("Sum " +:+ "@" +:+ "DO" +:+ " more") (Js.len "Sum ")
              (Js.len "Sum " + 1 + Js.len "DO") = toLowerCase "DO" /\
  at_position ("Sum " +:+ " " +:+ "DO" +:+ " more") (Js.len "Sum " + 1 + Js.len "DO") = -1 /\
  at_position ("Sum " +:+ Js.nl +:+ "DO" +:+ " more") (Js.len "Sum " + 1 + Js.len "DO") = -1.
Proof. by apply (detect_typed_mention "Sum " "DO" " more"). Defined.

Lemma includes_empty (s : string) : includes s "" = true.
Proof. by destruct s. Qed.

Lemma filter_tabs_empty_term (tabs : list Background.Tab) :
  Forall (fun tab => is_Some (Background.tab_title tab)) tabs ->
  filter_tabs "" tabs = Ok tabs.
Proof.
  induction 1 as [|tab tabs [title Htitle] _ IH]; [done|].
  cbn [filter_tabs]. unfold tab_matches. by rewrite Htitle, includes_empty, IH.
Qed.

(** X18. With the cursor right after an at sign, the search term is empty
    and every tab of the snapshot is offered, in the order of the
    snapshot, provided the snapshot is not empty and every tab has a
    title; no suggestion is highlighted. *)
Theorem detect_empty_term_offers_all_tabs
        (allTabs : list Background.Tab) (before rest : string) (s : Suggestions) :
  allTabs <> [] ->
  Forall (fun tab => is_Some (Background.tab_title tab)) allTabs ->
  detectAtMention allTabs (before +:+ "@" +:+ rest) (Js.len before + 1) s =
    ({| displayed := true;
        items := map (fun tab => (Js.or_else (Background.tab_title tab) "Untitled",
                                  default "" (Background.tab_url tab))) allTabs;
        selectedTabIndex := -1;
        currentAtMentionStart := Js.len before |}, Ok tt).
Proof.
  intros Hsome Htitles.
  pose proof (at_position_typed before "" rest eq_refl) as Hat.
  pose proof (search_term_typed before "" rest) as Hterm.
  change (Js.len before + 1 + Js.len "") with (Js.len before + 1 + 0) in *.
  rewrite Z.add_0_r in *. cbn [String.append] in *. change ("" +:+ rest) with rest in *.
  unfold detectAtMention. rewrite Hat, Hterm.
  destruct (Z.eqb_spec (Js.len before) (-1)) as [Hneg|_];
    [pose proof (len_nonneg before); lia|].
  cbn [toLowerCase]. rewrite filter_tabs_empty_term by done.
  by destruct allTabs.
Qed.

Lemma detect_empty_term_offers_all_tabs_witness :
  detectAtMention (SidePanel.allTabs Samples.panel) ("Sum " +:+ "@" +:+ " more")
                  (Js.len "Sum " + 1)
                  {| displayed := false; items := []; selectedTabIndex := -1;
                     currentAtMentionStart := -1 |} =
    ({| displayed := true;
        items := [("Docs", "https://x"); ("Settings", "chrome://settings/")];
        selectedTabIndex := -1;
        currentAtMentionStart := 4 |}, Ok tt).
Proof.
  apply (detect_empty_term_offers_all_tabs (SidePanel.allTabs Samples.panel)
           "Sum " " more"); [done|].
  repeat constructor; by eexists.
Defined.

(** Case analysis on the comparisons of a goal, closed by arithmetic. *)
Ltac case_order :=
  repeat match goal with
         | |- context [Z.ltb ?a ?b] => destruct (Z.ltb_spec a b)
         | |- context [Z.leb ?a ?b] => destruct (Z.leb_spec a b)
         end; lia.

(** X19. The arrow keys walk the suggestions in a circle.  Whatever the
    index was, after a move it is the index of a suggestion; from no
    highlight, down goes to the first suggestion and up to the last; down
    then up, and up then down, come back to the same suggestion. *)
Theorem navigateAutocomplete_cycles (s : Suggestions) :
  items s <> [] ->
  let n := Z.of_nat (length (items s)) in
  (forall direction,
      0 <= selectedTabIndex (navigateAutocomplete direction s) < n) /\
  (selectedTabIndex s = -1 ->
   selectedTabIndex (navigateAutocomplete 1 s) = 0 /\
   selectedTabIndex (navigateAutocomplete (-1) s) = n - 1) /\
  (0 <= selectedTabIndex s < n ->
   selectedTabIndex (navigateAutocomplete (-1) (navigateAutocomplete 1 s))
     = selectedTabIndex s /\
   selectedTabIndex (navigateAutocomplete 1 (navigateAutocomplete (-1) s))
     = selectedTabIndex s).
Proof.
  intros Hsome n.
  assert (0 < n) as Hn by (subst n; destruct (items s); [done|cbn; lia]).
  assert (forall direction s', items s' = items s ->
             selectedTabIndex (navigateAutocomplete direction s') =
             let i := selectedTabIndex s' + direction in
             let i := if i <? 0 then n - 1 else i in
             if n <=? i then 0 else i) as Hstep.
  { intros direction s' Hitems. unfold navigateAutocomplete. rewrite Hitems. fold n.
    by destruct (Z.eqb_spec n 0); [lia|]. }
  assert (forall direction, items (navigateAutocomplete direction s) = items s) as Hitems.
  { intros direction. unfold navigateAutocomplete. by destruct (_ =? 0). }
  split; [|split].
  - intros direction. rewrite Hstep by done. cbn zeta. case_order.
  - intros Hnone. rewrite !Hstep by done. rewrite Hnone. cbn zeta.
    split; case_order.
  - intros Hin.
    assert (selectedTabIndex (navigateAutocomplete 1 s) =
            if selectedTabIndex s + 1 <? n then selectedTabIndex s + 1 else 0) as Hdown.
    { rewrite Hstep by done. cbn zeta. case_order. }
    assert (selectedTabIndex (navigateAutocomplete (-1) s) =
            if 0 <? selectedTabIndex s then selectedTabIndex s - 1 else n - 1) as Hup.
    { rewrite Hstep by done. cbn zeta. case_order. }
    rewrite !(Hstep _ (navigateAutocomplete _ s)), Hdown, Hup by done. cbn zeta.
    split.
    + destruct (Z.ltb_spec (selectedTabIndex s + 1) n); case_order.
    + destruct (Z.ltb_spec 0 (selectedTabIndex s)); case_order.
Qed.

Lemma navigateAutocomplete_cycles_witness :
  let s := {| displayed := true; items := [("Docs", "https://x"); ("Settings", "")];
              selectedTabIndex := 1; currentAtMentionStart := 0 |} in
  (forall direction, 0 <= selectedTabIndex (navigateAutocomplete direction s) < 2) /\
  (selectedTabIndex s = -1 ->
   selectedTabIndex (navigateAutocomplete 1 s) = 0 /\
   selectedTabIndex (navigateAutocomplete (-1) s) = 2 - 1) /\
  (0 <= selectedTabIndex s < 2 ->
   selectedTabIndex (navigateAutocomplete (-1) (navigateAutocomplete 1 s))
     = selectedTabIndex s /\
   selectedTabIndex (navigateAutocomplete 1 (navigateAutocomplete (-1) s))
     = selectedTabIndex s).
Proof.
  intros s. by apply (navigateAutocomplete_cycles s).
Defined.

End AutocompleteFacts.

(** ** Mention tokens and the regular expression *)

Module TokenFacts.

Import Markers Readable TextareaPanel.

Lemma exec_all_skip (a r : string) (k : nat) :
  exec_all (String.length a + k) (a +:+ r) = exec_all k r.
Proof.
  induction a as [|c a IH]; [reflexivity|].
  rewrite JsFacts.app_cons. cbn [String.length Nat.add exec_all]. exact IH.
Qed.

Lemma span_unquoted_app (tabName rest : string) :
  quote_free tabName = true ->
  span_unquoted (tabName +:+ String Js.dquote rest) = (tabName, String Js.dquote rest).
Proof.
  induction tabName as [|c tabName IH]; [reflexivity|].
  cbn [quote_free]. intros [Hc Hfree]%andb_true_iff.
  rewrite JsFacts.app_cons. cbn [span_unquoted].
  apply negb_true_iff in Hc. rewrite Hc. by rewrite IH.
Qed.

Lemma match_mention_unquoted (c : ascii) (s : string) :
  unquoted_head s -> match_mention (String c s) = None.
Proof.
  intros Hs. unfold match_mention.
  destruct (Ascii.eqb_spec c "@") as [->|Hc].
  - destruct s as [|q s]; [done|]. cbn in Hs. by rewrite Hs.
  - destruct c as [[] [] [] [] [] [] [] []]; try done.
Qed.

(** Text without a double quote holds no mention and does not hide the
    mentions that follow it. *)
Lemma exec_all_unquoted (a r : string) :
  quote_free a = true -> unquoted_head r ->
  exec_all 0 (a +:+ r) = exec_all 0 r.
Proof.
  intros Hfree Hr. induction a as [|c a IH]; [reflexivity|].
  cbn [quote_free] in Hfree. apply andb_true_iff in Hfree as [Hc Hfree].
  rewrite JsFacts.app_cons. cbn [exec_all].
  rewrite match_mention_unquoted; [by apply IH|].
  destruct a as [|c' a]; [exact Hr|].
  rewrite JsFacts.app_cons. cbn in *.
  apply andb_true_iff in Hfree as [Hc' _]. by apply negb_true_iff.
Qed.

Lemma exec_all_match (c : ascii) (rest tabName : string) :
  match_mention (String c rest) = Some tabName ->
  exec_all 0 (String c rest) = tabName :: exec_all (String.length tabName + 2) rest.
Proof. intros Hmatch. cbn [exec_all]. by rewrite Hmatch. Qed.

Lemma match_mention_token (tabTitle rest : string) :
  title_ok tabTitle = true ->
  match_mention (String "@" (String Js.dquote (tabTitle +:+ String Js.dquote rest))) =
  Some tabTitle.
Proof.
  unfold title_ok. intros [Hsome Hfree]%andb_true_iff.
  cbn [match_mention]. rewrite Ascii.eqb_refl, span_unquoted_app by done.
  by destruct tabTitle.
Qed.

(** The regular expression reads a token back. *)
Lemma exec_all_token (tabTitle rest : string) :
  title_ok tabTitle = true ->
  exec_all 0 ("@" +:+ Js.quote +:+ tabTitle +:+ Js.quote +:+ rest) =
  tabTitle :: exec_all 0 rest.
Proof.
  intros Hok.
  change ("@" +:+ Js.quote +:+ tabTitle +:+ Js.quote +:+ rest)
    with (String "@" (String Js.dquote (tabTitle +:+ String Js.dquote rest))).
  rewrite (exec_all_match _ _ tabTitle) by by apply match_mention_token.
  f_equal.
  replace (String Js.dquote (tabTitle +:+ String Js.dquote rest))
    with ((String Js.dquote tabTitle +:+ Js.quote) +:+ rest)
    by (by rewrite JsFacts.app_assoc).
  replace (String.length tabTitle + 2)%nat
    with (String.length (String Js.dquote tabTitle +:+ Js.quote) + 0)%nat
    by (rewrite JsFacts.length_app; cbn; lia).
  apply exec_all_skip.
Qed.

End TokenFacts.

(** ** Selecting a suggestion *)

Module SelectFacts.

Import Autocomplete Markers Readable.

Lemma plain_text_unquoted_head (queryInput : list SidePanel.InputNode) :
  forallb node_ok queryInput = true ->
  unquoted_head (SidePanel.getPlainText queryInput).
Proof.
  induction queryInput as [|[text|tabTitle tabUrl] rest IH]; [done| |done].
  cbn [forallb node_ok SidePanel.getPlainText]. intros [Htext Hrest]%andb_true_iff.
  destruct text as [|c text]; [by apply IH|].
  cbn in *. apply andb_true_iff in Htext as [Hc _]. by apply negb_true_iff.
Qed.

(** X20. The plain text the panel with the rich input sends is read back
    by the regular expression of the panel with the textarea: when no text
    node holds a double quote and every mention tag has a title that is
    not empty and holds no double quote, the names the expression captures
    are the titles of the tags, in order, so both versions of
    [parseTabMentions] give the same tabs. *)
Theorem plain_text_is_read_back
        (allTabs : list Background.Tab) (queryInput : list SidePanel.InputNode) :
  forallb node_ok queryInput = true ->
  TextareaPanel.exec_all 0 (SidePanel.getPlainText queryInput) =
    SidePanel.mention_titles queryInput /\
  TextareaPanel.parseTabMentions allTabs (SidePanel.getPlainText queryInput) =
    SidePanel.parseTabMentions allTabs queryInput.
Proof.
  intros Hok.
  assert (TextareaPanel.exec_all 0 (SidePanel.getPlainText queryInput) =
          SidePanel.mention_titles queryInput) as Htitles.
  { induction queryInput as [|[text|tabTitle tabUrl] rest IH]; [done| |].
    - cbn [forallb node_ok] in Hok. apply andb_true_iff in Hok as [Htext Hrest].
      cbn [SidePanel.getPlainText].
      rewrite TokenFacts.exec_all_unquoted; [by apply IH|done|].
      by apply plain_text_unquoted_head.
    - cbn [forallb node_ok] in Hok. apply andb_true_iff in Hok as [Htitle Hrest].
      cbn [SidePanel.getPlainText]. rewrite TokenFacts.exec_all_token by done.
      rewrite IH by done. reflexivity. }
  split; [done|].
  unfold TextareaPanel.parseTabMentions, SidePanel.parseTabMentions. by rewrite Htitles.
Qed.

Lemma plain_text_is_read_back_witness :
  TextareaPanel.exec_all 0
    (SidePanel.getPlainText
       [SidePanel.TextNode "Compare "; SidePanel.MentionTag "Docs" "https://x";
        SidePanel.MentionTag "Settings" "chrome://settings/";
        SidePanel.TextNode " please"]) = ["Docs"; "Settings"].
Proof.
  refine (proj1 (plain_text_is_read_back []
    [SidePanel.TextNode "Compare "; SidePanel.MentionTag "Docs" "https://x";
     SidePanel.MentionTag "Settings" "chrome://settings/";
     SidePanel.TextNode " please"] _)).
  reflexivity.
Defined.

Lemma token_split (beforeAt tabTitle afterCursor : string) :
  beforeAt +:+ TextareaSelect.mention_token tabTitle +:+ afterCursor =
  (beforeAt +:+ "@" +:+ Js.quote +:+ tabTitle +:+ Js.quote)
    +:+ String " " ("" +:+ afterCursor).
Proof. unfold TextareaSelect.mention_token. by rewrite !JsFacts.app_assoc. Qed.

Lemma token_len (beforeAt tabTitle : string) :
  Js.len (beforeAt +:+ TextareaSelect.mention_token tabTitle) =
  Js.len beforeAt + Js.len tabTitle + 4.
Proof.
  unfold TextareaSelect.mention_token.
  rewrite !JsFacts.len_app. unfold Js.len. cbn. lia.
Qed.

Lemma valid_index {A} (l : list A) (i : Z) (x : A) :
  0 <= i -> l !! Z.to_nat i = Some x ->
  (i <? 0) || (Z.of_nat (length l) <=? i) = false.
Proof.
  intros Hi Hx. apply lookup_lt_Some in Hx.
  apply orb_false_iff. split; [apply Z.ltb_ge|apply Z.leb_gt]; lia.
Qed.

(** X21. Selecting a suggestion in the textarea replaces the typed mention
    by the token of the tab (an at sign, the title between double quotes,
    a space), keeps the text before the at sign and after the cursor, puts
    the cursor right after the token and leaves the dropdown hidden; the
    detection that follows finds no mention and does not throw. *)
Theorem textarea_select_inserts_token
        (allTabs : list Background.Tab) (s : Suggestions) (q : TextareaSelect.Textarea)
        (tabTitle tabUrl : string) :
  0 <= selectedTabIndex s ->
  items s !! Z.to_nat (selectedTabIndex s) = Some (tabTitle, tabUrl) ->
  let beforeAt := Js.substring_to (currentAtMentionStart s) (TextareaSelect.value q) in
  let afterCursor := substring_from (TextareaSelect.selectionStart q) (TextareaSelect.value q) in
  TextareaSelect.selectCurrentTab allTabs s q =
    (hideAutocomplete s,
     {| TextareaSelect.value := beforeAt +:+ TextareaSelect.mention_token tabTitle +:+ afterCursor;
        TextareaSelect.selectionStart :=
          Js.len (beforeAt +:+ TextareaSelect.mention_token tabTitle) |},
     Ok tt).
Proof.
  intros Hindex Hitem beforeAt afterCursor.
  unfold TextareaSelect.selectCurrentTab.
  rewrite (valid_index _ _ _ Hindex Hitem), Hitem.
  fold beforeAt afterCursor. cbn [TextareaSelect.value TextareaSelect.selectionStart].
  unfold detectAtMention.
  assert (at_position (beforeAt +:+ TextareaSelect.mention_token tabTitle +:+ afterCursor)
                      (Js.len beforeAt + Js.len tabTitle + 4) = -1) as ->.
  { rewrite token_split.
    replace (Js.len beforeAt + Js.len tabTitle + 4)
      with (Js.len (beforeAt +:+ "@" +:+ Js.quote +:+ tabTitle +:+ Js.quote)
            + 1 + Js.len "")
      by (rewrite !JsFacts.len_app; unfold Js.len; cbn; lia).
    by rewrite AutocompleteFacts.at_position_after. }
  cbn. by rewrite token_len.
Qed.

Lemma textarea_select_inserts_token_witness :
  TextareaSelect.selectCurrentTab [] Typing.offered Typing.textarea =
    (hideAutocomplete Typing.offered,
     {| TextareaSelect.value := "Sum " +:+ TextareaSelect.mention_token "Docs" +:+ " more";
        TextareaSelect.selectionStart :=
          Js.len ("Sum " +:+ TextareaSelect.mention_token "Docs") |},
     Ok tt).
Proof.
  by apply (textarea_select_inserts_token [] Typing.offered Typing.textarea
              "Docs" "https://x").
Defined.

(** X22. The token a selection writes is read back when the query is
    sent: if the title is not empty and holds no double quote, and the
    text before the at sign holds none either, the names the regular
    expression captures in the new text are the title followed by the
    names it captures in the text after the cursor, and
    [parseTabMentions] gives the first tab of the snapshot with that title
    (none if there is no such tab) followed by the tabs of the text after
    the cursor. *)
Theorem textarea_selection_is_read_back
        (allTabs : list Background.Tab) (s : Suggestions) (q : TextareaSelect.Textarea)
        (tabTitle tabUrl : string) :
  0 <= selectedTabIndex s ->
  items s !! Z.to_nat (selectedTabIndex s) = Some (tabTitle, tabUrl) ->
  title_ok tabTitle = true ->
  quote_free (Js.substring_to (currentAtMentionStart s) (TextareaSelect.value q)) = true ->
  let afterCursor := substring_from (TextareaSelect.selectionStart q) (TextareaSelect.value q) in
  let text := TextareaSelect.value (TextareaSelect.selectCurrentTab allTabs s q).1.2 in
  TextareaPanel.exec_all 0 text = tabTitle :: TextareaPanel.exec_all 0 afterCursor /\
  TextareaPanel.parseTabMentions allTabs text =
    match SidePanel.resolve allTabs tabTitle with
    | Some tab => tab :: TextareaPanel.parseTabMentions allTabs afterCursor
    | None => TextareaPanel.parseTabMentions allTabs afterCursor
    end.
Proof.
  intros Hindex Hitem Htitle Hbefore afterCursor text.
  assert (TextareaPanel.exec_all 0 text =
          tabTitle :: TextareaPanel.exec_all 0 afterCursor) as Hread.
  { subst text. unfold TextareaSelect.selectCurrentTab.
    rewrite (valid_index _ _ _ Hindex Hitem), Hitem.
    destruct (detectAtMention _ _ _ _) as [s' r].
    cbn [fst snd TextareaSelect.value]. fold afterCursor.
    unfold TextareaSelect.mention_token.
    rewrite TokenFacts.exec_all_unquoted by done.
    rewrite !JsFacts.app_assoc, TokenFacts.exec_all_token by done.
    reflexivity. }
  split; [done|].
  unfold TextareaPanel.parseTabMentions.
  rewrite Hread, !PanelFacts.push_mentions_resolve, PanelFacts.omap_resolve_cons.
  by destruct (SidePanel.resolve allTabs tabTitle).
Qed.

Lemma textarea_selection_is_read_back_witness :
  TextareaPanel.exec_all 0
    (TextareaSelect.value
       (TextareaSelect.selectCurrentTab (SidePanel.allTabs Samples.panel)
          Typing.offered Typing.textarea).1.2) =
    "Docs" :: TextareaPanel.exec_all 0
                (substring_from (TextareaSelect.selectionStart Typing.textarea)
                                (TextareaSelect.value Typing.textarea)).
Proof.
  refine (proj1 (textarea_selection_is_read_back (SidePanel.allTabs Samples.panel)
                   Typing.offered Typing.textarea "Docs" "https://x" _ _ _ _));
    reflexivity.
Defined.

(** X23. Selecting a suggestion in the rich input rebuilds the input from
    its text, so the new tag is the only mention tag left: whatever tags
    the input held, [parseTabMentions] then gives at most the tab of the
    selected title, the earlier tags read as plain text, and the text of
    the input is the text before the at sign, the title, a space and the
    text after the cursor. *)
Theorem rich_select_keeps_one_tag
        (allTabs : list Background.Tab) (s : Suggestions)
        (queryInput : list SidePanel.InputNode) (cursorPos : Z)
        (tabTitle tabUrl : string) :
  0 <= selectedTabIndex s ->
  items s !! Z.to_nat (selectedTabIndex s) = Some (tabTitle, tabUrl) ->
  let beforeAt := Js.substring_to (currentAtMentionStart s) (RichSelect.textContent queryInput) in
  let afterCursor := substring_from cursorPos (RichSelect.textContent queryInput) in
  let rebuilt := (RichSelect.selectCurrentTab s queryInput cursorPos).1.2 in
  SidePanel.mention_titles rebuilt = [tabTitle] /\
  SidePanel.parseTabMentions allTabs rebuilt =
    match SidePanel.resolve allTabs tabTitle with
    | Some tab => [tab]
    | None => []
    end /\
  RichSelect.textContent rebuilt = beforeAt +:+ tabTitle +:+ " " +:+ afterCursor /\
  SidePanel.getPlainText rebuilt =
    beforeAt +:+ "@" +:+ Js.quote +:+ tabTitle +:+ Js.quote +:+ " " +:+ afterCursor.
Proof.
  intros Hindex Hitem beforeAt afterCursor rebuilt.
  assert (rebuilt =
          (if Js.truthy beforeAt then [SidePanel.TextNode beforeAt] else [])
            ++ [SidePanel.MentionTag tabTitle tabUrl;
                SidePanel.TextNode (" " +:+ afterCursor)]) as ->.
  { subst rebuilt. unfold RichSelect.selectCurrentTab.
    by rewrite (valid_index _ _ _ Hindex Hitem), Hitem. }
  assert (SidePanel.mention_titles
            ((if Js.truthy beforeAt then [SidePanel.TextNode beforeAt] else [])
               ++ [SidePanel.MentionTag tabTitle tabUrl;
                   SidePanel.TextNode (" " +:+ afterCursor)]) = [tabTitle]) as Htitles.
  { by destruct (Js.truthy beforeAt). }
  split; [done|split; [|split]].
  - unfold SidePanel.parseTabMentions.
    rewrite Htitles, PanelFacts.push_mentions_resolve, PanelFacts.omap_resolve_cons.
    by destruct (SidePanel.resolve allTabs tabTitle).
  - destruct beforeAt as [|c beforeAt]; cbn [Js.truthy app RichSelect.textContent];
      by rewrite ?JsFacts.app_empty_r.
  - destruct beforeAt as [|c beforeAt]; cbn [Js.truthy app SidePanel.getPlainText];
      by rewrite ?JsFacts.app_empty_r.
Qed.

Lemma rich_select_keeps_one_tag_witness :
  SidePanel.mention_titles
    (RichSelect.selectCurrentTab
       {| displayed := true;
          items := [("Docs", "https://x"); ("Settings", "chrome://settings/")];
          selectedTabIndex := 0;
          currentAtMentionStart := 13 |}
       Typing.rich_input 16).1.2 = ["Docs"].
Proof.
  refine (proj1 (rich_select_keeps_one_tag []
    {| displayed := true;
       items := [("Docs", "https://x"); ("Settings", "chrome://settings/")];
       selectedTabIndex := 0;
       currentAtMentionStart := 13 |}
    Typing.rich_input 16 "Docs" "https://x" _ _)); [done|reflexivity].
Defined.

End SelectFacts.

(** ** The send button and [handleSend] *)

Module SendFacts.

Import Autocomplete TextShape.

Lemma trim_truthy_visible (s : string) : Js.truthy (Js.trim s) = Js.truthy (visible s).
Proof.
  rewrite <- (CleanFacts.trimStart_visible s), <- (CleanFacts.trimEnd_visible (Js.trimStart s)).
  fold (Js.trim s).
  pose proof (CleanFacts.trimEnd_head _ (CleanFacts.trimStart_head s)) as Hhead.
  fold (Js.trim s) in Hhead.
  destruct (Js.trim s) as [|c rest]; [done|].
  cbn in *. by rewrite Hhead.
Qed.

Lemma len_truthy (s : string) : (0 <? Js.len s) = Js.truthy s.
Proof. by destruct s. Qed.

Lemma hasModel_truthy (p : SidePanel.Panel) :
  hasModel p = SidePanel.model_truthy (SidePanel.selectedModel p).
Proof.
  unfold hasModel, SidePanel.model_truthy.
  destruct (SidePanel.selectedModel p) as [[|c m]|]; done.
Qed.

Lemma visible_app (a b : string) : visible (a +:+ b) = visible a +:+ visible b.
Proof.
  induction a as [|c a IH]; [done|].
  rewrite JsFacts.app_cons. cbn [visible].
  destruct (Js.is_whitespace c); [done|]. by rewrite JsFacts.app_cons, IH.
Qed.

Lemma truthy_app (a b : string) : Js.truthy (a +:+ b) = Js.truthy a || Js.truthy b.
Proof. by destruct a. Qed.

(** An input with something to see in its text has something to see in
    its plain text. *)
Lemma plain_text_visible (queryInput : list SidePanel.InputNode) :
  Js.truthy (visible (RichSelect.textContent queryInput)) = true ->
  Js.truthy (visible (SidePanel.getPlainText queryInput)) = true.
Proof.
  induction queryInput as [|[text|tabTitle tabUrl] rest IH]; [done| |done].
  cbn [RichSelect.textContent SidePanel.getPlainText].
  rewrite !visible_app, !truthy_app.
  intros [Htext|Hrest]%orb_true_iff; apply orb_true_iff; [by left|right; by apply IH].
Qed.

(** X24. In the panel with the textarea, [handleSend] returns without
    sending exactly when [handleInputChange] disables the send button for
    the same text and the same state: the guard of the function and the
    state of the button are the same condition. *)
Theorem textarea_send_guard (p : SidePanel.Panel) (value : string) :
  TextareaPanel.handleSend p value = None <-> send_disabled p value = true.
Proof.
  unfold TextareaPanel.handleSend, send_disabled.
  rewrite len_truthy, hasModel_truthy.
  destruct (Js.truthy (Js.trim value)), (SidePanel.isLoading p),
    (SidePanel.model_truthy (SidePanel.selectedModel p)); cbn; by split.
Qed.

(** X25. In the panel with the rich input, the button is set from the
    text of the input and the guard of [handleSend] from its plain text:
    whenever the button is enabled, [handleSend] sends, and the query is
    the trimmed plain text under the selected model. *)
Theorem rich_send_when_enabled (p : SidePanel.Panel)
        (queryInput : list SidePanel.InputNode) :
  send_disabled p (RichSelect.textContent queryInput) = false ->
  exists data,
    SidePanel.handleSend p queryInput = Some data /\
    Background.query data = Js.trim (SidePanel.getPlainText queryInput) /\
    Some (Background.model data) = SidePanel.selectedModel p.
Proof.
  unfold send_disabled, SidePanel.handleSend.
  rewrite len_truthy, hasModel_truthy, !trim_truthy_visible.
  intros [[Htext Hmodel]%orb_false_iff Hloading]%orb_false_iff.
  apply negb_false_iff in Htext, Hmodel.
  rewrite (plain_text_visible _ Htext), Hloading, Hmodel. cbn.
  eexists. split; [reflexivity|]. cbn. split; [done|].
  by destruct (SidePanel.selectedModel p).
Qed.

Lemma rich_send_when_enabled_witness :
  exists data,
    SidePanel.handleSend Samples.panel Typing.rich_input = Some data /\
    Background.query data = Js.trim (SidePanel.getPlainText Typing.rich_input) /\
    Some (Background.model data) = SidePanel.selectedModel Samples.panel.
Proof. by apply (rich_send_when_enabled Samples.panel Typing.rich_input). Defined.

End SendFacts.

(** ** Failures of the filter, and tabs with the same title *)

Module FilterFacts.

Import Autocomplete.

Lemma tab_matches_throw (searchTerm : string) (tab : Background.Tab) :
  match tab_matches searchTerm tab with
  | Throw msg => msg = NO_LOWERCASE /\ unreadable searchTerm tab
  | Ok _ => ~ unreadable searchTerm tab
  end.
Proof.
  unfold tab_matches, unreadable.
  destruct (Background.tab_title tab) as [title|]; [|split; [done|by left]].
  destruct (includes (toLowerCase title) searchTerm) eqn:Hmatch.
  - intros [[=]|(title' & [= <-] & Hno & _)]. congruence.
  - destruct (Background.tab_url tab) as [url|].
    + intros [[=]|(title' & _ & _ & [=])].
    + split; [done|]. right. by exists title.
Qed.

Lemma filter_tabs_throw (searchTerm : string) (tabs : list Background.Tab) :
  match filter_tabs searchTerm tabs with
  | Throw msg => msg = NO_LOWERCASE /\ Exists (unreadable searchTerm) tabs
  | Ok _ => ~ Exists (unreadable searchTerm) tabs
  end.
Proof.
  induction tabs as [|tab tabs IH]; [by intros ?%Exists_nil|].
  cbn [filter_tabs]. pose proof (tab_matches_throw searchTerm tab) as Htab.
  destruct (tab_matches searchTerm tab) as [keep|msg].
  - destruct (filter_tabs searchTerm tabs) as [kept|msg].
    + intros [?|?]%Exists_cons; tauto.
    + destruct IH as [-> Hex]. split; [done|]. by apply Exists_cons_tl.
  - destruct Htab as [-> Hun]. split; [done|]. by apply Exists_cons_hd.
Qed.

(** X26. [detectAtMention] returns or throws the error of [toLowerCase] on
    a missing field, nothing else.  It throws exactly when a mention is
    being typed and the snapshot holds a tab without a title, or a tab
    whose title does not match the term and that has no URL; the dropdown
    is then left displayed or hidden as it was, with the suggestions it
    had. *)
Theorem detectAtMention_throws
        (allTabs : list Background.Tab) (text : string) (cursorPos : Z) (s : Suggestions) :
  let atPos := at_position text cursorPos in
  let outcome := detectAtMention allTabs text cursorPos s in
  (outcome.2 = Ok tt \/ outcome.2 = Throw NO_LOWERCASE) /\
  (outcome.2 = Throw NO_LOWERCASE <->
   atPos <> -1 /\ Exists (unreadable (search_term text atPos cursorPos)) allTabs) /\
  (outcome.2 = Throw NO_LOWERCASE ->
   displayed outcome.1 = displayed s /\ items outcome.1 = items s /\
   currentAtMentionStart outcome.1 = atPos).
Proof.
  intros atPos outcome. subst outcome. unfold detectAtMention. fold atPos.
  destruct (Z.eqb_spec atPos (-1)) as [Hnone|Hsome].
  - cbn. split; [by left|]. split; [|done]. split; [done|]. by intros [? _].
  - pose proof (filter_tabs_throw (search_term text atPos cursorPos) allTabs) as Hfilter.
    destruct (filter_tabs (search_term text atPos cursorPos) allTabs) as [[|tab kept]|msg].
    + cbn. split; [by left|]. split; [|done]. split; [done|]. by intros [_ ?].
    + cbn. split; [by left|]. split; [|done]. split; [done|]. by intros [_ ?].
    + destruct Hfilter as [-> Hex]. cbn. split; [by right|]. by split.
Qed.

(** X27. A mention resolves by title alone, to the first tab of the
    snapshot with that title: the URL a mention tag carries is not looked
    at, so of two tabs with the same title the first one is sent, also
    when the suggestion selected was the second.  The same holds for a
    token read by the panel with the textarea. *)
Theorem mention_resolves_to_first_title
        (before rest : list Background.Tab) (tab : Background.Tab)
        (tabTitle tabUrl : string) :
  Forall (fun t => SidePanel.has_title tabTitle t = false) before ->
  Background.tab_title tab = Some tabTitle ->
  SidePanel.parseTabMentions (before ++ tab :: rest)
    [SidePanel.MentionTag tabTitle tabUrl] = [tab] /\
  (Readable.title_ok tabTitle = true ->
   TextareaPanel.parseTabMentions (before ++ tab :: rest)
     ("@" +:+ Js.quote +:+ tabTitle +:+ Js.quote +:+ "") = [tab]).
Proof.
  intros Hbefore Htitle.
  assert (List.find (SidePanel.has_title tabTitle) (before ++ tab :: rest) = Some tab)
    as Hfirst.
  { induction Hbefore as [|t before Ht _ IH].
    - cbn. unfold SidePanel.has_title. by rewrite Htitle, String.eqb_refl.
    - cbn. by rewrite Ht. }
  split.
  - unfold SidePanel.parseTabMentions.
    change (SidePanel.mention_titles [SidePanel.MentionTag tabTitle tabUrl])
      with [tabTitle].
    cbn [SidePanel.push_mentions]. by rewrite Hfirst.
  - intros Hok. unfold TextareaPanel.parseTabMentions.
    rewrite TokenFacts.exec_all_token by done. cbn [TextareaPanel.exec_all].
    cbn [SidePanel.push_mentions]. by rewrite Hfirst.
Qed.

Lemma mention_resolves_to_first_title_witness :
  SidePanel.parseTabMentions
    ([Samples.settings_tab] ++ Samples.docs_tab
       :: [ {| Background.tab_id := 9; Background.tab_title := Some "Docs";
               Background.tab_url := Some "https://y";
               Background.tab_active := false |} ])
    [SidePanel.MentionTag "Docs" "https://y"] = [Samples.docs_tab].
Proof.
  refine (proj1 (mention_resolves_to_first_title [Samples.settings_tab]
    [ {| Background.tab_id := 9; Background.tab_title := Some "Docs";
         Background.tab_url := Some "https://y";
         Background.tab_active := false |} ]
    Samples.docs_tab "Docs" "https://y" _ _)); [|reflexivity].
  by repeat constructor.
Defined.

End FilterFacts.
